(** * Traktor Kontrol F1 driver: report codec, change detection, LED surface

    Shallow embedding of the input-report accessors
    (src/input_reader_base.cpp), the analog readers
    (src/input_reader_fader.cpp, input_reader_knob.cpp), the polling
    frame of [ControllerHandler] and the LED output buffer
    (src/led_controller_base.cpp), followed by the properties of the
    specification that were checked against them.

    Conventions.  An [unsigned char] is a [Z] in [0,255], an [int] a [Z];
    C's [/] and [%] on [int] are [Z.quot] and [Z.rem]; conversions to a
    narrower unsigned type are written out with [mod].  A [float] is an
    IEEE-754 binary32 value ([spec_float] at precision 24, emax 128) with
    round-to-nearest-even, which is how the expressions of the source are
    evaluated when [float] arithmetic is done in [float]. *)

From Stdlib Require Import ZArith Lia Bool Sorted.
From Stdlib Require Import Floats.SpecFloat.
From stdpp Require Import base list.

Local Open Scope Z_scope.

(* ===================================================================== *)
(** ** C scalars and arrays *)
(* ===================================================================== *)

Definition to_uchar (z : Z) : Z := z mod 256.
Definition to_uint16 (z : Z) : Z := z mod 65536.

(** [buffer[i]] on a [const unsigned char*].  Reading outside the array is
    undefined in C; the model reads 0 there.  *)
Definition byte_at (buffer : list Z) (i : Z) : Z :=
  if i <? 0 then 0 else default 0 (buffer !! Z.to_nat i).

(** [a[i]] read on a fixed-size array, with the same convention. *)
Definition elem_at {A} (d : A) (a : list A) (i : Z) : A :=
  if i <? 0 then d else default d (a !! Z.to_nat i).

(** [a[i] = v] on a fixed-size array.  A store outside the array is
    undefined behaviour in C: the model has no successor state ([None]). *)
Definition store_at {A} (a : list A) (i : Z) (v : A) : option (list A) :=
  if (0 <=? i) && (i <? Z.of_nat (length a))
  then Some (<[Z.to_nat i := v]> a)
  else None.

(** [a[i]] read where the index is not known to be in range: a load
    outside the array is undefined behaviour in C ([None]). *)
Definition load_at {A} (a : list A) (i : Z) : option A :=
  if (0 <=? i) && (i <? Z.of_nat (length a)) then a !! Z.to_nat i else None.

(** The indices visited by [for (int i = 0; i < n; i++)]. *)
Definition range (n : nat) : list Z := map Z.of_nat (seq 0 n).

(** The indices visited by [for (int i = lo; i < lo + n; i++)]. *)
Definition interval (lo : Z) (n : nat) : list Z := map (fun i => lo + Z.of_nat i) (seq 0 n).

(** Bounded universal check, for facts settled by running the code on
    every value of a small domain. *)
Fixpoint all_below (n : nat) (P : Z -> bool) : bool :=
  match n with
  | O => true
  | S k => P (Z.of_nat k) && all_below k P
  end.

(* ===================================================================== *)
(** ** binary32 arithmetic *)
(* ===================================================================== *)

Module F32.

Definition prec : Z := 24.
Definition emax : Z := 128.

(** Conversion of an integer to [float]. *)
Definition of_Z (n : Z) : spec_float := binary_normalize prec emax n 0 false.

(** A dyadic literal [m * 2^e], such as [0.5f]. *)
Definition of_dyadic (m e : Z) : spec_float := binary_normalize prec emax m e false.

Definition add : spec_float -> spec_float -> spec_float := SFadd prec emax.
Definition mul : spec_float -> spec_float -> spec_float := SFmul prec emax.
Definition div : spec_float -> spec_float -> spec_float := SFdiv prec emax.
Definition ltb : spec_float -> spec_float -> bool := SFltb.
Definition leb : spec_float -> spec_float -> bool := SFleb.

(** Conversion of a [float] to an integer type: truncation toward zero.
    The conversion of a NaN or an infinity is undefined in C; the model
    gives 0. *)
Definition to_int (f : spec_float) : Z :=
  match f with
  | S754_finite s m e =>
      let v := if 0 <=? e then Z.pos m * 2 ^ e else Z.pos m / 2 ^ (- e) in
      if s then - v else v
  | _ => 0
  end.

Definition zero : spec_float := S754_zero false.
Definition one : spec_float := of_Z 1.
Definition half : spec_float := of_dyadic 1 (-1).

End F32.

(* ===================================================================== *)
(** ** The HID transport *)
(* ===================================================================== *)

(** An opened device, seen through the two primitives the driver calls.
    [hid_read buffer] gives hidapi's return value (bytes read, 0 when a
    non-blocking read has no data, negative on error) and the caller's
    buffer after the call; [hid_write buffer] gives the number of bytes
    sent (negative on error). *)
Record hid_device := {
  hid_read : list Z -> Z * list Z;
  hid_write : list Z -> Z
}.

(* ===================================================================== *)
(** ** Input report: src/input_reader_base.cpp, input_reader_base.h *)
(* ===================================================================== *)

Module InputReader.

Definition INPUT_REPORT_SIZE : Z := 22.
Definition INPUT_REPORT_ID : Z := 0x01.

Definition BUTTON_BYTE_SPECIAL : Z := 3.
Definition BUTTON_BYTE_STOP_AND_CONTROL : Z := 4.

Definition BIT_MASK_SHIFT : Z := 0x80.
Definition BIT_MASK_REVERSE : Z := 0x40.
Definition BIT_MASK_TYPE : Z := 0x20.
Definition BIT_MASK_SIZE : Z := 0x10.
Definition BIT_MASK_BROWSE : Z := 0x08.
Definition BIT_MASK_SELECTOR_WHEEL : Z := 0x04.

Definition BIT_MASK_STOP1 : Z := 0x80.
Definition BIT_MASK_STOP2 : Z := 0x40.
Definition BIT_MASK_STOP3 : Z := 0x20.
Definition BIT_MASK_STOP4 : Z := 0x10.

Definition BIT_MASK_SYNC : Z := 0x08.
Definition BIT_MASK_QUANT : Z := 0x04.
Definition BIT_MASK_CAPTURE : Z := 0x02.

(** What [readInputReport] writes to [std::cerr]. *)
Inductive diagnostic :=
| DeviceIsNull
| BufferIsNull
| WrongReportId (expected got : Z).

Record read_result := {
  read_ok : bool;                 (* the function's return value *)
  read_buffer : option (list Z);  (* the caller's buffer afterwards *)
  read_log : list diagnostic      (* lines written to std::cerr *)
}.

(** [readInputReport(device, buffer)].  A null pointer is [None]. *)
Definition readInputReport (device : option hid_device)
    (buffer : option (list Z)) : read_result :=
  match device with
  | None => {| read_ok := false; read_buffer := buffer; read_log := [DeviceIsNull] |}
  | Some dev =>
      match buffer with
      | None => {| read_ok := false; read_buffer := None; read_log := [BufferIsNull] |}
      | Some buf =>
          let '(bytes_read, buf') := hid_read dev buf in
          if bytes_read <=? 0 then
            {| read_ok := false; read_buffer := Some buf'; read_log := [] |}
          else if negb (byte_at buf' 0 =? INPUT_REPORT_ID) then
            {| read_ok := false; read_buffer := Some buf';
               read_log := [WrongReportId INPUT_REPORT_ID (byte_at buf' 0)] |}
          else
            {| read_ok := true; read_buffer := Some buf'; read_log := [] |}
      end
  end.

(** [isSpecialButtonPressed(buffer, index)]: indices 0..5 are SHIFT,
    REVERSE, TYPE, SIZE, BROWSE, SELECTOR_WHEEL; indices from 6 on are
    SYNC, QUANT, CAPTURE. *)
Definition isSpecialButtonPressed (buffer : list Z) (index : Z) : bool :=
  if index <? 6 then
    let special_byte := byte_at buffer BUTTON_BYTE_SPECIAL in
    let button_mask := to_uchar (Z.shiftl 0x01 (7 - index)) in
    negb (Z.land special_byte button_mask =? 0)
  else
    let control_byte := byte_at buffer BUTTON_BYTE_STOP_AND_CONTROL in
    let button_mask := to_uchar (Z.shiftl 0x01 (3 - (index - 6))) in
    negb (Z.land control_byte button_mask =? 0).

(** [isStopButtonPressed(buffer, button)]. *)
Definition isStopButtonPressed (buffer : list Z) (button : Z) : bool :=
  let stop_byte := byte_at buffer BUTTON_BYTE_STOP_AND_CONTROL in
  let button_mask := to_uchar (Z.shiftl 0x01 (7 - button)) in
  negb (Z.land stop_byte button_mask =? 0).

(** [isMatrixButtonPressed(buffer, row, col)]. *)
Definition isMatrixButtonPressed (buffer : list Z) (row col : Z) : bool :=
  let bit_mask :=
    to_uchar (Z.shiftl (Z.shiftl 0x01 (3 - col)) ((1 - Z.rem row 2) * 4)) in
  negb (Z.land (byte_at buffer (Z.quot row 2 + 1)) bit_mask =? 0).

(** The control-button accessor of the header, [isControlButtonPressed
    (buffer, index)], in terms of the accessor that implements it:
    control button [index] is special index [6 + index]. *)
Definition isControlPressed (buffer : list Z) (index : Z) : bool :=
  isSpecialButtonPressed buffer (6 + index).

End InputReader.

(** The enum-keyed accessors of the same translation unit (the variant of
    input_reader_base.cpp that switches on [SpecialButton] and
    [ControlButton] and takes its masks from the header). *)
Module EnumReader.
Import InputReader.

Inductive SpecialButton := SHIFT | REVERSE | TYPE | SIZE | BROWSE | SELECTOR_WHEEL.
Inductive ControlButton := SYNC | QUANT | CAPTURE.

Definition isSpecialButtonPressed (buffer : list Z) (button : SpecialButton) : bool :=
  let special_byte := byte_at buffer BUTTON_BYTE_SPECIAL in
  let button_mask :=
    match button with
    | SHIFT => BIT_MASK_SHIFT
    | REVERSE => BIT_MASK_REVERSE
    | TYPE => BIT_MASK_TYPE
    | SIZE => BIT_MASK_SIZE
    | BROWSE => BIT_MASK_BROWSE
    | SELECTOR_WHEEL => BIT_MASK_SELECTOR_WHEEL
    end in
  negb (Z.land special_byte button_mask =? 0).

(** [buffer == nullptr] is [None]. *)
Definition isControlButtonPressed (buffer : option (list Z)) (button : ControlButton) : bool :=
  match buffer with
  | None => false
  | Some buffer =>
      let control_byte := byte_at buffer BUTTON_BYTE_STOP_AND_CONTROL in
      let button_mask :=
        match button with
        | SYNC => BIT_MASK_SYNC
        | QUANT => BIT_MASK_QUANT
        | CAPTURE => BIT_MASK_CAPTURE
        end in
      negb (Z.land control_byte button_mask =? 0)
  end.

Definition special_index (b : SpecialButton) : Z :=
  match b with
  | SHIFT => 0 | REVERSE => 1 | TYPE => 2 | SIZE => 3 | BROWSE => 4 | SELECTOR_WHEEL => 5
  end.

Definition control_index (b : ControlButton) : Z :=
  match b with SYNC => 0 | QUANT => 1 | CAPTURE => 2 end.

End EnumReader.

(* ===================================================================== *)
(** ** Analog readers: src/input_reader_fader.cpp, input_reader_knob.cpp *)
(* ===================================================================== *)

Module Fader.

Definition FADER_BYTE_START : Z := 14.
Definition FADER_COUNT : Z := 4.
Definition FADER_BYTES_PER_FADER : Z := 2.
Definition FADER_RAW_MIN : Z := 0x000.
Definition FADER_RAW_MAX : Z := 0xFFF.
Definition FADER_12BIT_MASK : Z := 0x0FFF.

Definition clampRawValue (raw_value : Z) : Z :=
  if raw_value <? FADER_RAW_MIN then FADER_RAW_MIN
  else if raw_value >? FADER_RAW_MAX then FADER_RAW_MAX
  else raw_value.

Definition extractRawFaderValue (buffer : list Z) (fader_number : Z) : Z :=
  let byte_offset := fader_number * FADER_BYTES_PER_FADER in
  let lsb_position := FADER_BYTE_START + byte_offset in
  let msb_position := FADER_BYTE_START + byte_offset + 1 in
  let raw_value :=
    to_uint16 (Z.lor (byte_at buffer lsb_position)
                     (Z.shiftl (byte_at buffer msb_position) 8)) in
  let raw_value := Z.land raw_value FADER_12BIT_MASK in
  clampRawValue raw_value.

(** The local [int normalized_value] of [rawToNormalized]. *)
Definition normalized_value (raw_value : Z) : Z :=
  F32.to_int
    (F32.mul (F32.div (F32.of_Z raw_value) (F32.of_Z FADER_RAW_MAX))
             (F32.of_Z 127)).

(** [rawToNormalized(raw_value)]: the [int] is converted back to the
    [float] return type. *)
Definition rawToNormalized (raw_value : Z) : spec_float :=
  F32.of_Z (normalized_value raw_value).

Definition getFaderValue (buffer : list Z) (fader_number : Z) : spec_float :=
  rawToNormalized (extractRawFaderValue buffer fader_number).

End Fader.

Module Knob.

(** Modelled from the spec: the constants of input_reader_knob.h, which is
    not among the sources.  The spec gives knobs the layout of faders
    (bytes 6 to 13, two bytes per knob, low byte first, 12-bit samples
    0 to 4095), as do the comments of input_reader_knob.cpp. *)
Definition KNOB_BYTE_START : Z := 6.
Definition KNOB_COUNT : Z := 4.
Definition KNOB_BYTES_PER_KNOB : Z := 2.
Definition KNOB_RAW_MIN : Z := 0x000.
Definition KNOB_RAW_MAX : Z := 0xFFF.
Definition KNOB_12BIT_MASK : Z := 0x0FFF.

Definition clampRawValue (raw_value : Z) : Z :=
  if raw_value <? KNOB_RAW_MIN then KNOB_RAW_MIN
  else if raw_value >? KNOB_RAW_MAX then KNOB_RAW_MAX
  else raw_value.

Definition extractRawKnobValue (buffer : list Z) (knob_number : Z) : Z :=
  let byte_offset := knob_number * KNOB_BYTES_PER_KNOB in
  let lsb_position := KNOB_BYTE_START + byte_offset in
  let msb_position := KNOB_BYTE_START + byte_offset + 1 in
  let raw_value :=
    to_uint16 (Z.lor (byte_at buffer lsb_position)
                     (Z.shiftl (byte_at buffer msb_position) 8)) in
  let raw_value := Z.land raw_value KNOB_12BIT_MASK in
  clampRawValue raw_value.

Definition normalized_value (raw_value : Z) : Z :=
  F32.to_int
    (F32.mul (F32.div (F32.of_Z raw_value) (F32.of_Z KNOB_RAW_MAX))
             (F32.of_Z 127)).

Definition rawToNormalized (raw_value : Z) : spec_float :=
  F32.of_Z (normalized_value raw_value).

Definition getKnobValue (buffer : list Z) (knob_number : Z) : spec_float :=
  rawToNormalized (extractRawKnobValue buffer knob_number).

End Knob.

(* ===================================================================== *)
(** ** Change detection: the member functions of ControllerHandler *)
(* ===================================================================== *)

Module Controller.
Import InputReader.

(** The calls made on the [ControllerDelegate]. *)
Inductive event :=
| onButtonPress (index : Z)
| onButtonRelease (index : Z)
| onMatrixButtonPress (row col : Z)
| onMatrixButtonRelease (row col : Z)
| onKnobChanged (knob value : Z)
| onSliderChanged (fader value : Z).

(** [bool a[4][4]] as a list of rows. *)
Definition get2 (m : list (list bool)) (row col : Z) : bool :=
  elem_at false (elem_at [] m row) col.

Definition set2 (m : list (list bool)) (row col : Z) (v : bool) : list (list bool) :=
  <[Z.to_nat row := <[Z.to_nat col := v]> (elem_at [] m row)]> m.

Record MatrixButtonState := {
  current_state : list (list bool);
  previous_state : list (list bool)
}.

(** The constructor of [MatrixButtonState]: everything released. *)
Definition MatrixButtonState_init : MatrixButtonState :=
  {| current_state := replicate 4 (replicate 4 false);
     previous_state := replicate 4 (replicate 4 false) |}.

(** The file-level [bool specialPressed[9] = {false}]. *)
Definition specialPressed_init : list bool := replicate 9 false.

(** Body of the first loop of [updateButtons], for index [i]. *)
Definition special_iteration (input_buffer : list Z)
    (acc : list bool * list event) (i : Z) : list bool * list event :=
  let '(specialPressed, out) := acc in
  if isSpecialButtonPressed input_buffer i then
    if negb (elem_at false specialPressed i) then
      (<[Z.to_nat i := true]> specialPressed, out ++ [onButtonPress (4 + i)])
    else (specialPressed, out)
  else if elem_at false specialPressed i then
    (<[Z.to_nat i := false]> specialPressed, out ++ [onButtonRelease (4 + i)])
  else (specialPressed, out).

(** Body of the second loop of [updateButtons], for index [i]. *)
Definition stop_iteration (input_buffer : list Z) (out : list event) (i : Z) : list event :=
  if isStopButtonPressed input_buffer i then out ++ [onButtonPress i] else out.

(** [ControllerHandler::updateButtons]: the new [specialPressed] and the
    delegate calls, in order. *)
Definition updateButtons (input_buffer : list Z) (specialPressed : list bool)
    : list bool * list event :=
  let '(specialPressed, out) :=
    fold_left (special_iteration input_buffer) (range 9) (specialPressed, []) in
  (specialPressed, fold_left (stop_iteration input_buffer) (range 4) out).

(** Body of the inner loop of [updateMatrixButtonStates]. *)
Definition matrix_iteration (input_buffer : list Z) (row : Z)
    (acc : MatrixButtonState * list event) (col : Z) : MatrixButtonState * list event :=
  let '(button_state, out) := acc in
  let current_pressed := isMatrixButtonPressed input_buffer row col in
  let out :=
    if negb (eqb current_pressed (get2 (previous_state button_state) row col)) then
      if current_pressed then out ++ [onMatrixButtonPress row col]
      else out ++ [onMatrixButtonRelease row col]
    else out in
  ({| current_state := set2 (current_state button_state) row col current_pressed;
      previous_state := set2 (previous_state button_state) row col current_pressed |},
   out).

(** [ControllerHandler::updateMatrixButtonStates]. *)
Definition updateMatrixButtonStates (input_buffer : list Z)
    (button_state : MatrixButtonState) : MatrixButtonState * list event :=
  fold_left
    (fun acc row => fold_left (matrix_iteration input_buffer row) (range 4) acc)
    (range 4) (button_state, []).

(** [AnalogControlState] as [updateKnobStates] and [updateFaderStates] use
    it.  A [std::chrono::system_clock::time_point] is its tick count. *)
Record AnalogControlState := {
  previous_knob_values : list Z;
  previous_fader_values : list Z;
  is_fader_value_dirty : list bool;
  last_slider_change : list Z
}.

(** Body of the loop of [updateKnobStates]. *)
Definition knob_iteration (input_buffer : list Z)
    (acc : AnalogControlState * list event) (knob : Z) : AnalogControlState * list event :=
  let '(analog_state, out) := acc in
  let current_value := F32.to_int (Knob.getKnobValue input_buffer knob) in
  let previous_value := elem_at 0 (previous_knob_values analog_state) knob in
  let out :=
    if negb (current_value =? previous_value)
    then out ++ [onKnobChanged knob (current_value * 2)] else out in
  ({| previous_knob_values :=
        <[Z.to_nat knob := current_value]> (previous_knob_values analog_state);
      previous_fader_values := previous_fader_values analog_state;
      is_fader_value_dirty := is_fader_value_dirty analog_state;
      last_slider_change := last_slider_change analog_state |},
   out).

Definition updateKnobStates (input_buffer : list Z)
    (analog_state : AnalogControlState) : AnalogControlState * list event :=
  fold_left (knob_iteration input_buffer) (range 4) (analog_state, []).

Section Clock.

(** Ticks of [system_clock] per millisecond (its period is left to the
    implementation). *)
Variable ticks_per_ms : Z.

(** [duration_cast<milliseconds>(now - then).count()]: truncation
    toward zero. *)
Definition elapsed_ms (now before : Z) : Z := Z.quot (now - before) ticks_per_ms.

(** Body of the loop of [updateFaderStates]; [now] is the clock value
    read in this iteration. *)
Definition fader_iteration (input_buffer : list Z) (now : Z)
    (acc : AnalogControlState * list event) (fader : Z)
    : AnalogControlState * list event :=
  let '(analog_state, out) := acc in
  let current_value := F32.to_int (Fader.getFaderValue input_buffer fader) in
  let previous_value := elem_at 0 (previous_fader_values analog_state) fader in
  let mark :=
    negb (current_value =? previous_value)
    && negb (elem_at false (is_fader_value_dirty analog_state) fader) in
  let last1 :=
    if mark then <[Z.to_nat fader := now]> (last_slider_change analog_state)
    else last_slider_change analog_state in
  let dirty1 :=
    if mark then <[Z.to_nat fader := true]> (is_fader_value_dirty analog_state)
    else is_fader_value_dirty analog_state in
  let fire :=
    elem_at false dirty1 fader
    && (elapsed_ms now (elem_at 0 last1 fader) >? 50) in
  ({| previous_knob_values := previous_knob_values analog_state;
      previous_fader_values :=
        <[Z.to_nat fader := current_value]> (previous_fader_values analog_state);
      is_fader_value_dirty :=
        if fire then <[Z.to_nat fader := false]> dirty1 else dirty1;
      last_slider_change :=
        if fire then <[Z.to_nat fader := now]> last1 else last1 |},
   if fire then out ++ [onSliderChanged fader (current_value * 2)] else out).

(** [ControllerHandler::updateFaderStates]; [clock fader] is the value
    of [system_clock::now()] read in the iteration for [fader]. *)
Definition updateFaderStates (input_buffer : list Z) (clock : Z -> Z)
    (analog_state : AnalogControlState) : AnalogControlState * list event :=
  fold_left
    (fun acc fader => fader_iteration input_buffer (clock fader) acc fader)
    (range 4) (analog_state, []).

(** Successive polling frames, each with its report and its clock. *)
Fixpoint fader_frames (frames : list (list Z * (Z -> Z)))
    (analog_state : AnalogControlState) : AnalogControlState * list event :=
  match frames with
  | [] => (analog_state, [])
  | (input_buffer, clock) :: rest =>
      let '(s1, out1) := updateFaderStates input_buffer clock analog_state in
      let '(s2, out2) := fader_frames rest s1 in
      (s2, out1 ++ out2)
  end.

End Clock.

(** Successive polling frames through [updateButtons]. *)
Fixpoint button_frames (frames : list (list Z)) (specialPressed : list bool)
    : list bool * list event :=
  match frames with
  | [] => (specialPressed, [])
  | input_buffer :: rest =>
      let '(s1, out1) := updateButtons input_buffer specialPressed in
      let '(s2, out2) := button_frames rest s1 in
      (s2, out1 ++ out2)
  end.

(** Successive polling frames through [updateMatrixButtonStates]. *)
Fixpoint matrix_frames (frames : list (list Z)) (button_state : MatrixButtonState)
    : MatrixButtonState * list event :=
  match frames with
  | [] => (button_state, [])
  | input_buffer :: rest =>
      let '(s1, out1) := updateMatrixButtonStates input_buffer button_state in
      let '(s2, out2) := matrix_frames rest s1 in
      (s2, out1 ++ out2)
  end.

(** Successive polling frames through [updateKnobStates]. *)
Fixpoint knob_frames (frames : list (list Z)) (analog_state : AnalogControlState)
    : AnalogControlState * list event :=
  match frames with
  | [] => (analog_state, [])
  | input_buffer :: rest =>
      let '(s1, out1) := updateKnobStates input_buffer analog_state in
      let '(s2, out2) := knob_frames rest s1 in
      (s2, out1 ++ out2)
  end.

(** The constructor of [AnalogControlState]: all previous values -1.  The
    two fader-coalescing arrays are not set by the constructor of the
    header; they are whatever the object holds. *)
Definition AnalogControlState_init (dirty : list bool) (last_change : list Z)
    : AnalogControlState :=
  {| previous_knob_values := replicate 4 (-1);
     previous_fader_values := replicate 4 (-1);
     is_fader_value_dirty := dirty;
     last_slider_change := last_change |}.

End Controller.

(* ===================================================================== *)
(** ** LED output: src/led_controller_base.cpp, led_controller_base.h *)
(* ===================================================================== *)

Module LEDColor.
Inductive t := black | red | orange | lightorange | warmyellow | yellow | lime | green | mint | cyan | turquise | blue | plum | violet | purple | magenta | fuchsia | white.
End LEDColor.

Module Led.

Definition LED_REPORT_SIZE : Z := 81.
Definition LED_REPORT_ID : Z := 0x80.

Definition LED_BYTE_7SEG_RIGHT_START : Z := 1.
Definition LED_BYTE_7SEG_LEFT_START : Z := 9.
Definition LED_BYTE_SPECIAL_START : Z := 17.
Definition LED_BYTE_CONTROL_START : Z := 22.
Definition LED_BYTE_MATRIX_START : Z := 25.
Definition LED_BYTE_STOP_START : Z := 73.

Definition MATRIX_LEDS_PER_BUTTON : Z := 3.
Definition MATRIX_ROWS : Z := 4.
Definition MATRIX_COLS : Z := 4.

Record BRGColor := { blue : Z; red : Z; green : Z }.

Inductive LEDButton := CAPTURE | QUANT | SYNC | BROWSE | SIZE | TYPE | REVERSE | SHIFT.

(** [(int)button]. *)
Definition LEDButton_to_int (button : LEDButton) : Z :=
  match button with
  | CAPTURE => 0 | QUANT => 1 | SYNC => 2 | BROWSE => 3
  | SIZE => 4 | TYPE => 5 | REVERSE => 6 | SHIFT => 7
  end.

Record LEDStateMatrix := { color : LEDColor.t; brightness : spec_float }.
Record LEDState := { state_brightness : spec_float }.

(** The file-level variables of led_controller_base.cpp. *)
Record globals := {
  led_buffer : list Z;                        (* unsigned char[81] *)
  current_device : option hid_device;
  matrix_states : list (list LEDStateMatrix); (* [5][5] *)
  special_states : list LEDState;             (* [5] *)
  control_states : list LEDState;             (* [3] *)
  stop_states : list LEDState                 (* [4] *)
}.

(** [convertTo7Bit(value_8bit, brightness)].  The final conversion to
    [unsigned char] is of a value in [0,127] unless [brightness] is a NaN,
    whose conversion is undefined in C. *)
Definition convertTo7Bit (value_8bit : Z) (brightness : spec_float) : Z :=
  let brightness := if F32.ltb brightness F32.zero then F32.zero else brightness in
  let brightness := if F32.ltb F32.one brightness then F32.one else brightness in
  let result :=
    F32.mul (F32.div (F32.mul (F32.of_Z value_8bit) (F32.of_Z 127)) (F32.of_Z 255))
            brightness in
  let result := if F32.ltb result F32.zero then F32.zero else result in
  let result := if F32.ltb (F32.of_Z 127) result then F32.of_Z 127 else result in
  to_uchar (F32.to_int (F32.add result F32.half)).

Definition isValidMatrixPosition (row col : Z) : bool :=
  (1 <=? row) && (row <=? MATRIX_ROWS) && (1 <=? col) && (col <=? MATRIX_COLS).

(** [getColorWithBrightness(color, brightness)]. *)
Definition getColorWithBrightness (color : LEDColor.t) (brightness : spec_float) : BRGColor :=
  match color with
  | LEDColor.black =>
      {| blue := convertTo7Bit 0 brightness;
         red := convertTo7Bit 0 brightness;
         green := convertTo7Bit 0 brightness |}
  | LEDColor.red =>
      {| blue := convertTo7Bit 0 brightness;
         red := convertTo7Bit 255 brightness;
         green := convertTo7Bit 0 brightness |}
  | LEDColor.orange =>
      {| blue := convertTo7Bit 45 brightness;
         red := convertTo7Bit 255 brightness;
         green := convertTo7Bit 97 brightness |}
  | LEDColor.lightorange =>
      {| blue := convertTo7Bit 0 brightness;
         red := convertTo7Bit 255 brightness;
         green := convertTo7Bit 148 brightness |}
  | LEDColor.warmyellow =>
      {| blue := convertTo7Bit 0 brightness;
         red := convertTo7Bit 255 brightness;
         green := convertTo7Bit 213 brightness |}
  | LEDColor.yellow =>
      {| blue := convertTo7Bit 0 brightness;
         red := convertTo7Bit 255 brightness;
         green := convertTo7Bit 255 brightness |}
  | LEDColor.lime =>
      {| blue := convertTo7Bit 0 brightness;
         red := convertTo7Bit 144 brightness;
         green := convertTo7Bit 255 brightness |}
  | LEDColor.green =>
      {| blue := convertTo7Bit 0 brightness;
         red := convertTo7Bit 0 brightness;
         green := convertTo7Bit 255 brightness |}
  | LEDColor.mint =>
      {| blue := convertTo7Bit 165 brightness;
         red := convertTo7Bit 0 brightness;
         green := convertTo7Bit 255 brightness |}
  | LEDColor.cyan =>
      {| blue := convertTo7Bit 255 brightness;
         red := convertTo7Bit 0 brightness;
         green := convertTo7Bit 255 brightness |}
  | LEDColor.turquise =>
      {| blue := convertTo7Bit 255 brightness;
         red := convertTo7Bit 0 brightness;
         green := convertTo7Bit 206 brightness |}
  | LEDColor.blue =>
      {| blue := convertTo7Bit 255 brightness;
         red := convertTo7Bit 0 brightness;
         green := convertTo7Bit 49 brightness |}
  | LEDColor.plum =>
      {| blue := convertTo7Bit 218 brightness;
         red := convertTo7Bit 69 brightness;
         green := convertTo7Bit 49 brightness |}
  | LEDColor.violet =>
      {| blue := convertTo7Bit 217 brightness;
         red := convertTo7Bit 125 brightness;
         green := convertTo7Bit 41 brightness |}
  | LEDColor.purple =>
      {| blue := convertTo7Bit 255 brightness;
         red := convertTo7Bit 229 brightness;
         green := convertTo7Bit 18 brightness |}
  | LEDColor.magenta =>
      {| blue := convertTo7Bit 255 brightness;
         red := convertTo7Bit 255 brightness;
         green := convertTo7Bit 0 brightness |}
  | LEDColor.fuchsia =>
      {| blue := convertTo7Bit 136 brightness;
         red := convertTo7Bit 255 brightness;
         green := convertTo7Bit 0 brightness |}
  | LEDColor.white =>
      {| blue := convertTo7Bit 255 brightness;
         red := convertTo7Bit 255 brightness;
         green := convertTo7Bit 255 brightness |}
  end.

(** The palette as the source comments give it, (red, green, blue): the
    8-bit arguments of the three conversions of each case above. *)
Definition palette_rgb (color : LEDColor.t) : Z * Z * Z :=
  match color with
  | LEDColor.black => (0, 0, 0)
  | LEDColor.red => (255, 0, 0)
  | LEDColor.orange => (255, 97, 45)
  | LEDColor.lightorange => (255, 148, 0)
  | LEDColor.warmyellow => (255, 213, 0)
  | LEDColor.yellow => (255, 255, 0)
  | LEDColor.lime => (144, 255, 0)
  | LEDColor.green => (0, 255, 0)
  | LEDColor.mint => (0, 255, 165)
  | LEDColor.cyan => (0, 255, 255)
  | LEDColor.turquise => (0, 206, 255)
  | LEDColor.blue => (0, 49, 255)
  | LEDColor.plum => (69, 49, 218)
  | LEDColor.violet => (125, 41, 217)
  | LEDColor.purple => (229, 18, 255)
  | LEDColor.magenta => (255, 0, 255)
  | LEDColor.fuchsia => (255, 0, 136)
  | LEDColor.white => (255, 255, 255)
  end.

(** [sendLEDReport(device)]. *)
Definition sendLEDReport (device : option hid_device) (buffer : list Z) : bool :=
  match device with
  | None => false
  | Some dev =>
      let bytes_sent := hid_write dev buffer in
      if bytes_sent <? 0 then false
      else if negb (bytes_sent =? LED_REPORT_SIZE) then false
      else true
  end.

(** Step 7 of every setter. *)
Definition send_if_connected (g : globals) : bool :=
  match current_device g with
  | Some dev => sendLEDReport (Some dev) (led_buffer g)
  | None => false
  end.

(** The state [initializeLEDController(device)] leaves (for a non-null
    device): the buffer zeroed but for the report identifier, every
    stored state off.  The entries of [matrix_states] in row 0 or column
    0, which its loops skip, keep the zero of static storage, which is
    the same value. *)
Definition initialized (device : hid_device) : globals :=
  {| led_buffer := LED_REPORT_ID :: replicate 80 0;
     current_device := Some device;
     matrix_states :=
       replicate 5 (replicate 5 {| color := LEDColor.black; brightness := F32.zero |});
     special_states := replicate 5 {| state_brightness := F32.zero |};
     control_states := replicate 3 {| state_brightness := F32.zero |};
     stop_states := replicate 4 {| state_brightness := F32.zero |} |}.

Definition with_buffer (g : globals) (buffer : list Z) : globals :=
  {| led_buffer := buffer;
     current_device := current_device g;
     matrix_states := matrix_states g;
     special_states := special_states g;
     control_states := control_states g;
     stop_states := stop_states g |}.

(** [getMatrixButtonState(row, col)]. *)
Definition getMatrixButtonState (g : globals) (row col : Z) : LEDStateMatrix :=
  if negb (isValidMatrixPosition row col) then
    {| color := LEDColor.black; brightness := F32.zero |}
  else
    elem_at {| color := LEDColor.black; brightness := F32.zero |}
            (elem_at [] (matrix_states g) row) col.

(** [setMatrixButtonLED(row, col, BRGColor color, store_led_state)].
    The result is the return value and the globals afterwards; [None]
    when a store falls outside [led_buffer]. *)
Definition setMatrixButtonLED_BRG (g : globals) (row col : Z) (c : BRGColor)
    (store_led_state : bool) : option (bool * globals) :=
  let button_index := row * MATRIX_COLS + col in
  let base_byte := LED_BYTE_MATRIX_START + button_index * MATRIX_LEDS_PER_BUTTON in
  b1 ← store_at (led_buffer g) base_byte (blue c);
  b2 ← store_at b1 (base_byte + 1) (red c);
  b3 ← store_at b2 (base_byte + 2) (green c);
  let g' := with_buffer g b3 in
  Some (send_if_connected g', g').

(** [setMatrixButtonLED(row, col, LEDColor color, brightness,
    store_led_state)]. *)
Definition setMatrixButtonLED (g : globals) (row col : Z) (c : LEDColor.t)
    (brightness : spec_float) (store_led_state : bool) : option (bool * globals) :=
  setMatrixButtonLED_BRG g row col (getColorWithBrightness c brightness) store_led_state.

(** Step 2 of [setButtonLED] and [setStopButtonLED]. *)
Definition clamp_brightness (brightness : spec_float) : spec_float :=
  let brightness := if F32.ltb brightness F32.zero then F32.zero else brightness in
  if F32.ltb F32.one brightness then F32.one else brightness.

(** [setButtonLED(button, brightness, store_led_state)]; [None] when a
    store falls outside its array. *)
Definition setButtonLED (g : globals) (button : LEDButton) (brightness : spec_float)
    (store_led_state : bool) : option (bool * globals) :=
  let index := LEDButton_to_int button in
  let brightness := clamp_brightness brightness in
  special ←
    (if store_led_state
     then store_at (special_states g) index {| state_brightness := brightness |}
     else Some (special_states g));
  let led_value := convertTo7Bit 255 brightness in
  let byte_position :=
    if index <? 3 then LED_BYTE_CONTROL_START + index
    else LED_BYTE_SPECIAL_START + (index - 3) in
  buffer ← store_at (led_buffer g) byte_position led_value;
  let g' :=
    {| led_buffer := buffer;
       current_device := current_device g;
       matrix_states := matrix_states g;
       special_states := special;
       control_states := control_states g;
       stop_states := stop_states g |} in
  Some (send_if_connected g', g').

(** [setStopButtonLED(index, brightness, store_led_state)]. *)
Definition setStopButtonLED (g : globals) (index : Z) (brightness : spec_float)
    (store_led_state : bool) : option (bool * globals) :=
  let brightness := clamp_brightness brightness in
  stop ←
    (if store_led_state
     then store_at (stop_states g) index {| state_brightness := brightness |}
     else Some (stop_states g));
  let led_value := convertTo7Bit 255 brightness in
  let left_byte := LED_BYTE_STOP_START + (7 - index * 2) in
  let right_byte := LED_BYTE_STOP_START + (7 - index * 2) - 1 in
  b1 ← store_at (led_buffer g) right_byte led_value;
  b2 ← store_at b1 left_byte led_value;
  let g' :=
    {| led_buffer := b2;
       current_device := current_device g;
       matrix_states := matrix_states g;
       special_states := special_states g;
       control_states := control_states g;
       stop_states := stop |} in
  Some (send_if_connected g', g').

(** Rounding of an 8-bit channel to 7 bits, to the nearest integer with
    halves up: what [convertTo7Bit] computes at full brightness. *)
Definition quantize7 (value_8bit : Z) : Z := (2 * 127 * value_8bit + 255) / (2 * 255).

(** Byte offsets of the header, from the start of each group. *)
Definition LED_OFFSET_BROWSE : Z := 0.
Definition LED_OFFSET_SIZE : Z := 1.
Definition LED_OFFSET_TYPE : Z := 2.
Definition LED_OFFSET_REVERSE : Z := 3.
Definition LED_OFFSET_SHIFT : Z := 4.

Definition LED_OFFSET_CAPTURE : Z := 0.
Definition LED_OFFSET_QUANT : Z := 1.
Definition LED_OFFSET_SYNC : Z := 2.

Definition LED_OFFSET_STOP4_RIGHT : Z := 0.
Definition LED_OFFSET_STOP4_LEFT : Z := 1.
Definition LED_OFFSET_STOP3_RIGHT : Z := 2.
Definition LED_OFFSET_STOP3_LEFT : Z := 3.
Definition LED_OFFSET_STOP2_RIGHT : Z := 4.
Definition LED_OFFSET_STOP2_LEFT : Z := 5.
Definition LED_OFFSET_STOP1_RIGHT : Z := 6.
Definition LED_OFFSET_STOP1_LEFT : Z := 7.

(** [getButtonState(button)]; [None] when the load falls outside
    [special_states]. *)
Definition getButtonState (g : globals) (button : LEDButton) : option LEDState :=
  let index := LEDButton_to_int button in
  if (index <? 0) || (index >? 8) then Some {| state_brightness := F32.zero |}
  else load_at (special_states g) index.

(** The file-level variables before any call: zero-initialised statics
    ([LEDColor::black] is the enumerator 0, the device pointer is null). *)
Definition static_globals : globals :=
  {| led_buffer := replicate 81 0;
     current_device := None;
     matrix_states :=
       replicate 5 (replicate 5 {| color := LEDColor.black; brightness := F32.zero |});
     special_states := replicate 5 {| state_brightness := F32.zero |};
     control_states := replicate 3 {| state_brightness := F32.zero |};
     stop_states := replicate 4 {| state_brightness := F32.zero |} |}.

(** [for (int i = 0; i < n; i++) states[i] = {0.0f};] *)
Definition clear_states (n : nat) (states : list LEDState) : list LEDState :=
  fold_left (fun s i => <[Z.to_nat i := {| state_brightness := F32.zero |}]> s)
            (range n) states.

(** The two nested loops over rows 1..4 and columns 1..4 that set
    [matrix_states[row][col] = {LEDColor::black, 0.0f}]. *)
Definition clear_matrix_states (m : list (list LEDStateMatrix)) : list (list LEDStateMatrix) :=
  fold_left
    (fun m row =>
       fold_left
         (fun m col =>
            <[Z.to_nat row :=
                <[Z.to_nat col := {| color := LEDColor.black; brightness := F32.zero |}]>
                  (elem_at [] m row)]> m)
         (interval 1 4) m)
    (interval 1 4) m.

(** [initializeLEDController(device)]: the return value and the globals
    afterwards. *)
Definition initializeLEDController (g : globals) (device : option hid_device)
    : bool * globals :=
  match device with
  | None => (false, g)
  | Some dev =>
      let buffer :=
        <[0%nat := LED_REPORT_ID]> (replicate (Z.to_nat LED_REPORT_SIZE) 0) in
      let g' :=
        {| led_buffer := buffer;
           current_device := Some dev;
           matrix_states := clear_matrix_states (matrix_states g);
           special_states := clear_states 5 (special_states g);
           control_states := clear_states 3 (control_states g);
           stop_states := clear_states 4 (stop_states g) |} in
      (sendLEDReport (Some dev) (led_buffer g'), g')
  end.

(** [clearAllLEDs()]: the globals afterwards.  The report is sent when a
    device is attached; the result of the send is discarded. *)
Definition clearAllLEDs (g : globals) : globals :=
  {| led_buffer :=
       take 1 (led_buffer g) ++ replicate (Z.to_nat (LED_REPORT_SIZE - 1)) 0;
     current_device := current_device g;
     matrix_states := clear_matrix_states (matrix_states g);
     special_states := clear_states 5 (special_states g);
     control_states := clear_states 3 (control_states g);
     stop_states := clear_states 4 (stop_states g) |}.

End Led.

(* ===================================================================== *)
(** ** MIDI side: src/midi_handler.cpp, midi_handler.h *)
(* ===================================================================== *)

Module Midi.

Definition MIDI_NOTE_MATRIX_BASE : Z := 36.
Definition MIDI_CHANNEL : Z := 0.
Definition MIDI_NOTE_ON : Z := 0x90.
Definition MIDI_NOTE_OFF : Z := 0x80.
Definition MIDI_CC : Z := 0xB0.
Definition MIDI_VELOCITY_ON : Z := 127.
Definition MIDI_VELOCITY_OFF : Z := 0.
Definition MIDI_CC_KNOB_BASE : Z := 1.
Definition MIDI_CC_FADER_BASE : Z := 5.

(** [MidiHandler::matrixPositionToMidiNote(row, col)]. *)
Definition matrixPositionToMidiNote (row col : Z) : Z :=
  let row_index := row in
  let col_index := col in
  MIDI_NOTE_MATRIX_BASE + (row_index * 4) + col_index.

(** The three-byte vectors the [send...] functions build and hand to
    [sendMidiMessage]; each element is an [unsigned char]. *)
Definition sendButtonPress (index : Z) : list Z :=
  [to_uchar (MIDI_NOTE_ON + MIDI_CHANNEL); to_uchar (36 + 16 + index);
   to_uchar MIDI_VELOCITY_ON].

Definition sendMatrixButtonPress (row col : Z) : list Z :=
  [to_uchar (MIDI_NOTE_ON + MIDI_CHANNEL); to_uchar (matrixPositionToMidiNote row col);
   to_uchar MIDI_VELOCITY_ON].

Definition sendMatrixButtonRelease (row col : Z) : list Z :=
  [to_uchar (MIDI_NOTE_OFF + MIDI_CHANNEL); to_uchar (matrixPositionToMidiNote row col);
   to_uchar MIDI_VELOCITY_OFF].

Definition sendKnobChange (knob_number value : Z) : list Z :=
  [to_uchar (MIDI_CC + MIDI_CHANNEL); to_uchar (MIDI_CC_KNOB_BASE + knob_number);
   to_uchar (Z.min (Z.max value 0) 127)].

Definition sendFaderChange (fader_number value : Z) : list Z :=
  [to_uchar (MIDI_CC + MIDI_CHANNEL); to_uchar (MIDI_CC_FADER_BASE + fader_number);
   to_uchar (Z.min (Z.max value 0) 127)].

(** The [double] nearest to the ratio [a / b], as a decimal literal
    denotes it, and the conversion of a [double] to [float]. *)
Definition double_of_ratio (a b : Z) : spec_float :=
  SFdiv 53 1024 (binary_normalize 53 1024 a 0 false) (binary_normalize 53 1024 b 0 false).

Definition double_to_float (d : spec_float) : spec_float :=
  match d with
  | S754_finite s m e => binary_normalize F32.prec F32.emax (if s then Z.neg m else Z.pos m) e false
  | _ => d
  end.

(** The [float] values of the literals [0.2] and [0.8] passed as
    brightness. *)
Definition brightness_0_2 : spec_float := S754_finite false 13421773 (-26).
Definition brightness_0_8 : spec_float := S754_finite false 13421773 (-24).

(** [MidiHandler::mycallback(deltatime, message)]: the LED globals
    afterwards; [None] when a setter it calls stores outside an array.
    [setStopButtonLED] is called with its default [store_led_state =
    true]. *)
Definition mycallback (g : Led.globals) (message : list Z) : option Led.globals :=
  let nBytes := Z.of_nat (length message) in
  if nBytes >? 2 then
    let num := byte_at message 1 in
    if (num >=? 36) && (num <? 36 + 16) then
      let num := num - 36 in
      g1 ← (if byte_at message 0 =? 144
            then snd <$> Led.setMatrixButtonLED g (Z.quot num 4) (Z.rem num 4)
                           LEDColor.red brightness_0_2 false
            else Some g);
      if byte_at message 0 =? 128
      then snd <$> Led.setMatrixButtonLED g1 (Z.quot num 4) (Z.rem num 4)
                     LEDColor.blue brightness_0_8 false
      else Some g1
    else
      g1 ← (if byte_at message 0 =? 144
            then snd <$> Led.setStopButtonLED g (num - 16) F32.one true
            else Some g);
      if byte_at message 0 =? 128
      then snd <$> Led.setStopButtonLED g1 (num - 16) F32.zero true
      else Some g1
  else Some g.

End Midi.

(* ===================================================================== *)
(** ** MidiHandler polling loops: src/midi_handler.cpp *)
(* ===================================================================== *)

Module MidiLoops.

(** [sendMidiMessage(message)]: the messages that reach the output port;
    none when the port is not open ([midi_out] null). *)
Definition sendMidiMessage (midi_out : bool) (message : list Z) : list (list Z) :=
  if midi_out then [message] else [].

(** [AnalogControlState] of midi_handler.h. *)
Record AnalogControlState := {
  previous_knob_values : list Z;
  previous_fader_values : list Z
}.

(** Its constructor. *)
Definition AnalogControlState_init : AnalogControlState :=
  {| previous_knob_values := replicate 4 (-1);
     previous_fader_values := replicate 4 (-1) |}.

(** [MidiHandler::updateButtons]: the messages sent. *)
Definition updateButtons (midi_out : bool) (input_buffer : list Z) : list (list Z) :=
  let out :=
    if EnumReader.isSpecialButtonPressed input_buffer EnumReader.SHIFT
    then sendMidiMessage midi_out (Midi.sendButtonPress 0) else [] in
  fold_left
    (fun out i =>
       if InputReader.isStopButtonPressed input_buffer i
       then out ++ sendMidiMessage midi_out (Midi.sendButtonPress i) else out)
    (range 4) out.

(** Body of the loop of [MidiHandler::updateKnobStates]. *)
Definition knob_iteration (midi_out : bool) (input_buffer : list Z)
    (acc : AnalogControlState * list (list Z)) (knob : Z)
    : AnalogControlState * list (list Z) :=
  let '(analog_state, out) := acc in
  let current_value := F32.to_int (Knob.getKnobValue input_buffer knob) in
  let previous_value := elem_at 0 (previous_knob_values analog_state) knob in
  let out :=
    if negb (current_value =? previous_value)
    then out ++ sendMidiMessage midi_out (Midi.sendKnobChange knob current_value)
    else out in
  ({| previous_knob_values :=
        <[Z.to_nat knob := current_value]> (previous_knob_values analog_state);
      previous_fader_values := previous_fader_values analog_state |},
   out).

Definition updateKnobStates (midi_out : bool) (input_buffer : list Z)
    (analog_state : AnalogControlState) : AnalogControlState * list (list Z) :=
  fold_left (knob_iteration midi_out input_buffer) (range 4) (analog_state, []).

(** Body of the loop of [MidiHandler::updateFaderStates]. *)
Definition fader_iteration (midi_out : bool) (input_buffer : list Z)
    (acc : AnalogControlState * list (list Z)) (fader : Z)
    : AnalogControlState * list (list Z) :=
  let '(analog_state, out) := acc in
  let current_value := F32.to_int (Fader.getFaderValue input_buffer fader) in
  let previous_value := elem_at 0 (previous_fader_values analog_state) fader in
  let out :=
    if negb (current_value =? previous_value)
    then out ++ sendMidiMessage midi_out (Midi.sendFaderChange fader current_value)
    else out in
  ({| previous_knob_values := previous_knob_values analog_state;
      previous_fader_values :=
        <[Z.to_nat fader := current_value]> (previous_fader_values analog_state) |},
   out).

Definition updateFaderStates (midi_out : bool) (input_buffer : list Z)
    (analog_state : AnalogControlState) : AnalogControlState * list (list Z) :=
  fold_left (fader_iteration midi_out input_buffer) (range 4) (analog_state, []).

End MidiLoops.

(* ===================================================================== *)
(** ** Power-on animation: src/startup_sequence.cpp *)
(* ===================================================================== *)

Module Startup.

(** The calls [setMatrixButtonLED(row, col, color, brightness, false)] of
    [startupSequence], in order.  The pauses between them are not
    modelled. *)
Definition animation_steps : list ((Z * Z) * (LEDColor.t * spec_float)) :=
  [((3, 3), (LEDColor.green, F32.half));
   ((3, 3), (LEDColor.green, F32.one));
   ((2, 3), (LEDColor.green, F32.half));
   ((3, 2), (LEDColor.green, F32.half));
   ((2, 3), (LEDColor.green, F32.one));
   ((3, 2), (LEDColor.green, F32.one));
   ((3, 3), (LEDColor.green, F32.half));
   ((1, 3), (LEDColor.green, F32.half));
   ((2, 2), (LEDColor.green, F32.half));
   ((3, 1), (LEDColor.green, F32.half));
   ((3, 3), (LEDColor.black, F32.zero));
   ((1, 3), (LEDColor.green, F32.one));
   ((2, 2), (LEDColor.green, F32.one));
   ((3, 1), (LEDColor.green, F32.one));
   ((2, 3), (LEDColor.green, F32.half));
   ((3, 2), (LEDColor.green, F32.half));
   ((0, 3), (LEDColor.green, F32.half));
   ((1, 2), (LEDColor.green, F32.half));
   ((2, 1), (LEDColor.green, F32.half));
   ((3, 0), (LEDColor.green, F32.half));
   ((2, 3), (LEDColor.black, F32.zero));
   ((3, 2), (LEDColor.black, F32.zero));
   ((0, 3), (LEDColor.green, F32.one));
   ((1, 2), (LEDColor.green, F32.one));
   ((2, 1), (LEDColor.green, F32.one));
   ((3, 0), (LEDColor.green, F32.one));
   ((1, 3), (LEDColor.green, F32.half));
   ((2, 2), (LEDColor.green, F32.half));
   ((3, 1), (LEDColor.green, F32.half));
   ((0, 2), (LEDColor.green, F32.half));
   ((1, 1), (LEDColor.green, F32.half));
   ((2, 0), (LEDColor.green, F32.half));
   ((1, 3), (LEDColor.black, F32.zero));
   ((2, 2), (LEDColor.black, F32.zero));
   ((3, 1), (LEDColor.black, F32.zero));
   ((0, 2), (LEDColor.green, F32.one));
   ((1, 1), (LEDColor.green, F32.one));
   ((2, 0), (LEDColor.green, F32.one));
   ((0, 3), (LEDColor.green, F32.half));
   ((1, 2), (LEDColor.green, F32.half));
   ((2, 1), (LEDColor.green, F32.half));
   ((3, 0), (LEDColor.green, F32.half));
   ((0, 1), (LEDColor.green, F32.half));
   ((1, 0), (LEDColor.green, F32.half));
   ((0, 3), (LEDColor.black, F32.zero));
   ((1, 2), (LEDColor.black, F32.zero));
   ((2, 1), (LEDColor.black, F32.zero));
   ((3, 0), (LEDColor.black, F32.zero));
   ((0, 1), (LEDColor.green, F32.one));
   ((1, 0), (LEDColor.green, F32.one));
   ((0, 2), (LEDColor.green, F32.half));
   ((1, 1), (LEDColor.green, F32.half));
   ((2, 0), (LEDColor.green, F32.half));
   ((0, 0), (LEDColor.green, F32.half));
   ((0, 2), (LEDColor.black, F32.zero));
   ((1, 1), (LEDColor.black, F32.zero));
   ((2, 0), (LEDColor.black, F32.zero));
   ((0, 0), (LEDColor.green, F32.one));
   ((0, 1), (LEDColor.green, F32.half));
   ((1, 0), (LEDColor.green, F32.half));
   ((0, 1), (LEDColor.black, F32.zero));
   ((1, 0), (LEDColor.black, F32.zero));
   ((0, 0), (LEDColor.green, F32.half));
   ((0, 0), (LEDColor.black, F32.zero))].

(** The calls [setButtonLED(button, brightness, true)] that follow. *)
Definition final_buttons : list (Led.LEDButton * spec_float) :=
  [(Led.BROWSE, F32.half); (Led.SIZE, F32.zero); (Led.TYPE, F32.zero); (Led.REVERSE, F32.zero); (Led.SHIFT, F32.zero); (Led.CAPTURE, F32.zero); (Led.QUANT, F32.zero); (Led.SYNC, F32.zero)].

Definition run_animation (g : Led.globals) : option Led.globals :=
  fold_left
    (fun acc step =>
       g ← acc;
       snd <$> Led.setMatrixButtonLED g (fst (fst step)) (snd (fst step))
                 (fst (snd step)) (snd (snd step)) false)
    animation_steps (Some g).

Definition run_final_buttons (g : Led.globals) : option Led.globals :=
  fold_left
    (fun acc step => g ← acc; snd <$> Led.setButtonLED g (fst step) (snd step) true)
    final_buttons (Some g).

(** [startupSequence(device)]: the LED globals afterwards; [None] when a
    setter stores outside an array. *)
Definition startupSequence (g : Led.globals) (device : option hid_device)
    : option Led.globals :=
  match device with
  | None => Some g
  | Some _ => g1 ← run_animation g; run_final_buttons g1
  end.

End Startup.

(* ===================================================================== *)
(** ** Vocabulary of the properties *)
(* ===================================================================== *)

(** An accessor whose answer is determined by one byte of the report. *)
Definition depends_only_on_byte (f : list Z -> bool) (i : Z) : Prop :=
  forall b1 b2 : list Z, byte_at b1 i = byte_at b2 i -> f b1 = f b2.

(** A 22-byte report with the right identifier and nothing pressed, and the
    same report with one byte replaced. *)
Definition idle_report : list Z := InputReader.INPUT_REPORT_ID :: replicate 21 0.
Definition report_with (i : nat) (v : Z) : list Z := <[i := v]> idle_report.

(** The three groups of single buttons, with the accessor that decodes
    each, and the byte and the bit of index 0 that the code gives them. *)
Inductive button_group := SpecialGroup | StopGroup | ControlGroup.

Definition group_size (g : button_group) : Z :=
  match g with SpecialGroup => 6 | StopGroup => 4 | ControlGroup => 3 end.

Definition group_pressed (g : button_group) (buffer : list Z) (index : Z) : bool :=
  match g with
  | SpecialGroup => InputReader.isSpecialButtonPressed buffer index
  | StopGroup => InputReader.isStopButtonPressed buffer index
  | ControlGroup => InputReader.isControlPressed buffer index
  end.

Definition group_byte (g : button_group) : Z :=
  match g with SpecialGroup => 3 | StopGroup => 4 | ControlGroup => 4 end.

Definition group_first_bit (g : button_group) : Z :=
  match g with SpecialGroup => 7 | StopGroup => 7 | ControlGroup => 3 end.

(** A transport that has no input pending and accepts every report. *)
Definition idle_device : hid_device :=
  {| hid_read := fun buffer => (0, buffer);
     hid_write := fun buffer => Z.of_nat (length buffer) |}.

(** The bytes of the output report that belong to one LED (section 6 of
    the specification): a stop button's right and left LED, a matrix
    cell's blue, red and green LED. *)
Definition stop_led_bytes (index : Z) : list Z :=
  [80 - 2 * index - 1; 80 - 2 * index].

Definition matrix_led_bytes (row col : Z) : list Z :=
  let base := 25 + 3 * (4 * row + col) in [base; base + 1; base + 2].

(** One fader channel of the analog state: previous value, dirty flag and
    recorded time. *)
Definition channel (st : Controller.AnalogControlState) (k : Z) : Z * bool * Z :=
  (elem_at 0 (Controller.previous_fader_values st) k,
   elem_at false (Controller.is_fader_value_dirty st) k,
   elem_at 0 (Controller.last_slider_change st) k).

Definition analog_wf (st : Controller.AnalogControlState) : Prop :=
  length (Controller.previous_fader_values st) = 4%nat /\
  length (Controller.is_fader_value_dirty st) = 4%nat /\
  length (Controller.last_slider_change st) = 4%nat.

(** The truncated value of fader [k] in a report. *)
Definition fader_value (input_buffer : list Z) (k : Z) : Z :=
  F32.to_int (Fader.getFaderValue input_buffer k).

(** The values carried by the slider events of fader [k], in order. *)
Definition slider_values (k : Z) (out : list Controller.event) : list Z :=
  omap (fun e => match e with
                 | Controller.onSliderChanged f v => if f =? k then Some v else None
                 | _ => None
                 end) out.

(** What one iteration of the fader loop does to its own channel, and the
    value it emits, if any. *)
Definition channel_step (ticks_per_ms now v : Z) (ch : Z * bool * Z)
    : (Z * bool * Z) * option Z :=
  let '(p, d, t) := ch in
  let mark := negb (v =? p) && negb d in
  let t1 := if mark then now else t in
  let d1 := if mark then true else d in
  let fire := d1 && (Controller.elapsed_ms ticks_per_ms now t1 >? 50) in
  ((v, if fire then false else d1, if fire then now else t1),
   if fire then Some (v * 2) else None).

(** An analog state with every fader at rest at value 0. *)
Definition analog_at_rest : Controller.AnalogControlState :=
  {| Controller.previous_knob_values := replicate 4 0;
     Controller.previous_fader_values := replicate 4 0;
     Controller.is_fader_value_dirty := replicate 4 false;
     Controller.last_slider_change := replicate 4 0 |}.

(** A report in which the high byte of fader 0 is [hi] (raw sample
    [256 * hi]) and everything else is idle. *)
Definition fader0_report (hi : Z) : list Z := report_with 15 hi.

(** The delegate calls an edge-detecting button makes in one frame, from
    its decoded state [cur] and its stored state [prev]. *)
Definition edge_events (press release : Controller.event) (cur prev : bool)
    : list Controller.event :=
  if cur then (if prev then [] else [press])
  else (if prev then [release] else []).

(** The presses ([true]) and releases ([false]) reported for button
    [index] through [onButtonPress] and [onButtonRelease], in order. *)
Definition button_events (index : Z) (out : list Controller.event) : list bool :=
  omap (fun e => match e with
                 | Controller.onButtonPress j => if j =? index then Some true else None
                 | Controller.onButtonRelease j => if j =? index then Some false else None
                 | _ => None
                 end) out.

(** The edges of a sequence of decoded states, starting from a stored one. *)
Fixpoint edges (prev : bool) (states : list bool) : list bool :=
  match states with
  | [] => []
  | cur :: rest => (if eqb cur prev then [] else [cur]) ++ edges cur rest
  end.

(** The presses ([true]) and releases ([false]) reported for matrix cell
    ([row], [col]), in order. *)
Definition matrix_events (row col : Z) (out : list Controller.event) : list bool :=
  omap (fun e => match e with
                 | Controller.onMatrixButtonPress r c =>
                     if (r =? row) && (c =? col) then Some true else None
                 | Controller.onMatrixButtonRelease r c =>
                     if (r =? row) && (c =? col) then Some false else None
                 | _ => None
                 end) out.

(** A [bool[4][4]]. *)
Definition matrix_shape (m : list (list bool)) : Prop :=
  length m = 4%nat /\ Forall (fun row => length row = 4%nat) m.

(** The truncated value of knob [k] in a report. *)
Definition knob_value (input_buffer : list Z) (k : Z) : Z :=
  F32.to_int (Knob.getKnobValue input_buffer k).

(** A 12-bit sample from its two report bytes: the low byte and the low
    nibble of the high byte. *)
Definition sample_of_bytes (lsb msb : Z) : Z := lsb + 256 * (msb mod 16).

(** The values carried by the knob events of knob [k], in order. *)
Definition knob_values (k : Z) (out : list Controller.event) : list Z :=
  omap (fun e => match e with
                 | Controller.onKnobChanged f v => if f =? k then Some v else None
                 | _ => None
                 end) out.

(** The values of a sequence that differ from their predecessor, starting
    from a stored one. *)
Fixpoint changes (prev : Z) (values : list Z) : list Z :=
  match values with
  | [] => []
  | v :: rest => (if v =? prev then [] else [v]) ++ changes v rest
  end.

(** The clock values of the frames in which fader [k] emitted an event. *)
Fixpoint fader_event_times (ticks_per_ms k : Z) (frames : list (list Z * (Z -> Z)))
    (st : Controller.AnalogControlState) : list Z :=
  match frames with
  | [] => []
  | (input_buffer, clock) :: rest =>
      let r := Controller.updateFaderStates ticks_per_ms input_buffer clock st in
      (match slider_values k (snd r) with [] => [] | _ :: _ => [clock k] end)
      ++ fader_event_times ticks_per_ms k rest (fst r)
  end.

(** Successive times more than 50 whole milliseconds apart. *)
Fixpoint spaced (ticks_per_ms : Z) (times : list Z) : Prop :=
  match times with
  | t :: (t' :: _) as rest => 50 < Controller.elapsed_ms ticks_per_ms t' t /\ spaced ticks_per_ms rest
  | _ => True
  end.

(** The byte of the output report that the header assigns to each
    single-brightness button: its group's start plus its offset. *)
Definition header_button_byte (button : Led.LEDButton) : Z :=
  match button with
  | Led.CAPTURE => Led.LED_BYTE_CONTROL_START + Led.LED_OFFSET_CAPTURE
  | Led.QUANT => Led.LED_BYTE_CONTROL_START + Led.LED_OFFSET_QUANT
  | Led.SYNC => Led.LED_BYTE_CONTROL_START + Led.LED_OFFSET_SYNC
  | Led.BROWSE => Led.LED_BYTE_SPECIAL_START + Led.LED_OFFSET_BROWSE
  | Led.SIZE => Led.LED_BYTE_SPECIAL_START + Led.LED_OFFSET_SIZE
  | Led.TYPE => Led.LED_BYTE_SPECIAL_START + Led.LED_OFFSET_TYPE
  | Led.REVERSE => Led.LED_BYTE_SPECIAL_START + Led.LED_OFFSET_REVERSE
  | Led.SHIFT => Led.LED_BYTE_SPECIAL_START + Led.LED_OFFSET_SHIFT
  end.

(** The bytes the header assigns to the right and the left LED of stop
    button [index] (0 is STOP1). *)
Definition header_stop_bytes (index : Z) : Z * Z :=
  if index =? 0 then (Led.LED_BYTE_STOP_START + Led.LED_OFFSET_STOP1_RIGHT,
                      Led.LED_BYTE_STOP_START + Led.LED_OFFSET_STOP1_LEFT)
  else if index =? 1 then (Led.LED_BYTE_STOP_START + Led.LED_OFFSET_STOP2_RIGHT,
                           Led.LED_BYTE_STOP_START + Led.LED_OFFSET_STOP2_LEFT)
  else if index =? 2 then (Led.LED_BYTE_STOP_START + Led.LED_OFFSET_STOP3_RIGHT,
                           Led.LED_BYTE_STOP_START + Led.LED_OFFSET_STOP3_LEFT)
  else (Led.LED_BYTE_STOP_START + Led.LED_OFFSET_STOP4_RIGHT,
        Led.LED_BYTE_STOP_START + Led.LED_OFFSET_STOP4_LEFT).

(** The arrays of the LED globals have their declared sizes. *)
Definition led_wf (g : Led.globals) : Prop :=
  length (Led.led_buffer g) = 81%nat /\
  length (Led.matrix_states g) = 5%nat /\
  Forall (fun row => length row = 5%nat) (Led.matrix_states g) /\
  length (Led.special_states g) = 5%nat /\
  length (Led.control_states g) = 3%nat /\
  length (Led.stop_states g) = 4%nat.

(** The state of an LED that is off. *)
Definition led_off : Led.LEDState := {| Led.state_brightness := F32.zero |}.
Definition matrix_led_off : Led.LEDStateMatrix :=
  {| Led.color := LEDColor.black; Led.brightness := F32.zero |}.

(* ===================================================================== *)
(** * Properties *)
(* ===================================================================== *)

(** ** Auxiliary facts *)

Lemma all_below_spec (n : nat) (P : Z -> bool) :
  all_below n P = true -> forall z, 0 <= z < Z.of_nat n -> P z = true.
Proof.
  induction n as [|n IH]; simpl; intros H z Hz; [lia|].
  apply andb_true_iff in H as [Hn Hrest].
  destruct (Z.eq_dec z (Z.of_nat n)) as [->|Hne]; [exact Hn|].
  apply IH; [exact Hrest|lia].
Qed.

Lemma land_pow2_testbit (x k : Z) :
  0 <= k -> negb (Z.land x (2 ^ k) =? 0) = Z.testbit x k.
Proof.
  intros Hk.
  assert (Hland : Z.land x (2 ^ k) = if Z.testbit x k then 2 ^ k else 0).
  { apply Z.bits_inj'. intros n Hn.
    rewrite Z.land_spec, (Z.pow2_bits_eqb k n) by lia.
    destruct (Z.eqb_spec k n) as [->|Hne].
    - destruct (Z.testbit x n) eqn:E; simpl.
      + rewrite Z.pow2_bits_true; [reflexivity|lia].
      + rewrite Z.bits_0. reflexivity.
    - rewrite andb_false_r.
      destruct (Z.testbit x k).
      + rewrite Z.pow2_bits_false; [reflexivity|lia].
      + rewrite Z.bits_0. reflexivity. }
  rewrite Hland. destruct (Z.testbit x k); simpl.
  - assert (0 < 2 ^ k) by (apply Z.pow_pos_nonneg; lia).
    destruct (Z.eqb_spec (2 ^ k) 0); [lia|reflexivity].
  - reflexivity.
Qed.

Lemma byte_at_insert_ne (buffer : list Z) (n : nat) (v i : Z) :
  i <> Z.of_nat n -> byte_at (<[n := v]> buffer) i = byte_at buffer i.
Proof.
  intros Hne. unfold byte_at.
  destruct (i <? 0) eqn:E; [reflexivity|].
  apply Z.ltb_ge in E.
  rewrite list_lookup_insert_ne; [reflexivity|lia].
Qed.

Lemma byte_at_report_with_ne (n : nat) (v i : Z) :
  i <> Z.of_nat n -> byte_at (report_with n v) i = byte_at idle_report i.
Proof. apply byte_at_insert_ne. Qed.

(** ** Matrix addressing *)

(** C1, as the specification words it, fails: rows 0 and 2 do not share a
    byte.  With only bit 7 of byte 1 set, cell (0,0) reads pressed and cell
    (2,0) does not; with only bit 7 of byte 2 set it is the other way
    round; hence no single byte determines both rows. *)
Lemma matrix_rows_0_2_not_in_one_byte :
  InputReader.isMatrixButtonPressed (report_with 1 0x80) 0 0 = true /\
  InputReader.isMatrixButtonPressed (report_with 1 0x80) 2 0 = false /\
  InputReader.isMatrixButtonPressed (report_with 2 0x80) 0 0 = false /\
  InputReader.isMatrixButtonPressed (report_with 2 0x80) 2 0 = true /\
  ~ (exists i : Z,
        depends_only_on_byte (fun b => InputReader.isMatrixButtonPressed b 0 0) i /\
        depends_only_on_byte (fun b => InputReader.isMatrixButtonPressed b 2 0) i).
Proof.
  repeat split; try reflexivity.
  intros (i & H0 & H2).
  destruct (Z.eq_dec i 1) as [->|Hne].
  - specialize (H2 (report_with 2 0x80) idle_report).
    rewrite byte_at_report_with_ne in H2 by lia.
    specialize (H2 eq_refl). vm_compute in H2. discriminate.
  - specialize (H0 (report_with 1 0x80) idle_report).
    rewrite byte_at_report_with_ne in H0 by (simpl; lia).
    specialize (H0 eq_refl). vm_compute in H0. discriminate.
Qed.

(** C1, amended: for rows and columns in [0,3], rows 0 and 1 are the high
    and the low nibble of byte 1, rows 2 and 3 the high and the low nibble
    of byte 2, and within the nibble column 0 is the most significant
    bit. *)
Theorem isMatrixButtonPressed_addressing (buffer : list Z) (row col : Z) :
  0 <= row <= 3 -> 0 <= col <= 3 ->
  InputReader.isMatrixButtonPressed buffer row col =
  Z.testbit (byte_at buffer (1 + row / 2))
            ((if Z.even row then 4 else 0) + (3 - col)).
Proof.
  intros Hr Hc. unfold InputReader.isMatrixButtonPressed.
  assert (Hrow : row = 0 \/ row = 1 \/ row = 2 \/ row = 3) by lia.
  assert (Hcol : col = 0 \/ col = 1 \/ col = 2 \/ col = 3) by lia.
  destruct Hrow as [-> | [-> | [-> | ->]]]; destruct Hcol as [-> | [-> | [-> | ->]]];
    (rewrite <- land_pow2_testbit by (simpl; lia); reflexivity).
Qed.

Lemma isMatrixButtonPressed_addressing_witness :
  InputReader.isMatrixButtonPressed (report_with 2 0x04) 3 1 =
  Z.testbit (byte_at (report_with 2 0x04) (1 + 3 / 2))
            ((if Z.even 3 then 4 else 0) + (3 - 1)).
Proof. apply (isMatrixButtonPressed_addressing (report_with 2 0x04) 3 1); lia. Defined.

(** ** Single-button addressing *)

(** C7, as the specification words it, fails on two counts.  The control
    buttons are not read most-significant-bit-first from bit 7: with only
    bit 7 of byte 4 set, control button 0 reads released, and it reads
    pressed when only bit 3 is set.  And the special and the control
    buttons do not share a byte: no single byte determines both special
    button 0 and control button 0. *)
Lemma special_and_control_not_in_one_byte :
  InputReader.isControlPressed (report_with 4 0x80) 0 = false /\
  InputReader.isControlPressed (report_with 4 0x08) 0 = true /\
  ~ (exists i : Z,
        depends_only_on_byte (fun b => InputReader.isSpecialButtonPressed b 0) i /\
        depends_only_on_byte (fun b => InputReader.isControlPressed b 0) i).
Proof.
  repeat split; try reflexivity.
  intros (i & Hs & Hc).
  destruct (Z.eq_dec i 3) as [->|Hne].
  - specialize (Hc (report_with 4 0x08) idle_report).
    rewrite byte_at_report_with_ne in Hc by lia.
    specialize (Hc eq_refl). vm_compute in Hc. discriminate.
  - specialize (Hs (report_with 3 0x80) idle_report).
    rewrite byte_at_report_with_ne in Hs by (simpl; lia).
    specialize (Hs eq_refl). vm_compute in Hs. discriminate.
Qed.

Lemma group_pressed_testbit (g : button_group) (buffer : list Z) (index : Z) :
  0 <= index < group_size g ->
  group_pressed g buffer index =
  Z.testbit (byte_at buffer (group_byte g)) (group_first_bit g - index).
Proof.
  intros Hi.
  destruct g; simpl in Hi |- *.
  - assert (H : index = 0 \/ index = 1 \/ index = 2 \/ index = 3 \/ index = 4 \/ index = 5) by lia.
    destruct H as [-> | [-> | [-> | [-> | [-> | ->]]]]];
      (rewrite <- land_pow2_testbit by (simpl; lia); reflexivity).
  - assert (H : index = 0 \/ index = 1 \/ index = 2 \/ index = 3) by lia.
    destruct H as [-> | [-> | [-> | ->]]];
      (rewrite <- land_pow2_testbit by (simpl; lia); reflexivity).
  - assert (H : index = 0 \/ index = 1 \/ index = 2) by lia.
    destruct H as [-> | [-> | ->]];
      (rewrite <- land_pow2_testbit by (simpl; lia); reflexivity).
Qed.

(** X5.  The enum-keyed accessors and the index-keyed accessor decode the
    same bits: for each special button the two agree on every report, and
    the enum-keyed control accessor agrees with the index-keyed accessor
    at index 6 plus the control button's position. *)
Lemma enum_accessors_agree (buffer : list Z) :
  (forall b, EnumReader.isSpecialButtonPressed buffer b =
             InputReader.isSpecialButtonPressed buffer (EnumReader.special_index b)) /\
  (forall b, EnumReader.isControlButtonPressed (Some buffer) b =
             InputReader.isControlPressed buffer (EnumReader.control_index b)).
Proof. split; intros []; reflexivity. Qed.

(** C7, amended: each accessor reads one fixed byte and tests one bit, the
    index counting down from the group's first bit.  Special buttons are
    byte 3 from bit 7, stop buttons byte 4 from bit 7, control buttons
    byte 4 from bit 3: it is the stop and the control groups that share a
    byte, and the special group has its own.  A report whose only non-zero
    payload byte is byte 3 = 0x80 decodes special button 0 (shift) as
    pressed and every other button of the three groups and of the matrix
    as released. *)
Theorem single_button_addressing (g : button_group) (buffer : list Z) (index : Z) :
  0 <= index < group_size g ->
  group_pressed g buffer index =
    Z.testbit (byte_at buffer (group_byte g)) (group_first_bit g - index) /\
  group_byte SpecialGroup = InputReader.BUTTON_BYTE_SPECIAL /\
  group_byte StopGroup = InputReader.BUTTON_BYTE_STOP_AND_CONTROL /\
  group_byte ControlGroup = InputReader.BUTTON_BYTE_STOP_AND_CONTROL /\
  InputReader.BUTTON_BYTE_SPECIAL <> InputReader.BUTTON_BYTE_STOP_AND_CONTROL /\
  group_pressed g (report_with 3 0x80) index =
    match g with SpecialGroup => index =? 0 | _ => false end /\
  (forall row col, 0 <= row <= 3 -> 0 <= col <= 3 ->
     InputReader.isMatrixButtonPressed (report_with 3 0x80) row col = false).
Proof.
  intros Hi. split; [apply group_pressed_testbit; exact Hi|].
  repeat split; try reflexivity; try discriminate.
  - rewrite group_pressed_testbit by exact Hi.
    destruct g; simpl in Hi |- *.
    + assert (H : index = 0 \/ index = 1 \/ index = 2 \/ index = 3 \/ index = 4 \/ index = 5) by lia.
      destruct H as [-> | [-> | [-> | [-> | [-> | ->]]]]]; reflexivity.
    + assert (H : index = 0 \/ index = 1 \/ index = 2 \/ index = 3) by lia.
      destruct H as [-> | [-> | [-> | ->]]]; reflexivity.
    + assert (H : index = 0 \/ index = 1 \/ index = 2) by lia.
      destruct H as [-> | [-> | ->]]; reflexivity.
  - intros row col Hr Hc.
    assert (Hrow : row = 0 \/ row = 1 \/ row = 2 \/ row = 3) by lia.
    assert (Hcol : col = 0 \/ col = 1 \/ col = 2 \/ col = 3) by lia.
    destruct Hrow as [-> | [-> | [-> | ->]]]; destruct Hcol as [-> | [-> | [-> | ->]]];
      reflexivity.
Qed.

Lemma single_button_addressing_witness :
  group_pressed ControlGroup (report_with 4 0x04) 1 =
    Z.testbit (byte_at (report_with 4 0x04) (group_byte ControlGroup))
              (group_first_bit ControlGroup - 1).
Proof.
  apply (single_button_addressing ControlGroup (report_with 4 0x04) 1).
  simpl. lia.
Defined.

(** ** Reading a report *)

(** C5, as the specification words it, fails: the return value of
    [readInputReport] is the same for a device that has no data and for a
    device that delivers a full report with a wrong identifier. *)
Lemma readInputReport_conflates_no_data_and_bad_id :
  let quiet := {| hid_read := fun b => (0, b); hid_write := fun _ => 81 |} in
  let faulty := {| hid_read := fun _ => (22, 0x02 :: replicate 21 0);
                   hid_write := fun _ => 81 |} in
  let buffer := replicate 22 0 in
  InputReader.read_ok (InputReader.readInputReport (Some quiet) (Some buffer)) =
  InputReader.read_ok (InputReader.readInputReport (Some faulty) (Some buffer)).
Proof. reflexivity. Qed.

(** C5, amended: [readInputReport] returns false both when the transport
    has no bytes and when the first byte read is not the report
    identifier; the two cases differ only in what is written to the error
    stream (nothing, against one wrong-identifier line), not in the value
    the caller receives. *)
Theorem readInputReport_no_data_and_bad_id (quiet faulty : hid_device) (buffer : list Z) :
  fst (hid_read quiet buffer) <= 0 ->
  0 < fst (hid_read faulty buffer) ->
  byte_at (snd (hid_read faulty buffer)) 0 <> InputReader.INPUT_REPORT_ID ->
  let r1 := InputReader.readInputReport (Some quiet) (Some buffer) in
  let r2 := InputReader.readInputReport (Some faulty) (Some buffer) in
  InputReader.read_ok r1 = false /\ InputReader.read_ok r2 = false /\
  InputReader.read_log r1 = [] /\
  InputReader.read_log r2 =
    [InputReader.WrongReportId InputReader.INPUT_REPORT_ID
       (byte_at (snd (hid_read faulty buffer)) 0)].
Proof.
  intros Hq Hf Hid. simpl. unfold InputReader.readInputReport.
  destruct (hid_read quiet buffer) as [n1 b1] eqn:E1.
  destruct (hid_read faulty buffer) as [n2 b2] eqn:E2.
  simpl in Hq, Hf, Hid |- *.
  destruct (Z.leb_spec n1 0); [|lia].
  destruct (Z.leb_spec n2 0); [lia|].
  destruct (Z.eqb_spec (byte_at b2 0) InputReader.INPUT_REPORT_ID); [contradiction|].
  simpl. repeat split; reflexivity.
Qed.

Lemma readInputReport_no_data_and_bad_id_witness :
  InputReader.read_ok
    (InputReader.readInputReport
       (Some {| hid_read := fun b => (0, b); hid_write := fun _ => 81 |})
       (Some (replicate 22 0))) = false /\
  InputReader.read_ok
    (InputReader.readInputReport
       (Some {| hid_read := fun _ => (22, 0x02 :: replicate 21 0); hid_write := fun _ => 81 |})
       (Some (replicate 22 0))) = false.
Proof.
  pose proof (readInputReport_no_data_and_bad_id
                {| hid_read := fun b => (0, b); hid_write := fun _ => 81 |}
                {| hid_read := fun _ => (22, 0x02 :: replicate 21 0); hid_write := fun _ => 81 |}
                (replicate 22 0)) as H.
  simpl in H.
  destruct H as (H1 & H2 & _); [lia | lia | vm_compute; discriminate |].
  split; [exact H1 | exact H2].
Defined.

(** C6: whatever the transport delivered, if the first byte of the buffer
    after the read is not the report identifier 0x01 then [readInputReport]
    fails, regardless of the remaining bytes; and whenever bytes were
    read, the failure is reported as a wrong report identifier. *)
Theorem readInputReport_rejects_wrong_id
    (dev : hid_device) (buffer : list Z) (n b0 : Z) (rest : list Z) :
  hid_read dev buffer = (n, b0 :: rest) ->
  b0 <> InputReader.INPUT_REPORT_ID ->
  InputReader.read_ok (InputReader.readInputReport (Some dev) (Some buffer)) = false /\
  (0 < n ->
   InputReader.read_log (InputReader.readInputReport (Some dev) (Some buffer)) =
     [InputReader.WrongReportId InputReader.INPUT_REPORT_ID b0]).
Proof.
  intros Hread Hid. unfold InputReader.readInputReport. rewrite Hread.
  change (byte_at (b0 :: rest) 0) with b0.
  destruct (Z.leb_spec n 0).
  - split; [reflexivity | lia].
  - destruct (Z.eqb_spec b0 InputReader.INPUT_REPORT_ID); [contradiction|].
    split; reflexivity.
Qed.

Lemma readInputReport_rejects_wrong_id_witness :
  InputReader.read_ok
    (InputReader.readInputReport
       (Some {| hid_read := fun _ => (22, 0x02 :: replicate 21 0xFF); hid_write := fun _ => 81 |})
       (Some (replicate 22 0))) = false.
Proof.
  apply (readInputReport_rejects_wrong_id
           {| hid_read := fun _ => (22, 0x02 :: replicate 21 0xFF); hid_write := fun _ => 81 |}
           (replicate 22 0) 22 0x02 (replicate 21 0xFF)).
  - reflexivity.
  - vm_compute. discriminate.
Defined.

(** ** Normalisation of 12-bit samples *)

(** On every 12-bit sample the binary32 computation of the readers gives
    the integer part of the exact quotient: rounding never crosses an
    integer.  Settled by running the code on the 4096 samples. *)
Lemma fader_normalized_value_exact (v : Z) :
  0 <= v <= 4095 -> Fader.normalized_value v = v * 127 / 4095.
Proof.
  intros Hv. apply Z.eqb_eq.
  apply (all_below_spec 4096 (fun v => Fader.normalized_value v =? v * 127 / 4095));
    [vm_compute; reflexivity | lia].
Qed.

Lemma knob_normalized_value_exact (v : Z) :
  0 <= v <= 4095 -> Knob.normalized_value v = v * 127 / 4095.
Proof.
  intros Hv. apply Z.eqb_eq.
  apply (all_below_spec 4096 (fun v => Knob.normalized_value v =? v * 127 / 4095));
    [vm_compute; reflexivity | lia].
Qed.

Lemma f32_of_Z_leb (a b : Z) :
  0 <= a <= b -> b <= 127 -> F32.leb (F32.of_Z a) (F32.of_Z b) = true.
Proof.
  intros Ha Hb.
  pose (P := fun a => all_below 128 (fun b => implb (a <=? b) (F32.leb (F32.of_Z a) (F32.of_Z b)))).
  assert (HP : P a = true).
  { apply (all_below_spec 128 P); [vm_compute; reflexivity | lia]. }
  unfold P in HP.
  pose proof (all_below_spec 128 _ HP b ltac:(lia)) as Hab. simpl in Hab.
  destruct (Z.leb_spec a b); [exact Hab | lia].
Qed.

Lemma scaled_quotient_bounds (v : Z) : 0 <= v <= 4095 -> 0 <= v * 127 / 4095 <= 127.
Proof.
  intros Hv. split.
  - apply Z.div_pos; lia.
  - apply Z.div_le_upper_bound; lia.
Qed.

(** C8: for raw samples [0 <= v <= w <= 4095], both the fader and the knob
    normaliser give a value for [v] that is at most the value for [w];
    sample 0 gives 0 and sample 4095 gives 127, exactly. *)
Theorem rawToNormalized_monotone (v w : Z) :
  0 <= v -> v <= w -> w <= 4095 ->
  F32.leb (Fader.rawToNormalized v) (Fader.rawToNormalized w) = true /\
  F32.leb (Knob.rawToNormalized v) (Knob.rawToNormalized w) = true /\
  Fader.rawToNormalized 0 = F32.zero /\
  Knob.rawToNormalized 0 = F32.zero /\
  Fader.rawToNormalized 4095 = F32.of_Z 127 /\
  Knob.rawToNormalized 4095 = F32.of_Z 127.
Proof.
  intros H0 Hvw Hw.
  assert (Hq : v * 127 / 4095 <= w * 127 / 4095) by (apply Z.div_le_mono; lia).
  pose proof (scaled_quotient_bounds v ltac:(lia)) as Bv.
  pose proof (scaled_quotient_bounds w ltac:(lia)) as Bw.
  repeat split; try reflexivity.
  - unfold Fader.rawToNormalized.
    rewrite (fader_normalized_value_exact v), (fader_normalized_value_exact w) by lia.
    apply f32_of_Z_leb; lia.
  - unfold Knob.rawToNormalized.
    rewrite (knob_normalized_value_exact v), (knob_normalized_value_exact w) by lia.
    apply f32_of_Z_leb; lia.
Qed.

Lemma rawToNormalized_monotone_witness :
  F32.leb (Fader.rawToNormalized 1000) (Fader.rawToNormalized 3000) = true /\
  F32.leb (Knob.rawToNormalized 1000) (Knob.rawToNormalized 3000) = true.
Proof.
  pose proof (rawToNormalized_monotone 1000 3000) as H.
  destruct H as (Hf & Hk & _); [lia | lia | lia |].
  split; [exact Hf | exact Hk].
Defined.

(** ** LED output buffer *)

Lemma store_at_Some {A} (a : list A) (i : Z) (v : A) :
  0 <= i < Z.of_nat (length a) -> store_at a i v = Some (<[Z.to_nat i := v]> a).
Proof.
  intros Hi. unfold store_at.
  destruct (Z.leb_spec 0 i); [|lia].
  destruct (Z.ltb_spec i (Z.of_nat (length a))); [reflexivity|lia].
Qed.

Lemma store_at_None {A} (a : list A) (i : Z) (v : A) :
  Z.of_nat (length a) <= i -> store_at a i v = None.
Proof.
  intros Hi. unfold store_at.
  destruct (Z.ltb_spec i (Z.of_nat (length a))); [lia|].
  rewrite andb_false_r. reflexivity.
Qed.

Lemma lookup_insert_Z_ne {A} (a : list A) (i : Z) (v : A) (j : nat) :
  0 <= i -> Z.of_nat j <> i -> <[Z.to_nat i := v]> a !! j = a !! j.
Proof. intros Hi Hne. apply list_lookup_insert_ne. lia. Qed.

(** Frame of the stop-button setter. *)
Lemma setStopButtonLED_frame (g : Led.globals) (index : Z) (brightness : spec_float)
    (store_led_state : bool) :
  length (Led.led_buffer g) = 81%nat -> length (Led.stop_states g) = 4%nat ->
  0 <= index <= 3 ->
  exists r g',
    Led.setStopButtonLED g index brightness store_led_state = Some (r, g') /\
    length (Led.led_buffer g') = 81%nat /\
    forall j : nat, Z.of_nat j ∉ stop_led_bytes index ->
                    Led.led_buffer g' !! j = Led.led_buffer g !! j.
Proof.
  intros Hlen Hstop Hi. unfold Led.setStopButtonLED.
  assert (Hs : exists stop,
             (if store_led_state
              then store_at (Led.stop_states g) index
                     {| Led.state_brightness := Led.clamp_brightness brightness |}
              else Some (Led.stop_states g)) = Some stop).
  { destruct store_led_state; [|eauto].
    rewrite store_at_Some by lia. eauto. }
  destruct Hs as [stop ->]. simpl.
  unfold Led.LED_BYTE_STOP_START.
  rewrite store_at_Some by lia. simpl.
  rewrite store_at_Some by (rewrite length_insert; lia). simpl.
  eexists _, _. split; [reflexivity|]. simpl. split.
  - rewrite !length_insert. exact Hlen.
  - intros j Hj. unfold stop_led_bytes in Hj.
    rewrite !not_elem_of_cons in Hj. destruct Hj as (H1 & H2 & _).
    rewrite !lookup_insert_Z_ne by lia. reflexivity.
Qed.

(** Frame of the matrix setter. *)
Lemma setMatrixButtonLED_frame (g : Led.globals) (row col : Z) (c : LEDColor.t)
    (brightness : spec_float) (store_led_state : bool) :
  length (Led.led_buffer g) = 81%nat ->
  0 <= row <= 3 -> 0 <= col <= 3 ->
  exists r g',
    Led.setMatrixButtonLED g row col c brightness store_led_state = Some (r, g') /\
    length (Led.led_buffer g') = 81%nat /\
    forall j : nat, Z.of_nat j ∉ matrix_led_bytes row col ->
                    Led.led_buffer g' !! j = Led.led_buffer g !! j.
Proof.
  intros Hlen Hr Hc. unfold Led.setMatrixButtonLED, Led.setMatrixButtonLED_BRG.
  unfold Led.LED_BYTE_MATRIX_START, Led.MATRIX_COLS, Led.MATRIX_LEDS_PER_BUTTON.
  rewrite store_at_Some by lia. simpl.
  rewrite store_at_Some by (rewrite length_insert; lia). simpl.
  rewrite store_at_Some by (rewrite !length_insert; lia). simpl.
  eexists _, _. split; [reflexivity|]. simpl. split.
  - rewrite !length_insert. exact Hlen.
  - intros j Hj. unfold matrix_led_bytes in Hj.
    rewrite !not_elem_of_cons in Hj. destruct Hj as (H1 & H2 & H3 & _).
    rewrite !lookup_insert_Z_ne by lia. reflexivity.
Qed.

(** The bytes of distinct LEDs are distinct, and none is the report
    identifier at offset 0. *)
Lemma led_bytes_layout (x : Z) :
  (forall i, 0 <= i <= 3 -> x ∈ stop_led_bytes i -> 73 <= x <= 80) /\
  (forall r c, 0 <= r <= 3 -> 0 <= c <= 3 -> x ∈ matrix_led_bytes r c -> 25 <= x <= 72) /\
  (forall i i', x ∈ stop_led_bytes i -> x ∈ stop_led_bytes i' -> i = i') /\
  (forall r c r' c', 0 <= c <= 3 -> 0 <= c' <= 3 ->
     x ∈ matrix_led_bytes r c -> x ∈ matrix_led_bytes r' c' -> r = r' /\ c = c').
Proof.
  unfold stop_led_bytes, matrix_led_bytes.
  split; [|split; [|split]]; intros *; rewrite ?elem_of_cons, ?elem_of_nil.
  - lia.
  - lia.
  - lia.
  - intros Hc Hc' H H'.
    assert (4 * r + c = 4 * r' + c') by lia. lia.
Qed.

(** C9: on an 81-byte output buffer, setting the LED of a stop button with
    index in [0,3] or of a matrix cell with row and column in [0,3], at any
    brightness and with or without state recording, succeeds and changes
    no byte of the buffer outside that LED's own bytes (two bytes in 73..80
    for a stop button, three bytes in 25..72 for a matrix cell); the bytes
    of different LEDs are disjoint and the report identifier at offset 0 is
    among the bytes left unchanged. *)
Theorem led_setters_frame (g : Led.globals) (brightness : spec_float)
    (store_led_state : bool) :
  length (Led.led_buffer g) = 81%nat -> length (Led.stop_states g) = 4%nat ->
  (forall index, 0 <= index <= 3 ->
     exists r g',
       Led.setStopButtonLED g index brightness store_led_state = Some (r, g') /\
       length (Led.led_buffer g') = 81%nat /\
       Led.led_buffer g' !! 0%nat = Led.led_buffer g !! 0%nat /\
       (forall j : nat, Z.of_nat j ∉ stop_led_bytes index ->
                        Led.led_buffer g' !! j = Led.led_buffer g !! j)) /\
  (forall row col c, 0 <= row <= 3 -> 0 <= col <= 3 ->
     exists r g',
       Led.setMatrixButtonLED g row col c brightness store_led_state = Some (r, g') /\
       length (Led.led_buffer g') = 81%nat /\
       Led.led_buffer g' !! 0%nat = Led.led_buffer g !! 0%nat /\
       (forall j : nat, Z.of_nat j ∉ matrix_led_bytes row col ->
                        Led.led_buffer g' !! j = Led.led_buffer g !! j)) /\
  (forall x : Z,
     (forall i, 0 <= i <= 3 -> x ∈ stop_led_bytes i -> 73 <= x <= 80) /\
     (forall r c, 0 <= r <= 3 -> 0 <= c <= 3 -> x ∈ matrix_led_bytes r c -> 25 <= x <= 72) /\
     (forall i i', x ∈ stop_led_bytes i -> x ∈ stop_led_bytes i' -> i = i') /\
     (forall r c r' c', 0 <= c <= 3 -> 0 <= c' <= 3 ->
        x ∈ matrix_led_bytes r c -> x ∈ matrix_led_bytes r' c' -> r = r' /\ c = c')).
Proof.
  intros Hlen Hstop. split; [|split].
  - intros index Hi.
    destruct (setStopButtonLED_frame g index brightness store_led_state Hlen Hstop Hi)
      as (r & g' & Heq & Hl & Hframe).
    exists r, g'. repeat split; try assumption.
    apply Hframe. unfold stop_led_bytes.
    rewrite !not_elem_of_cons. repeat split; try lia. apply not_elem_of_nil.
  - intros row col c Hr Hc.
    destruct (setMatrixButtonLED_frame g row col c brightness store_led_state Hlen Hr Hc)
      as (r & g' & Heq & Hl & Hframe).
    exists r, g'. repeat split; try assumption.
    apply Hframe. unfold matrix_led_bytes.
    rewrite !not_elem_of_cons. repeat split; try lia. apply not_elem_of_nil.
  - apply led_bytes_layout.
Qed.

Lemma led_setters_frame_witness :
  exists r g',
    Led.setStopButtonLED (Led.initialized idle_device) 2 F32.half true = Some (r, g') /\
    length (Led.led_buffer g') = 81%nat /\
    Led.led_buffer g' !! 0%nat = Led.led_buffer (Led.initialized idle_device) !! 0%nat.
Proof.
  destruct (led_setters_frame (Led.initialized idle_device) F32.half true)
    as (Hstop & _ & _); [reflexivity | reflexivity |].
  destruct (Hstop 2) as (r & g' & Heq & Hl & H0 & _); [lia|].
  exists r, g'. repeat split; assumption.
Defined.

(** ** Matrix LED: hardware bytes and recorded state *)

(** At full brightness [convertTo7Bit] rounds the channel scaled by
    127/255 to the nearest integer.  Settled by running the code on the
    256 channel values. *)
Lemma convertTo7Bit_full_brightness (value_8bit : Z) :
  0 <= value_8bit <= 255 -> Led.convertTo7Bit value_8bit F32.one = Led.quantize7 value_8bit.
Proof.
  intros Hv. apply Z.eqb_eq.
  apply (all_below_spec 256
           (fun x => Led.convertTo7Bit x F32.one =? Led.quantize7 x));
    [vm_compute; reflexivity | lia].
Qed.

Lemma getColorWithBrightness_palette (c : LEDColor.t) (brightness : spec_float) :
  let '(r, gr, b) := Led.palette_rgb c in
  Led.getColorWithBrightness c brightness =
  {| Led.blue := Led.convertTo7Bit b brightness;
     Led.red := Led.convertTo7Bit r brightness;
     Led.green := Led.convertTo7Bit gr brightness |}.
Proof. destruct c; reflexivity. Qed.

Lemma palette_rgb_range (c : LEDColor.t) :
  let '(r, gr, b) := Led.palette_rgb c in
  0 <= r <= 255 /\ 0 <= gr <= 255 /\ 0 <= b <= 255.
Proof. destruct c; simpl; lia. Qed.

(** The hardware half of the round trip holds: after the call, the three
    bytes at offset [25 + 3 * (4 * row + col)] are the palette's blue, red
    and green channels, each quantised to 7 bits. *)
Lemma setMatrixButtonLED_hardware_bytes (g : Led.globals) (row col : Z) (c : LEDColor.t)
    (store_led_state : bool) :
  length (Led.led_buffer g) = 81%nat ->
  0 <= row <= 3 -> 0 <= col <= 3 ->
  exists r g',
    Led.setMatrixButtonLED g row col c F32.one store_led_state = Some (r, g') /\
    let '(cr, cg, cb) := Led.palette_rgb c in
    let base := 25 + 3 * (4 * row + col) in
    byte_at (Led.led_buffer g') base = Led.quantize7 cb /\
    byte_at (Led.led_buffer g') (base + 1) = Led.quantize7 cr /\
    byte_at (Led.led_buffer g') (base + 2) = Led.quantize7 cg.
Proof.
  intros Hlen Hr Hc.
  pose proof (getColorWithBrightness_palette c F32.one) as Hpal.
  pose proof (palette_rgb_range c) as Hrange.
  unfold Led.setMatrixButtonLED, Led.setMatrixButtonLED_BRG.
  unfold Led.LED_BYTE_MATRIX_START, Led.MATRIX_COLS, Led.MATRIX_LEDS_PER_BUTTON.
  destruct (Led.palette_rgb c) as [[cr cg] cb]. rewrite Hpal. simpl Led.blue. simpl Led.red.
  simpl Led.green. destruct Hrange as (Rr & Rg & Rb).
  rewrite !convertTo7Bit_full_brightness by lia.
  rewrite store_at_Some by lia. simpl.
  rewrite store_at_Some by (rewrite length_insert; lia). simpl.
  rewrite store_at_Some by (rewrite !length_insert; lia). simpl.
  eexists _, _. split; [reflexivity|]. simpl.
  unfold byte_at.
  repeat match goal with |- context [?x <? 0] => destruct (Z.ltb_spec x 0); [lia|] end.
  replace (25 + 3 * (4 * row + col)) with (25 + (row * 4 + col) * 3) by lia.
  repeat split.
  - rewrite list_lookup_insert_ne by lia.
    rewrite list_lookup_insert_ne by lia.
    rewrite list_lookup_insert_eq by lia. reflexivity.
  - rewrite list_lookup_insert_ne by lia.
    rewrite list_lookup_insert_eq by (rewrite length_insert; lia). reflexivity.
  - rewrite list_lookup_insert_eq by (rewrite !length_insert; lia). reflexivity.
Qed.

Lemma setMatrixButtonLED_keeps_matrix_states (g g' : Led.globals) (row col : Z)
    (c : LEDColor.t) (brightness : spec_float) (store_led_state r : bool) :
  Led.setMatrixButtonLED g row col c brightness store_led_state = Some (r, g') ->
  Led.matrix_states g' = Led.matrix_states g.
Proof.
  unfold Led.setMatrixButtonLED, Led.setMatrixButtonLED_BRG. intros H.
  repeat match type of H with
         | (match ?x with _ => _ end) = _ => destruct x; simpl in H; [|discriminate]
         | (mbind _ ?x) = _ => destruct x; simpl in H; [|discriminate]
         end.
  inversion H. reflexivity.
Qed.

(** C4 on the code: after [initializeLEDController],
    [setMatrixButtonLED(1, 1, LEDColor::red, 1.0f, true)] writes the
    hardware bytes (0, 127, 0) at offset 40, but [getMatrixButtonState(1,
    1)] still answers (black, 0.0): the setter never stores into
    [matrix_states], although it is asked to record. *)
Theorem setMatrixButtonLED_state_not_recorded :
  exists r g',
    Led.setMatrixButtonLED (Led.initialized idle_device) 1 1 LEDColor.red F32.one true
      = Some (r, g') /\
    (byte_at (Led.led_buffer g') 40, byte_at (Led.led_buffer g') 41,
     byte_at (Led.led_buffer g') 42) = (0, 127, 0) /\
    Led.getMatrixButtonState g' 1 1 =
      {| Led.color := LEDColor.black; Led.brightness := F32.zero |} /\
    Led.getMatrixButtonState g' 1 1 <>
      {| Led.color := LEDColor.red; Led.brightness := F32.one |}.
Proof.
  eexists _, _. split; [vm_compute; reflexivity|].
  split; [vm_compute; reflexivity|].
  split; [vm_compute; reflexivity|].
  vm_compute. discriminate.
Qed.

(** ** Single-brightness buttons: the recorded state *)

Lemma setButtonLED_recording_index (g : Led.globals) (button : Led.LEDButton)
    (brightness : spec_float) :
  length (Led.special_states g) = 5%nat ->
  5 <= Led.LEDButton_to_int button ->
  Led.setButtonLED g button brightness true = None.
Proof.
  intros Hlen Hidx. unfold Led.setButtonLED.
  rewrite (store_at_None (Led.special_states g)) by lia. reflexivity.
Qed.

(** C10 on the code: [special_states] has 5 elements and [(int)button]
    ranges over 0..7; for TYPE, REVERSE and SHIFT the recording store of
    [setButtonLED] is at index 5, 6 and 7, outside the array, while the
    same calls without recording stay inside every array. *)
Theorem setButtonLED_recording_out_of_bounds :
  length (Led.special_states (Led.initialized idle_device)) = 5%nat /\
  Led.LEDButton_to_int Led.SHIFT = 7 /\
  Led.setButtonLED (Led.initialized idle_device) Led.TYPE F32.zero true = None /\
  Led.setButtonLED (Led.initialized idle_device) Led.REVERSE F32.zero true = None /\
  Led.setButtonLED (Led.initialized idle_device) Led.SHIFT F32.zero true = None /\
  (exists r g',
     Led.setButtonLED (Led.initialized idle_device) Led.SHIFT F32.zero false = Some (r, g')).
Proof.
  repeat split; try reflexivity.
  eexists _, _. vm_compute. reflexivity.
Qed.

(** ** Fader coalescing *)

Lemma elem_at_insert_eq {A} (d : A) (a : list A) (k : Z) (v : A) :
  0 <= k < Z.of_nat (length a) -> elem_at d (<[Z.to_nat k := v]> a) k = v.
Proof.
  intros Hk. unfold elem_at.
  destruct (Z.ltb_spec k 0); [lia|].
  rewrite list_lookup_insert_eq by lia. reflexivity.
Qed.

Lemma elem_at_insert_ne {A} (d : A) (a : list A) (j k : Z) (v : A) :
  0 <= j -> 0 <= k -> j <> k ->
  elem_at d (<[Z.to_nat j := v]> a) k = elem_at d a k.
Proof.
  intros Hj Hk Hne. unfold elem_at.
  destruct (Z.ltb_spec k 0); [lia|].
  rewrite list_lookup_insert_ne by lia. reflexivity.
Qed.

Lemma slider_values_snoc (k f v : Z) (out : list Controller.event) :
  slider_values k (out ++ [Controller.onSliderChanged f v]) =
  slider_values k out ++ (if f =? k then [v] else []).
Proof.
  unfold slider_values. rewrite omap_app. simpl.
  destruct (f =? k); reflexivity.
Qed.

Lemma fader_iteration_wf (tpm : Z) (buf : list Z) (now : Z)
    (st : Controller.AnalogControlState) (out : list Controller.event) (j : Z) :
  analog_wf st -> analog_wf (fst (Controller.fader_iteration tpm buf now (st, out) j)).
Proof.
  intros (H1 & H2 & H3). unfold Controller.fader_iteration, analog_wf. cbv zeta.
  generalize (F32.to_int (Fader.getFaderValue buf j)). intros v.
  cbn [fst Controller.previous_fader_values Controller.is_fader_value_dirty
       Controller.last_slider_change].
  repeat match goal with |- context [if ?b then _ else _] => destruct b end;
    rewrite ?length_insert; auto.
Qed.

(** An iteration for another fader leaves the channel and its events alone. *)
Lemma fader_iteration_other (tpm : Z) (buf : list Z) (now : Z)
    (st : Controller.AnalogControlState) (out : list Controller.event) (j k : Z) :
  0 <= j -> 0 <= k -> j <> k ->
  channel (fst (Controller.fader_iteration tpm buf now (st, out) j)) k = channel st k /\
  slider_values k (snd (Controller.fader_iteration tpm buf now (st, out) j)) =
  slider_values k out.
Proof.
  intros Hj Hk Hne. unfold Controller.fader_iteration, channel. cbv zeta.
  generalize (F32.to_int (Fader.getFaderValue buf j)). intros v.
  cbn [fst snd Controller.previous_fader_values Controller.is_fader_value_dirty
       Controller.last_slider_change].
  assert (Hjk : (j =? k) = false) by (apply Z.eqb_neq; exact Hne).
  repeat match goal with |- context [if ?b then _ else _] => destruct b end;
    rewrite ?slider_values_snoc, ?Hjk, ?app_nil_r, ?elem_at_insert_ne by assumption;
    split; reflexivity.
Qed.

(** The iteration for the fader itself is [channel_step]. *)
Lemma fader_iteration_self (tpm : Z) (buf : list Z) (now : Z)
    (st : Controller.AnalogControlState) (out : list Controller.event) (k : Z) :
  analog_wf st -> 0 <= k <= 3 ->
  channel (fst (Controller.fader_iteration tpm buf now (st, out) k)) k =
    fst (channel_step tpm now (fader_value buf k) (channel st k)) /\
  slider_values k (snd (Controller.fader_iteration tpm buf now (st, out) k)) =
    slider_values k out ++
    match snd (channel_step tpm now (fader_value buf k) (channel st k)) with
    | Some v => [v]
    | None => []
    end.
Proof.
  intros (H1 & H2 & H3) Hk.
  unfold Controller.fader_iteration, channel_step, channel, fader_value. cbv zeta.
  generalize (F32.to_int (Fader.getFaderValue buf k)). intros v. simpl.
  destruct (negb (v =? elem_at 0 (Controller.previous_fader_values st) k)
            && negb (elem_at false (Controller.is_fader_value_dirty st) k)) eqn:Emark.
  - rewrite !elem_at_insert_eq by lia.
    destruct (true && (Controller.elapsed_ms tpm now now >? 50)) eqn:Efire; simpl.
    + rewrite !elem_at_insert_eq by (rewrite ?length_insert; lia).
      rewrite slider_values_snoc, Z.eqb_refl. split; reflexivity.
    + rewrite !elem_at_insert_eq by (rewrite ?length_insert; lia).
      rewrite app_nil_r. split; reflexivity.
  - destruct (elem_at false (Controller.is_fader_value_dirty st) k
              && (Controller.elapsed_ms tpm now
                    (elem_at 0 (Controller.last_slider_change st) k) >? 50)) eqn:Efire; simpl.
    + rewrite !elem_at_insert_eq by (rewrite ?length_insert; lia).
      rewrite slider_values_snoc, Z.eqb_refl. split; reflexivity.
    + rewrite !elem_at_insert_eq by (rewrite ?length_insert; lia).
      rewrite app_nil_r. split; reflexivity.
Qed.

(** One polling frame, seen from fader [k]. *)
Lemma updateFaderStates_channel (tpm : Z) (buf : list Z) (clock : Z -> Z)
    (st : Controller.AnalogControlState) (k : Z) :
  analog_wf st -> 0 <= k <= 3 ->
  let r := Controller.updateFaderStates tpm buf clock st in
  analog_wf (fst r) /\
  channel (fst r) k = fst (channel_step tpm (clock k) (fader_value buf k) (channel st k)) /\
  slider_values k (snd r) =
    match snd (channel_step tpm (clock k) (fader_value buf k) (channel st k)) with
    | Some v => [v]
    | None => []
    end.
Proof.
  intros Hwf Hk. unfold Controller.updateFaderStates.
  change (range 4) with [0; 1; 2; 3]. cbn [fold_left].
  set (s0 := (st, @nil Controller.event)).
  set (s1 := Controller.fader_iteration tpm buf (clock 0) s0 0).
  set (s2 := Controller.fader_iteration tpm buf (clock 1) s1 1).
  set (s3 := Controller.fader_iteration tpm buf (clock 2) s2 2).
  set (s4 := Controller.fader_iteration tpm buf (clock 3) s3 3).
  assert (W1 : analog_wf (fst s1)) by (apply fader_iteration_wf; exact Hwf).
  assert (W2 : analog_wf (fst s2)).
  { unfold s2. rewrite (surjective_pairing s1). apply fader_iteration_wf; exact W1. }
  assert (W3 : analog_wf (fst s3)).
  { unfold s3. rewrite (surjective_pairing s2). apply fader_iteration_wf; exact W2. }
  assert (W4 : analog_wf (fst s4)).
  { unfold s4. rewrite (surjective_pairing s3). apply fader_iteration_wf; exact W3. }
  assert (step : forall s now j,
             analog_wf (fst s) -> 0 <= j <= 3 ->
             let s' := Controller.fader_iteration tpm buf now s j in
             (j <> k -> channel (fst s') k = channel (fst s) k /\
                        slider_values k (snd s') = slider_values k (snd s)) /\
             (j = k -> channel (fst s') k =
                         fst (channel_step tpm now (fader_value buf k) (channel (fst s) k)) /\
                       slider_values k (snd s') =
                         slider_values k (snd s) ++
                         match snd (channel_step tpm now (fader_value buf k)
                                      (channel (fst s) k)) with
                         | Some v => [v] | None => [] end)).
  { intros [a o] now j Wa Hj. cbn [fst snd] in Wa |- *. cbv zeta. split.
    - intros Hne. apply fader_iteration_other; lia.
    - intros ->. apply fader_iteration_self; assumption. }
  pose proof (step s0 (clock 0) 0 Hwf ltac:(lia)) as [O1 S1].
  pose proof (step s1 (clock 1) 1 W1 ltac:(lia)) as [O2 S2].
  pose proof (step s2 (clock 2) 2 W2 ltac:(lia)) as [O3 S3].
  pose proof (step s3 (clock 3) 3 W3 ltac:(lia)) as [O4 S4].
  fold s1 in O1, S1. fold s2 in O2, S2. fold s3 in O3, S3. fold s4 in O4, S4.
  cbv zeta. split; [exact W4|].
  assert (Hcases : k = 0 \/ k = 1 \/ k = 2 \/ k = 3) by lia.
  destruct Hcases as [-> | [-> | [-> | ->]]].
  - destruct (S1 eq_refl) as [C E].
    destruct (O2 ltac:(lia)) as [C2 E2]. destruct (O3 ltac:(lia)) as [C3 E3].
    destruct (O4 ltac:(lia)) as [C4 E4].
    rewrite C4, C3, C2, C, E4, E3, E2, E. split; reflexivity.
  - destruct (O1 ltac:(lia)) as [C1 E1]. destruct (S2 eq_refl) as [C E].
    destruct (O3 ltac:(lia)) as [C3 E3]. destruct (O4 ltac:(lia)) as [C4 E4].
    rewrite C4, C3, C, E4, E3, E, C1, E1. split; reflexivity.
  - destruct (O1 ltac:(lia)) as [C1 E1]. destruct (O2 ltac:(lia)) as [C2 E2].
    destruct (S3 eq_refl) as [C E]. destruct (O4 ltac:(lia)) as [C4 E4].
    rewrite C4, C, E4, E, C2, E2, C1, E1. split; reflexivity.
  - destruct (O1 ltac:(lia)) as [C1 E1]. destruct (O2 ltac:(lia)) as [C2 E2].
    destruct (O3 ltac:(lia)) as [C3 E3]. destruct (S4 eq_refl) as [C E].
    rewrite C, E, C3, E3, C2, E2, C1, E1. split; reflexivity.
Qed.

Lemma fader_frames_app (tpm : Z) (a b : list (list Z * (Z -> Z)))
    (st : Controller.AnalogControlState) :
  Controller.fader_frames tpm (a ++ b) st =
  (fst (Controller.fader_frames tpm b (fst (Controller.fader_frames tpm a st))),
   snd (Controller.fader_frames tpm a st) ++
   snd (Controller.fader_frames tpm b (fst (Controller.fader_frames tpm a st)))).
Proof.
  revert st. induction a as [|[buf clock] a IH]; intros st.
  - simpl. destruct (Controller.fader_frames tpm b st); reflexivity.
  - cbn [app Controller.fader_frames].
    destruct (Controller.updateFaderStates tpm buf clock st) as [s1 o1].
    rewrite IH.
    destruct (Controller.fader_frames tpm a s1) as [s2 o2]. cbn [fst snd].
    rewrite app_assoc. reflexivity.
Qed.

Lemma slider_values_app (k : Z) (o1 o2 : list Controller.event) :
  slider_values k (o1 ++ o2) = slider_values k o1 ++ slider_values k o2.
Proof. apply omap_app. Qed.

Lemma elapsed_ms_same (tpm now : Z) : Controller.elapsed_ms tpm now now = 0.
Proof. unfold Controller.elapsed_ms. rewrite Z.sub_diag. reflexivity. Qed.

(** While the channel is dirty and no frame is more than 50 ms after the
    recorded time, nothing is emitted and the recorded time stays, whatever
    the values do. *)
Lemma fader_frames_dirty_quiet (tpm k t0 : Z) (mid : list (list Z * (Z -> Z))) :
  0 <= k <= 3 ->
  Forall (fun fr => Controller.elapsed_ms tpm (snd fr k) t0 <= 50) mid ->
  forall (st : Controller.AnalogControlState) (p : Z),
    analog_wf st -> channel st k = (p, true, t0) ->
    analog_wf (fst (Controller.fader_frames tpm mid st)) /\
    (exists p', channel (fst (Controller.fader_frames tpm mid st)) k = (p', true, t0)) /\
    slider_values k (snd (Controller.fader_frames tpm mid st)) = [].
Proof.
  intros Hk Hall. induction Hall as [|[buf clock] mid Hfr Hall IH]; intros st p Hwf Hch.
  - simpl. split; [exact Hwf|]. split; [exists p; exact Hch | reflexivity].
  - cbn [Controller.fader_frames].
    destruct (updateFaderStates_channel tpm buf clock st k Hwf Hk) as (W1 & C1 & E1).
    destruct (Controller.updateFaderStates tpm buf clock st) as [s1 o1].
    cbn [fst snd] in W1, C1, E1, Hfr.
    rewrite Hch in C1, E1. unfold channel_step in C1, E1.
    rewrite andb_false_r in C1, E1. cbn [andb] in C1, E1.
    destruct (Z.gtb_spec (Controller.elapsed_ms tpm (clock k) t0) 50) as [Hgt|_]; [lia|].
    cbn [fst snd] in C1, E1.
    destruct (IH s1 _ W1 C1) as (W2 & C2 & E2).
    destruct (Controller.fader_frames tpm mid s1) as [s2 o2]. cbn [fst snd] in *.
    split; [exact W2|]. split; [exact C2|].
    rewrite slider_values_app, E1, E2. reflexivity.
Qed.

(** C3, as the specification words it, fails: the window is not counted
    from the most recent change.  With a clock in milliseconds, fader 0
    moves to 7 at 0 ms, to 15 at 40 ms and to 23 at 60 ms; the frame at
    60 ms emits the event (value 23, sent doubled), in the very frame in
    which the value changed and 20 ms after the change before it. *)
Lemma fader_event_within_50ms_of_last_change :
  let frames := [(fader0_report 1, fun _ : Z => 0);
                 (fader0_report 2, fun _ : Z => 40);
                 (fader0_report 3, fun _ : Z => 60)] in
  map (fun fr => fader_value (fst fr) 0) frames = [7; 15; 23] /\
  snd (Controller.fader_frames 1 (take 2 frames) analog_at_rest) = [] /\
  snd (Controller.fader_frames 1 frames analog_at_rest) = [Controller.onSliderChanged 0 46].
Proof. vm_compute. repeat split; reflexivity. Qed.

(** C3, amended: for a fader that is not dirty, the first frame whose
    truncated value differs from the stored previous value marks it dirty
    and records that frame's time; as long as no frame is more than 50
    whole milliseconds after the recorded time nothing is emitted for the
    fader, whatever its value does in between; the first frame that is
    more than 50 ms after the recorded time emits exactly one event,
    carrying twice the value of that frame, clears the dirty flag and
    records its own time. *)
Theorem fader_coalescing (tpm k : Z) (st : Controller.AnalogControlState)
    (first : list Z * (Z -> Z)) (mid : list (list Z * (Z -> Z)))
    (last : list Z * (Z -> Z)) :
  analog_wf st -> 0 <= k <= 3 ->
  elem_at false (Controller.is_fader_value_dirty st) k = false ->
  fader_value (fst first) k <> elem_at 0 (Controller.previous_fader_values st) k ->
  Forall (fun fr => Controller.elapsed_ms tpm (snd fr k) (snd first k) <= 50) mid ->
  50 < Controller.elapsed_ms tpm (snd last k) (snd first k) ->
  channel (fst (Controller.fader_frames tpm [first] st)) k =
    (fader_value (fst first) k, true, snd first k) /\
  slider_values k (snd (Controller.fader_frames tpm (first :: mid) st)) = [] /\
  slider_values k (snd (Controller.fader_frames tpm (first :: mid ++ [last]) st)) =
    [fader_value (fst last) k * 2] /\
  channel (fst (Controller.fader_frames tpm (first :: mid ++ [last]) st)) k =
    (fader_value (fst last) k, false, snd last k).
Proof.
  intros Hwf Hk Hclean Hdiff Hmid Hlast.
  destruct first as [buf0 clock0], last as [bufn clockn]. cbn [fst snd] in *.
  (* the first frame *)
  destruct (updateFaderStates_channel tpm buf0 clock0 st k Hwf Hk) as (W1 & C1 & E1).
  unfold channel at 2 in C1. unfold channel at 1 in E1.
  rewrite Hclean in C1, E1. unfold channel_step in C1, E1.
  destruct (Z.eqb_spec (fader_value buf0 k)
              (elem_at 0 (Controller.previous_fader_values st) k)) as [Heq|_];
    [contradiction|].
  cbn [negb andb] in C1, E1. rewrite elapsed_ms_same in C1, E1.
  cbn [Z.gtb Z.compare fst snd] in C1, E1.
  (* the frames inside the window *)
  destruct (fader_frames_dirty_quiet tpm k (clock0 k) mid Hk Hmid _ _ W1 C1)
    as (W2 & (p' & C2) & E2).
  (* the frame after the window *)
  destruct (updateFaderStates_channel tpm bufn clockn _ k W2 Hk) as (W3 & C3 & E3).
  rewrite C2 in C3, E3. unfold channel_step in C3, E3.
  rewrite andb_false_r in C3, E3. cbn [andb] in C3, E3.
  destruct (Z.gtb_spec (Controller.elapsed_ms tpm (clockn k) (clock0 k)) 50) as [_|Hle];
    [|lia].
  cbn [fst snd] in C3, E3.
  split; [|split; [|split]].
  - cbn [Controller.fader_frames].
    destruct (Controller.updateFaderStates tpm buf0 clock0 st) as [s1 o1].
    cbn [fst snd] in *. exact C1.
  - cbn [Controller.fader_frames].
    destruct (Controller.updateFaderStates tpm buf0 clock0 st) as [s1 o1].
    cbn [fst snd] in *.
    destruct (Controller.fader_frames tpm mid s1) as [s2 o2]. cbn [fst snd] in *.
    rewrite slider_values_app, E1, E2. reflexivity.
  - cbn [Controller.fader_frames].
    destruct (Controller.updateFaderStates tpm buf0 clock0 st) as [s1 o1].
    cbn [fst snd] in *. rewrite fader_frames_app.
    destruct (Controller.fader_frames tpm mid s1) as [s2 o2]. cbn [fst snd] in *.
    cbn [Controller.fader_frames].
    destruct (Controller.updateFaderStates tpm bufn clockn s2) as [s3 o3].
    cbn [fst snd] in *.
    rewrite !slider_values_app, E1, E2, E3, app_nil_r. reflexivity.
  - cbn [Controller.fader_frames].
    destruct (Controller.updateFaderStates tpm buf0 clock0 st) as [s1 o1].
    cbn [fst snd] in *. rewrite fader_frames_app.
    destruct (Controller.fader_frames tpm mid s1) as [s2 o2]. cbn [fst snd] in *.
    cbn [Controller.fader_frames].
    destruct (Controller.updateFaderStates tpm bufn clockn s2) as [s3 o3].
    cbn [fst snd] in *. exact C3.
Qed.

Lemma fader_coalescing_witness :
  slider_values 0
    (snd (Controller.fader_frames 1
            ((fader0_report 1, fun _ : Z => 0)
               :: [(fader0_report 2, fun _ : Z => 40)] ++ [(fader0_report 3, fun _ : Z => 60)])
            analog_at_rest)) =
  [fader_value (fader0_report 3) 0 * 2].
Proof.
  apply (fader_coalescing 1 0 analog_at_rest
           (fader0_report 1, fun _ : Z => 0)
           [(fader0_report 2, fun _ : Z => 40)]
           (fader0_report 3, fun _ : Z => 60)).
  - repeat split; reflexivity.
  - lia.
  - reflexivity.
  - vm_compute. discriminate.
  - repeat constructor. vm_compute. discriminate.
  - vm_compute. reflexivity.
Defined.

(** ** Button edge detection *)

(** The first loop of [updateButtons] (special and control buttons) does
    detect edges; the lemmas below establish it for every frame
    sequence. *)

Lemma special_iteration_spec (buf : list Z) (sp : list bool)
    (out : list Controller.event) (i : Z) :
  0 <= i < Z.of_nat (length sp) ->
  Controller.special_iteration buf (sp, out) i =
  (<[Z.to_nat i := InputReader.isSpecialButtonPressed buf i]> sp,
   out ++ edge_events (Controller.onButtonPress (4 + i)) (Controller.onButtonRelease (4 + i))
            (InputReader.isSpecialButtonPressed buf i) (elem_at false sp i)).
Proof.
  intros Hi. unfold Controller.special_iteration, edge_events.
  assert (Hlk : sp !! Z.to_nat i = Some (elem_at false sp i)).
  { unfold elem_at. destruct (Z.ltb_spec i 0); [lia|].
    destruct (lookup_lt_is_Some_2 sp (Z.to_nat i) ltac:(lia)) as [b Hb].
    rewrite Hb. reflexivity. }
  destruct (InputReader.isSpecialButtonPressed buf i);
    destruct (elem_at false sp i) eqn:E; cbn [negb];
    rewrite ?app_nil_r; try reflexivity.
  - rewrite list_insert_id by exact Hlk. reflexivity.
  - rewrite list_insert_id by exact Hlk. reflexivity.
Qed.

Lemma flat_map_ext_elem {A B} (f g : A -> list B) (l : list A) :
  (forall a, a ∈ l -> f a = g a) -> flat_map f l = flat_map g l.
Proof.
  induction l as [|a l IH]; intros H; [reflexivity|].
  simpl. rewrite (H a) by left. rewrite IH; [reflexivity|].
  intros b Hb. apply H. right. exact Hb.
Qed.

Lemma special_fold_spec (buf : list Z) (idx : list Z) :
  NoDup idx ->
  forall (sp : list bool) (out : list Controller.event),
    (forall i, i ∈ idx -> 0 <= i < Z.of_nat (length sp)) ->
    fold_left (Controller.special_iteration buf) idx (sp, out) =
    (fold_left (fun s i => <[Z.to_nat i := InputReader.isSpecialButtonPressed buf i]> s) idx sp,
     out ++ flat_map
              (fun i => edge_events (Controller.onButtonPress (4 + i))
                          (Controller.onButtonRelease (4 + i))
                          (InputReader.isSpecialButtonPressed buf i) (elem_at false sp i))
              idx).
Proof.
  induction 1 as [|i idx Hnotin Hnd IH]; intros sp out Hin.
  - simpl. rewrite app_nil_r. reflexivity.
  - cbn [fold_left flat_map].
    rewrite special_iteration_spec by (apply Hin; left).
    rewrite IH.
    2:{ intros j Hj. rewrite length_insert. apply Hin. right. exact Hj. }
    rewrite <- app_assoc. f_equal. f_equal. f_equal.
    apply flat_map_ext_elem. intros j Hj.
    assert (j <> i) by (intros ->; contradiction).
    pose proof (Hin i ltac:(left)). pose proof (Hin j ltac:(right; exact Hj)).
    rewrite elem_at_insert_ne by lia. reflexivity.
Qed.

Lemma button_events_app (k : Z) (o1 o2 : list Controller.event) :
  button_events k (o1 ++ o2) = button_events k o1 ++ button_events k o2.
Proof. apply omap_app. Qed.

Lemma button_events_edge (k j : Z) (cur prev : bool) :
  button_events k
    (edge_events (Controller.onButtonPress j) (Controller.onButtonRelease j) cur prev) =
  if j =? k then (if eqb cur prev then [] else [cur]) else [].
Proof.
  unfold edge_events, button_events.
  destruct cur, prev; simpl; destruct (j =? k); reflexivity.
Qed.

Lemma button_events_stop_loop (buf : list Z) (k : Z) (out : list Controller.event) :
  4 <= k ->
  button_events k (fold_left (Controller.stop_iteration buf) (range 4) out) =
  button_events k out.
Proof.
  intros Hk. change (range 4) with [0; 1; 2; 3]. cbn [fold_left].
  assert (Hs : forall j, j < 4 -> button_events k [Controller.onButtonPress j] = []).
  { intros j Hj. unfold button_events. simpl.
    destruct (Z.eqb_spec j k); [lia|reflexivity]. }
  unfold Controller.stop_iteration.
  repeat match goal with
         | |- context [if ?b then _ else _] => destruct b
         end;
    rewrite ?button_events_app, ?Hs, ?app_nil_r by lia; reflexivity.
Qed.

(** One frame of [updateButtons], seen from special or control button [i]
    (delegate index [4 + i]). *)
Lemma updateButtons_special (buf : list Z) (sp : list bool) (i : Z) :
  length sp = 9%nat -> 0 <= i <= 8 ->
  length (fst (Controller.updateButtons buf sp)) = 9%nat /\
  elem_at false (fst (Controller.updateButtons buf sp)) i =
    InputReader.isSpecialButtonPressed buf i /\
  button_events (4 + i) (snd (Controller.updateButtons buf sp)) =
    if eqb (InputReader.isSpecialButtonPressed buf i) (elem_at false sp i) then []
    else [InputReader.isSpecialButtonPressed buf i].
Proof.
  intros Hlen Hi. unfold Controller.updateButtons.
  rewrite special_fold_spec.
  2:{ change (range 9) with [0; 1; 2; 3; 4; 5; 6; 7; 8].
      repeat (apply NoDup_cons; split; [rewrite ?elem_of_cons, elem_of_nil; lia|]).
      apply NoDup_nil; exact I. }
  2:{ intros j Hj. change (range 9) with [0; 1; 2; 3; 4; 5; 6; 7; 8] in Hj.
      rewrite !elem_of_cons, elem_of_nil in Hj. lia. }
  cbn [fst snd].
  rewrite button_events_stop_loop by lia.
  change (range 9) with [0; 1; 2; 3; 4; 5; 6; 7; 8].
  cbn [fold_left flat_map app].
  rewrite !button_events_app, !button_events_edge.
  do 10 (destruct sp as [|? sp]; try discriminate Hlen). clear Hlen.
  assert (Hcases : i = 0 \/ i = 1 \/ i = 2 \/ i = 3 \/ i = 4 \/ i = 5 \/ i = 6 \/ i = 7 \/ i = 8)
    by lia.
  destruct Hcases as [-> | [-> | [-> | [-> | [-> | [-> | [-> | [-> | ->]]]]]]]];
    (split; [reflexivity|]); (split; [reflexivity|]);
    cbn [Z.add Pos.add Pos.succ Z.eqb Pos.eqb app]; rewrite ?app_nil_r; reflexivity.
Qed.

(** X6.  Over any sequence of frames, the calls for special or control
    button [i] (delegate index [4 + i]) are exactly the edges of its
    decoded state: one press when it goes down, one release when it goes
    up, nothing while it stays. *)
Lemma button_frames_special_edges (frames : list (list Z)) (i : Z) :
  0 <= i <= 8 ->
  forall sp : list bool,
    length sp = 9%nat ->
    button_events (4 + i) (snd (Controller.button_frames frames sp)) =
    edges (elem_at false sp i)
          (map (fun buf => InputReader.isSpecialButtonPressed buf i) frames).
Proof.
  intros Hi. induction frames as [|buf frames IH]; intros sp Hlen.
  - reflexivity.
  - cbn [Controller.button_frames map edges].
    destruct (updateButtons_special buf sp i Hlen Hi) as (L1 & G1 & E1).
    destruct (Controller.updateButtons buf sp) as [s1 o1]. cbn [fst snd] in *.
    specialize (IH s1 L1).
    destruct (Controller.button_frames frames s1) as [s2 o2]. cbn [fst snd] in *.
    rewrite button_events_app, E1, IH, G1. reflexivity.
Qed.

(** [updateMatrixButtonStates] detects edges as well. *)

Lemma matrix_iteration_spec (buf : list Z) (row col : Z)
    (st : Controller.MatrixButtonState) (out : list Controller.event) :
  Controller.matrix_iteration buf row (st, out) col =
  ({| Controller.current_state :=
        Controller.set2 (Controller.current_state st) row col
          (InputReader.isMatrixButtonPressed buf row col);
      Controller.previous_state :=
        Controller.set2 (Controller.previous_state st) row col
          (InputReader.isMatrixButtonPressed buf row col) |},
   out ++ edge_events (Controller.onMatrixButtonPress row col)
            (Controller.onMatrixButtonRelease row col)
            (InputReader.isMatrixButtonPressed buf row col)
            (Controller.get2 (Controller.previous_state st) row col)).
Proof.
  unfold Controller.matrix_iteration, edge_events.
  destruct (InputReader.isMatrixButtonPressed buf row col);
    destruct (Controller.get2 (Controller.previous_state st) row col);
    cbn [eqb negb]; rewrite ?app_nil_r; reflexivity.
Qed.

Lemma matrix_events_app (r c : Z) (o1 o2 : list Controller.event) :
  matrix_events r c (o1 ++ o2) = matrix_events r c o1 ++ matrix_events r c o2.
Proof. apply omap_app. Qed.

Lemma matrix_events_edge (r c i j : Z) (cur prev : bool) :
  matrix_events r c
    (edge_events (Controller.onMatrixButtonPress i j)
       (Controller.onMatrixButtonRelease i j) cur prev) =
  if (i =? r) && (j =? c) then (if eqb cur prev then [] else [cur]) else [].
Proof.
  unfold edge_events, matrix_events.
  destruct cur, prev; simpl; destruct ((i =? r) && (j =? c)); reflexivity.
Qed.

Lemma matrix_shape_inv (m : list (list bool)) :
  matrix_shape m ->
  exists a0 a1 a2 a3 b0 b1 b2 b3 c0 c1 c2 c3 d0 d1 d2 d3 : bool,
    m = [[a0; a1; a2; a3]; [b0; b1; b2; b3]; [c0; c1; c2; c3]; [d0; d1; d2; d3]].
Proof.
  intros [Hlen Hrows].
  do 5 (destruct m as [|? m]; try discriminate Hlen). clear Hlen.
  repeat match goal with
         | H : Forall _ (_ :: _) |- _ => apply Forall_cons in H as [? H]
         end.
  repeat match goal with
         | H : length ?l = 4%nat |- _ =>
             do 5 (destruct l as [|? l]; try discriminate H); clear H
         end.
  repeat eexists.
Qed.

(** One frame of [updateMatrixButtonStates], seen from cell ([r], [c]). *)
Lemma updateMatrixButtonStates_cell (buf : list Z) (st : Controller.MatrixButtonState)
    (r c : Z) :
  matrix_shape (Controller.previous_state st) ->
  matrix_shape (Controller.current_state st) ->
  0 <= r <= 3 -> 0 <= c <= 3 ->
  let st' := fst (Controller.updateMatrixButtonStates buf st) in
  matrix_shape (Controller.previous_state st') /\
  matrix_shape (Controller.current_state st') /\
  Controller.get2 (Controller.previous_state st') r c =
    InputReader.isMatrixButtonPressed buf r c /\
  matrix_events r c (snd (Controller.updateMatrixButtonStates buf st)) =
    if eqb (InputReader.isMatrixButtonPressed buf r c)
           (Controller.get2 (Controller.previous_state st) r c)
    then [] else [InputReader.isMatrixButtonPressed buf r c].
Proof.
  intros Hp Hc Hr Hcol.
  destruct st as [cur prev]. cbn [Controller.previous_state Controller.current_state] in *.
  destruct (matrix_shape_inv _ Hp)
    as (a0 & a1 & a2 & a3 & b0 & b1 & b2 & b3 & c0 & c1 & c2 & c3 & d0 & d1 & d2 & d3 & ->).
  destruct (matrix_shape_inv _ Hc)
    as (e0 & e1 & e2 & e3 & f0 & f1 & f2 & f3 & g0 & g1 & g2 & g3 & h0 & h1 & h2 & h3 & ->).
  clear Hp Hc.
  unfold Controller.updateMatrixButtonStates.
  change (range 4) with [0; 1; 2; 3]. cbn [fold_left].
  repeat (rewrite matrix_iteration_spec;
          cbn [Controller.previous_state Controller.current_state]).
  cbn [fst snd].
  set (pressed := InputReader.isMatrixButtonPressed buf). clearbody pressed.
  rewrite !matrix_events_app, !matrix_events_edge.
  assert (Hrow : r = 0 \/ r = 1 \/ r = 2 \/ r = 3) by lia.
  assert (Hcl : c = 0 \/ c = 1 \/ c = 2 \/ c = 3) by lia.
  destruct Hrow as [-> | [-> | [-> | ->]]]; destruct Hcl as [-> | [-> | [-> | ->]]];
    (split; [split; [reflexivity | repeat constructor]|]);
    (split; [split; [reflexivity | repeat constructor]|]);
    (split; [reflexivity|]);
    cbn [Z.eqb Pos.eqb andb app]; rewrite ?app_nil_r; reflexivity.
Qed.

(** X7.  Over any sequence of frames, the calls for a matrix cell are
    exactly the edges of its decoded state. *)
Lemma matrix_frames_edges (frames : list (list Z)) (r c : Z) :
  0 <= r <= 3 -> 0 <= c <= 3 ->
  forall st : Controller.MatrixButtonState,
    matrix_shape (Controller.previous_state st) ->
    matrix_shape (Controller.current_state st) ->
    matrix_events r c (snd (Controller.matrix_frames frames st)) =
    edges (Controller.get2 (Controller.previous_state st) r c)
          (map (fun buf => InputReader.isMatrixButtonPressed buf r c) frames).
Proof.
  intros Hr Hc. induction frames as [|buf frames IH]; intros st Hp Hcur.
  - reflexivity.
  - cbn [Controller.matrix_frames map edges].
    destruct (updateMatrixButtonStates_cell buf st r c Hp Hcur Hr Hc) as (P1 & C1 & G1 & E1).
    destruct (Controller.updateMatrixButtonStates buf st) as [s1 o1]. cbn [fst snd] in *.
    specialize (IH s1 P1 C1).
    destruct (Controller.matrix_frames frames s1) as [s2 o2]. cbn [fst snd] in *.
    rewrite matrix_events_app, E1, IH, G1. reflexivity.
Qed.

(** C2 on the code: a stop button held over two frames and then released.
    [updateButtons] calls [onButtonPress(0)] in each of the two frames in
    which the button is down and calls nothing when it is released.  The
    first loop of the same function treats a special button, and
    [updateMatrixButtonStates] a matrix cell, as the claim says: one press,
    then one release. *)
Theorem stop_button_not_edge_detected :
  snd (Controller.button_frames
         [report_with 4 0x80; report_with 4 0x80; idle_report]
         Controller.specialPressed_init)
    = [Controller.onButtonPress 0; Controller.onButtonPress 0] /\
  snd (Controller.button_frames
         [report_with 3 0x80; report_with 3 0x80; idle_report]
         Controller.specialPressed_init)
    = [Controller.onButtonPress 4; Controller.onButtonRelease 4] /\
  snd (Controller.matrix_frames
         [report_with 1 0x80; report_with 1 0x80; idle_report]
         Controller.MatrixButtonState_init)
    = [Controller.onMatrixButtonPress 0 0; Controller.onMatrixButtonRelease 0 0].
Proof. vm_compute. repeat split; reflexivity. Qed.

(* ===================================================================== *)
(** * Further properties of the modelled code *)
(* ===================================================================== *)

(** ** Analog samples *)

Lemma clamp_masked_sample (lsb msb : Z) :
  0 <= lsb <= 255 -> 0 <= msb <= 255 ->
  Fader.clampRawValue
    (Z.land (to_uint16 (Z.lor lsb (Z.shiftl msb 8))) Fader.FADER_12BIT_MASK)
  = sample_of_bytes lsb msb.
Proof.
  intros Hl Hm. apply Z.eqb_eq.
  pose (P := fun l => all_below 256 (fun m =>
               Fader.clampRawValue
                 (Z.land (to_uint16 (Z.lor l (Z.shiftl m 8))) Fader.FADER_12BIT_MASK)
               =? sample_of_bytes l m)).
  assert (HP : P lsb = true).
  { apply (all_below_spec 256 P); [vm_compute; reflexivity | lia]. }
  exact (all_below_spec 256 _ HP msb ltac:(lia)).
Qed.

(** X1.  The fader sample is the little-endian 12-bit field of its two
    bytes: low byte plus 256 times the low nibble of the high byte; the
    high nibble of the high byte is ignored, and the final clamp never
    changes the masked value. *)
Theorem extractRawFaderValue_bytes (buffer : list Z) (fader : Z) :
  0 <= byte_at buffer (14 + 2 * fader) <= 255 ->
  0 <= byte_at buffer (15 + 2 * fader) <= 255 ->
  Fader.extractRawFaderValue buffer fader =
    sample_of_bytes (byte_at buffer (14 + 2 * fader)) (byte_at buffer (15 + 2 * fader)) /\
  0 <= Fader.extractRawFaderValue buffer fader <= 4095.
Proof.
  intros Hl Hm. unfold Fader.extractRawFaderValue.
  unfold Fader.FADER_BYTE_START, Fader.FADER_BYTES_PER_FADER.
  replace (14 + fader * 2 + 1) with (15 + 2 * fader) by lia.
  replace (14 + fader * 2) with (14 + 2 * fader) by lia.
  rewrite clamp_masked_sample by assumption.
  split; [reflexivity|].
  unfold sample_of_bytes.
  pose proof (Z.mod_pos_bound (byte_at buffer (15 + 2 * fader)) 16 ltac:(lia)). lia.
Qed.

Lemma extractRawFaderValue_bytes_witness :
  Fader.extractRawFaderValue (report_with 15 0xA3) 0 = sample_of_bytes 0 0xA3.
Proof.
  apply (extractRawFaderValue_bytes (report_with 15 0xA3) 0); vm_compute; split; discriminate.
Defined.

(** X2.  The same for knobs, at bytes 6 to 13. *)
Theorem extractRawKnobValue_bytes (buffer : list Z) (knob : Z) :
  0 <= byte_at buffer (6 + 2 * knob) <= 255 ->
  0 <= byte_at buffer (7 + 2 * knob) <= 255 ->
  Knob.extractRawKnobValue buffer knob =
    sample_of_bytes (byte_at buffer (6 + 2 * knob)) (byte_at buffer (7 + 2 * knob)) /\
  0 <= Knob.extractRawKnobValue buffer knob <= 4095.
Proof.
  intros Hl Hm. unfold Knob.extractRawKnobValue.
  unfold Knob.KNOB_BYTE_START, Knob.KNOB_BYTES_PER_KNOB.
  replace (6 + knob * 2 + 1) with (7 + 2 * knob) by lia.
  replace (6 + knob * 2) with (6 + 2 * knob) by lia.
  change (Knob.clampRawValue ?x) with (Fader.clampRawValue x).
  change Knob.KNOB_12BIT_MASK with Fader.FADER_12BIT_MASK.
  rewrite clamp_masked_sample by assumption.
  split; [reflexivity|].
  unfold sample_of_bytes.
  pose proof (Z.mod_pos_bound (byte_at buffer (7 + 2 * knob)) 16 ltac:(lia)). lia.
Qed.

Lemma extractRawKnobValue_bytes_witness :
  Knob.extractRawKnobValue (report_with 7 0x1F) 0 = sample_of_bytes 0 0x1F.
Proof.
  apply (extractRawKnobValue_bytes (report_with 7 0x1F) 0); vm_compute; split; discriminate.
Defined.

Lemma fader_clampRawValue_range (raw : Z) : 0 <= Fader.clampRawValue raw <= 4095.
Proof.
  unfold Fader.clampRawValue, Fader.FADER_RAW_MIN, Fader.FADER_RAW_MAX.
  destruct (Z.ltb_spec raw 0); [lia|].
  destruct (Z.gtb_spec raw 4095); lia.
Qed.

Lemma fader_value_eq (buffer : list Z) (k : Z) :
  fader_value buffer k = Fader.extractRawFaderValue buffer k * 127 / 4095 /\
  0 <= fader_value buffer k <= 127.
Proof.
  assert (Hr : 0 <= Fader.extractRawFaderValue buffer k <= 4095)
    by apply fader_clampRawValue_range.
  assert (Hb : 0 <= Fader.extractRawFaderValue buffer k * 127 / 4095 <= 127)
    by (apply scaled_quotient_bounds; exact Hr).
  assert (Hf : forall a, 0 <= a <= 127 -> F32.to_int (F32.of_Z a) = a).
  { intros a Ha. apply Z.eqb_eq.
    apply (all_below_spec 128 (fun a => F32.to_int (F32.of_Z a) =? a));
      [vm_compute; reflexivity | lia]. }
  unfold fader_value, Fader.getFaderValue, Fader.rawToNormalized.
  rewrite fader_normalized_value_exact by exact Hr.
  rewrite Hf by exact Hb. split; [reflexivity | exact Hb].
Qed.

Lemma knob_value_eq (buffer : list Z) (k : Z) :
  knob_value buffer k = Knob.extractRawKnobValue buffer k * 127 / 4095 /\
  0 <= knob_value buffer k <= 127.
Proof.
  assert (Hr : 0 <= Knob.extractRawKnobValue buffer k <= 4095)
    by apply fader_clampRawValue_range.
  assert (Hb : 0 <= Knob.extractRawKnobValue buffer k * 127 / 4095 <= 127)
    by (apply scaled_quotient_bounds; exact Hr).
  assert (Hf : forall a, 0 <= a <= 127 -> F32.to_int (F32.of_Z a) = a).
  { intros a Ha. apply Z.eqb_eq.
    apply (all_below_spec 128 (fun a => F32.to_int (F32.of_Z a) =? a));
      [vm_compute; reflexivity | lia]. }
  unfold knob_value, Knob.getKnobValue, Knob.rawToNormalized.
  rewrite knob_normalized_value_exact by exact Hr.
  rewrite Hf by exact Hb. split; [reflexivity | exact Hb].
Qed.

(** X3.  Whatever the report holds, and for every fader or knob index, the
    value the change detection compares is an integer between 0 and 127:
    the integer part of sample * 127 / 4095.  The value returned as
    [float] is that integer, exactly. *)
Theorem analog_value_range (buffer : list Z) (k : Z) :
  fader_value buffer k = Fader.extractRawFaderValue buffer k * 127 / 4095 /\
  0 <= fader_value buffer k <= 127 /\
  Fader.getFaderValue buffer k = F32.of_Z (fader_value buffer k) /\
  knob_value buffer k = Knob.extractRawKnobValue buffer k * 127 / 4095 /\
  0 <= knob_value buffer k <= 127 /\
  Knob.getKnobValue buffer k = F32.of_Z (knob_value buffer k).
Proof.
  destruct (fader_value_eq buffer k) as [Ef Rf].
  destruct (knob_value_eq buffer k) as [Ek Rk].
  split; [exact Ef|]. split; [exact Rf|]. split.
  - unfold Fader.getFaderValue, Fader.rawToNormalized.
    rewrite Ef. rewrite fader_normalized_value_exact by apply fader_clampRawValue_range.
    reflexivity.
  - split; [exact Ek|]. split; [exact Rk|].
    unfold Knob.getKnobValue, Knob.rawToNormalized.
    rewrite Ek. rewrite knob_normalized_value_exact by apply fader_clampRawValue_range.
    reflexivity.
Qed.

(** ** Reading a report: when it succeeds *)

(** X4.  [readInputReport] returns true exactly when both pointers are
    non-null, [hid_read] reports at least one byte and the first byte of
    the buffer is the report identifier.  The number of bytes read is not
    compared with the report size: a short read is accepted.  On success
    nothing is logged and the caller's buffer is what [hid_read] left
    in it. *)
Theorem readInputReport_ok_iff (device : option hid_device) (buffer : option (list Z)) :
  InputReader.read_ok (InputReader.readInputReport device buffer) = true <->
  exists dev buf,
    device = Some dev /\ buffer = Some buf /\
    0 < fst (hid_read dev buf) /\
    byte_at (snd (hid_read dev buf)) 0 = InputReader.INPUT_REPORT_ID /\
    InputReader.read_buffer (InputReader.readInputReport device buffer)
      = Some (snd (hid_read dev buf)) /\
    InputReader.read_log (InputReader.readInputReport device buffer) = [].
Proof.
  unfold InputReader.readInputReport. split.
  - destruct device as [dev|]; [|discriminate].
    destruct buffer as [buf|]; [|discriminate].
    destruct (hid_read dev buf) as [n b] eqn:E.
    destruct (Z.leb_spec n 0); [discriminate|].
    destruct (Z.eqb_spec (byte_at b 0) InputReader.INPUT_REPORT_ID); [|discriminate].
    intros _. exists dev, buf. rewrite E. simpl. repeat split; try assumption.
  - intros (dev & buf & -> & -> & Hn & Hid & _).
    destruct (hid_read dev buf) as [n b]. simpl in Hn, Hid.
    destruct (Z.leb_spec n 0); [lia|].
    rewrite Hid, Z.eqb_refl. reflexivity.
Qed.

Lemma readInputReport_ok_iff_witness :
  InputReader.read_ok
    (InputReader.readInputReport
       (Some {| hid_read := fun _ => (1, [0x01]); hid_write := fun _ => 81 |})
       (Some (replicate 22 0))) = true.
Proof.
  apply (readInputReport_ok_iff
           (Some {| hid_read := fun _ => (1, [0x01]); hid_write := fun _ => 81 |})
           (Some (replicate 22 0))).
  eexists _, _. repeat split; simpl; lia.
Defined.

(** ** Buttons over frame sequences *)

Lemma button_frames_special_edges_witness :
  button_events (4 + 6)
    (snd (Controller.button_frames
            [report_with 4 0x08; report_with 4 0x08; idle_report; report_with 4 0x08]
            Controller.specialPressed_init)) =
  edges (elem_at false Controller.specialPressed_init 6)
        (map (fun buf => InputReader.isSpecialButtonPressed buf 6)
             [report_with 4 0x08; report_with 4 0x08; idle_report; report_with 4 0x08]).
Proof.
  apply (button_frames_special_edges
           [report_with 4 0x08; report_with 4 0x08; idle_report; report_with 4 0x08] 6);
    [lia | reflexivity].
Defined.

Lemma matrix_frames_edges_witness :
  matrix_events 2 1
    (snd (Controller.matrix_frames
            [report_with 2 0x40; idle_report; report_with 2 0x40]
            Controller.MatrixButtonState_init)) =
  edges (Controller.get2 (Controller.previous_state Controller.MatrixButtonState_init) 2 1)
        (map (fun buf => InputReader.isMatrixButtonPressed buf 2 1)
             [report_with 2 0x40; idle_report; report_with 2 0x40]).
Proof.
  apply (matrix_frames_edges [report_with 2 0x40; idle_report; report_with 2 0x40] 2 1);
    [lia | lia | split; [reflexivity | repeat constructor]
     | split; [reflexivity | repeat constructor]].
Defined.

Lemma button_events_special_loop (buf : list Z) (sp : list bool) (k : Z) :
  length sp = 9%nat -> k < 4 ->
  button_events k
    (snd (fold_left (Controller.special_iteration buf) (range 9) (sp, []))) = [].
Proof.
  intros Hlen Hk.
  rewrite special_fold_spec.
  2:{ change (range 9) with [0; 1; 2; 3; 4; 5; 6; 7; 8].
      repeat (apply NoDup_cons; split; [rewrite ?elem_of_cons, elem_of_nil; lia|]).
      apply NoDup_nil; exact I. }
  2:{ intros j Hj. change (range 9) with [0; 1; 2; 3; 4; 5; 6; 7; 8] in Hj.
      rewrite !elem_of_cons, elem_of_nil in Hj. lia. }
  cbn [snd]. change (range 9) with [0; 1; 2; 3; 4; 5; 6; 7; 8].
  cbn [flat_map app].
  rewrite !button_events_app, !button_events_edge.
  repeat match goal with
         | |- context [?a =? k] => destruct (Z.eqb_spec a k); [lia|]
         end.
  reflexivity.
Qed.

Lemma updateButtons_stop (buf : list Z) (sp : list bool) (i : Z) :
  length sp = 9%nat -> 0 <= i <= 3 ->
  length (fst (Controller.updateButtons buf sp)) = 9%nat /\
  button_events i (snd (Controller.updateButtons buf sp)) =
    if InputReader.isStopButtonPressed buf i then [true] else [].
Proof.
  intros Hlen Hi.
  pose proof (updateButtons_special buf sp 0 Hlen ltac:(lia)) as (L & _ & _).
  split; [exact L|].
  pose proof (button_events_special_loop buf sp i Hlen ltac:(lia)) as Hsp.
  unfold Controller.updateButtons.
  destruct (fold_left (Controller.special_iteration buf) (range 9) (sp, []))
    as [sp' out]. cbn [snd] in Hsp |- *.
  change (range 4) with [0; 1; 2; 3]. cbn [fold_left].
  unfold Controller.stop_iteration.
  assert (Hp : forall j, button_events i [Controller.onButtonPress j] =
                         if j =? i then [true] else []).
  { intros j. unfold button_events. simpl. destruct (j =? i); reflexivity. }
  assert (Hcases : i = 0 \/ i = 1 \/ i = 2 \/ i = 3) by lia.
  destruct Hcases as [-> | [-> | [-> | ->]]];
    destruct (InputReader.isStopButtonPressed buf 0);
    destruct (InputReader.isStopButtonPressed buf 1);
    destruct (InputReader.isStopButtonPressed buf 2);
    destruct (InputReader.isStopButtonPressed buf 3);
    rewrite ?button_events_app, ?Hp, Hsp; reflexivity.
Qed.

(** X8.  Stop buttons are reported by level: over any sequence of frames,
    [updateButtons] calls [onButtonPress(i)] once in every frame in which
    stop button [i] is down, and never calls [onButtonRelease(i)]. *)
Theorem button_frames_stop_level (frames : list (list Z)) (i : Z) :
  0 <= i <= 3 ->
  forall sp : list bool,
    length sp = 9%nat ->
    button_events i (snd (Controller.button_frames frames sp)) =
    map (fun _ => true)
        (filter (fun buf => InputReader.isStopButtonPressed buf i = true) frames).
Proof.
  intros Hi. induction frames as [|buf frames IH]; intros sp Hlen.
  - reflexivity.
  - cbn [Controller.button_frames].
    destruct (updateButtons_stop buf sp i Hlen Hi) as (L1 & E1).
    destruct (Controller.updateButtons buf sp) as [s1 o1]. cbn [fst snd] in *.
    specialize (IH s1 L1).
    destruct (Controller.button_frames frames s1) as [s2 o2]. cbn [fst snd] in *.
    rewrite button_events_app, E1, IH.
    rewrite filter_cons.
    destruct (InputReader.isStopButtonPressed buf i); reflexivity.
Qed.

Lemma button_frames_stop_level_witness :
  button_events 1
    (snd (Controller.button_frames
            [report_with 4 0x40; report_with 4 0x40; idle_report]
            Controller.specialPressed_init)) =
  map (fun _ => true)
      (filter (fun buf => InputReader.isStopButtonPressed buf 1 = true)
              [report_with 4 0x40; report_with 4 0x40; idle_report]).
Proof.
  apply (button_frames_stop_level
           [report_with 4 0x40; report_with 4 0x40; idle_report] 1);
    [lia | reflexivity].
Defined.

(** ** Knobs *)

Lemma knob_iteration_spec (buf : list Z) (st : Controller.AnalogControlState)
    (out : list Controller.event) (j : Z) :
  Controller.knob_iteration buf (st, out) j =
  ({| Controller.previous_knob_values :=
        <[Z.to_nat j := knob_value buf j]> (Controller.previous_knob_values st);
      Controller.previous_fader_values := Controller.previous_fader_values st;
      Controller.is_fader_value_dirty := Controller.is_fader_value_dirty st;
      Controller.last_slider_change := Controller.last_slider_change st |},
   out ++ (if knob_value buf j =? elem_at 0 (Controller.previous_knob_values st) j
           then [] else [Controller.onKnobChanged j (knob_value buf j * 2)])).
Proof.
  unfold Controller.knob_iteration. fold (knob_value buf j).
  destruct (knob_value buf j =? elem_at 0 (Controller.previous_knob_values st) j);
    cbn [negb]; rewrite ?app_nil_r; reflexivity.
Qed.

Lemma knob_values_app (k : Z) (o1 o2 : list Controller.event) :
  knob_values k (o1 ++ o2) = knob_values k o1 ++ knob_values k o2.
Proof. apply omap_app. Qed.

Lemma knob_values_step (k j v p : Z) :
  knob_values k (if v =? p then [] else [Controller.onKnobChanged j (v * 2)]) =
  if j =? k then (if v =? p then [] else [v * 2]) else [].
Proof.
  unfold knob_values. destruct (v =? p); simpl; destruct (j =? k); reflexivity.
Qed.

(** One frame of [updateKnobStates]. *)
Lemma updateKnobStates_frame (buf : list Z) (st : Controller.AnalogControlState) (k : Z) :
  length (Controller.previous_knob_values st) = 4%nat -> 0 <= k <= 3 ->
  let r := Controller.updateKnobStates buf st in
  Controller.previous_knob_values (fst r) = map (knob_value buf) (range 4) /\
  Controller.previous_fader_values (fst r) = Controller.previous_fader_values st /\
  Controller.is_fader_value_dirty (fst r) = Controller.is_fader_value_dirty st /\
  Controller.last_slider_change (fst r) = Controller.last_slider_change st /\
  snd r =
    flat_map (fun j => if knob_value buf j =? elem_at 0 (Controller.previous_knob_values st) j
                       then [] else [Controller.onKnobChanged j (knob_value buf j * 2)])
             (range 4) /\
  knob_values k (snd r) =
    if knob_value buf k =? elem_at 0 (Controller.previous_knob_values st) k
    then [] else [knob_value buf k * 2].
Proof.
  intros Hlen Hk. destruct st as [pk pf d l].
  cbn [Controller.previous_knob_values] in Hlen.
  do 5 (destruct pk as [|? pk]; try discriminate Hlen). clear Hlen.
  unfold Controller.updateKnobStates.
  change (range 4) with [0; 1; 2; 3]. cbn [fold_left].
  repeat (rewrite knob_iteration_spec;
          cbn [Controller.previous_knob_values Controller.previous_fader_values
               Controller.is_fader_value_dirty Controller.last_slider_change]).
  set (kv := knob_value buf). clearbody kv.
  cbv zeta. cbn [fst snd flat_map app].
  repeat split.
  - rewrite !app_nil_r, <- !app_assoc. reflexivity.
  - rewrite !knob_values_app, !knob_values_step.
    assert (Hcases : k = 0 \/ k = 1 \/ k = 2 \/ k = 3) by lia.
    destruct Hcases as [-> | [-> | [-> | ->]]];
      cbn [Z.eqb Pos.eqb app]; rewrite ?app_nil_r; reflexivity.
Qed.

(** X9.  Knobs have no coalescing: over any sequence of frames, the
    events of knob [k] are, in order, twice each truncated value that
    differs from the value of the frame before it (from the stored value,
    for the first frame). *)
Theorem knob_frames_changes (frames : list (list Z)) (k : Z) :
  0 <= k <= 3 ->
  forall st : Controller.AnalogControlState,
    length (Controller.previous_knob_values st) = 4%nat ->
    knob_values k (snd (Controller.knob_frames frames st)) =
    map (fun v => v * 2)
        (changes (elem_at 0 (Controller.previous_knob_values st) k)
                 (map (fun buf => knob_value buf k) frames)).
Proof.
  intros Hk. induction frames as [|buf frames IH]; intros st Hlen.
  - reflexivity.
  - cbn [Controller.knob_frames map changes].
    destruct (updateKnobStates_frame buf st k Hlen Hk) as (P1 & _ & _ & _ & _ & E1).
    destruct (Controller.updateKnobStates buf st) as [s1 o1]. cbn [fst snd] in *.
    assert (L1 : length (Controller.previous_knob_values s1) = 4%nat)
      by (rewrite P1; reflexivity).
    specialize (IH s1 L1).
    destruct (Controller.knob_frames frames s1) as [s2 o2]. cbn [fst snd] in *.
    rewrite knob_values_app, E1, IH, map_app. f_equal.
    + destruct (knob_value buf k =? elem_at 0 (Controller.previous_knob_values st) k);
        reflexivity.
    + rewrite P1.
      assert (Hcases : k = 0 \/ k = 1 \/ k = 2 \/ k = 3) by lia.
      destruct Hcases as [-> | [-> | [-> | ->]]]; reflexivity.
Qed.

Lemma knob_frames_changes_witness :
  knob_values 0
    (snd (Controller.knob_frames [report_with 7 1; report_with 7 1; report_with 7 2]
            analog_at_rest)) =
  map (fun v => v * 2)
      (changes (elem_at 0 (Controller.previous_knob_values analog_at_rest) 0)
               (map (fun buf => knob_value buf 0)
                    [report_with 7 1; report_with 7 1; report_with 7 2])).
Proof.
  apply (knob_frames_changes [report_with 7 1; report_with 7 1; report_with 7 2] 0);
    [lia | reflexivity].
Defined.

(** X10.  The first frame after construction reports every knob: the
    constructor stores -1, which no value equals, so [updateKnobStates]
    emits exactly four events, for knobs 0 to 3 in order, each carrying
    twice the knob's value, and it leaves the fader state alone. *)
Theorem updateKnobStates_first_frame (buf : list Z) (dirty : list bool) (last : list Z) :
  let r := Controller.updateKnobStates buf (Controller.AnalogControlState_init dirty last) in
  snd r = map (fun j => Controller.onKnobChanged j (knob_value buf j * 2)) (range 4) /\
  Controller.previous_knob_values (fst r) = map (knob_value buf) (range 4) /\
  Controller.previous_fader_values (fst r) = replicate 4 (-1) /\
  Controller.is_fader_value_dirty (fst r) = dirty /\
  Controller.last_slider_change (fst r) = last.
Proof.
  destruct (updateKnobStates_frame buf (Controller.AnalogControlState_init dirty last) 0
              eq_refl ltac:(lia)) as (P & F & D & L & E & _).
  cbv zeta. rewrite P, F, D, L, E. repeat split.
  change (range 4) with [0; 1; 2; 3]. cbn [flat_map map app].
  cbn [Controller.AnalogControlState_init Controller.previous_knob_values].
  change (elem_at 0 (replicate 4 (-1)) 0) with (-1).
  change (elem_at 0 (replicate 4 (-1)) 1) with (-1).
  change (elem_at 0 (replicate 4 (-1)) 2) with (-1).
  change (elem_at 0 (replicate 4 (-1)) 3) with (-1).
  repeat match goal with
         | |- context [knob_value buf ?j =? -1] =>
             let H := fresh in
             pose proof (knob_value_eq buf j) as [_ H];
             destruct (Z.eqb_spec (knob_value buf j) (-1)); [lia|]; clear H
         end.
  reflexivity.
Qed.

(** ** Faders: rest, value range, rate *)

(** X11.  A fader at rest stays silent: while it is not dirty and every
    frame carries the stored value, [updateFaderStates] emits nothing for
    it and leaves its previous value, flag and recorded time as they
    are, whatever the clock does. *)
Theorem fader_frames_at_rest (tpm k p t : Z) (frames : list (list Z * (Z -> Z))) :
  0 <= k <= 3 ->
  Forall (fun fr => fader_value (fst fr) k = p) frames ->
  forall st : Controller.AnalogControlState,
    analog_wf st -> channel st k = (p, false, t) ->
    slider_values k (snd (Controller.fader_frames tpm frames st)) = [] /\
    channel (fst (Controller.fader_frames tpm frames st)) k = (p, false, t).
Proof.
  intros Hk Hall. induction Hall as [|[buf clock] frames Hv Hall IH]; intros st Hwf Hch.
  - split; [reflexivity | exact Hch].
  - cbn [Controller.fader_frames]. cbn [fst] in Hv.
    destruct (updateFaderStates_channel tpm buf clock st k Hwf Hk) as (W1 & C1 & E1).
    destruct (Controller.updateFaderStates tpm buf clock st) as [s1 o1].
    cbn [fst snd] in W1, C1, E1.
    rewrite Hch, Hv in C1, E1. unfold channel_step in C1, E1.
    rewrite Z.eqb_refl in C1, E1. cbn [negb andb fst snd] in C1, E1.
    destruct (IH s1 W1 C1) as (E2 & C2).
    destruct (Controller.fader_frames tpm frames s1) as [s2 o2]. cbn [fst snd] in *.
    rewrite slider_values_app, E1, E2. split; [reflexivity | exact C2].
Qed.

Lemma fader_frames_at_rest_witness :
  slider_values 0
    (snd (Controller.fader_frames 1
            [(idle_report, fun _ : Z => 0); (idle_report, fun _ : Z => 1000)]
            analog_at_rest)) = [].
Proof.
  apply (fader_frames_at_rest 1 0 0 0
           [(idle_report, fun _ : Z => 0); (idle_report, fun _ : Z => 1000)]).
  - lia.
  - repeat constructor.
  - repeat split; reflexivity.
  - reflexivity.
Defined.

Lemma channel_step_emits (tpm now v : Z) (ch : Z * bool * Z) :
  snd (channel_step tpm now v ch) = None \/
  snd (channel_step tpm now v ch) = Some (v * 2).
Proof.
  destruct ch as [[p d] t]. unfold channel_step. cbv zeta. cbn [snd].
  match goal with |- context [if ?b then Some _ else None] => destruct b end; auto.
Qed.

(** X12.  A frame emits at most one event per fader, and every value a
    fader ever sends is twice a truncated reading: an even number between
    0 and 254. *)
Theorem slider_values_range (tpm k : Z) (frames : list (list Z * (Z -> Z)))
    (st : Controller.AnalogControlState) :
  analog_wf st -> 0 <= k <= 3 ->
  (forall buf clock,
     (length (slider_values k (snd (Controller.updateFaderStates tpm buf clock st)))
      <= 1)%nat) /\
  Forall (fun v => 0 <= v <= 254 /\ Z.even v = true)
         (slider_values k (snd (Controller.fader_frames tpm frames st))).
Proof.
  intros Hwf Hk. split.
  - intros buf clock.
    destruct (updateFaderStates_channel tpm buf clock st k Hwf Hk) as (_ & _ & E).
    cbv zeta in E. rewrite E.
    destruct (snd (channel_step tpm (clock k) (fader_value buf k) (channel st k)));
      simpl; lia.
  - revert st Hwf. induction frames as [|[buf clock] frames IH]; intros st Hwf.
    + constructor.
    + cbn [Controller.fader_frames].
      destruct (updateFaderStates_channel tpm buf clock st k Hwf Hk) as (W1 & _ & E1).
      destruct (Controller.updateFaderStates tpm buf clock st) as [s1 o1].
      cbn [fst snd] in W1, E1.
      specialize (IH s1 W1).
      destruct (Controller.fader_frames tpm frames s1) as [s2 o2]. cbn [fst snd] in *.
      rewrite slider_values_app, E1. apply Forall_app. split; [|exact IH].
      destruct (channel_step_emits tpm (clock k) (fader_value buf k) (channel st k))
        as [-> | ->]; constructor; [|constructor].
      pose proof (fader_value_eq buf k) as [_ Hr].
      split; [lia|]. rewrite Z.even_mul. apply orb_true_r.
Qed.

Lemma slider_values_range_witness :
  Forall (fun v => 0 <= v <= 254 /\ Z.even v = true)
         (slider_values 0
            (snd (Controller.fader_frames 1
                    [(fader0_report 1, fun _ : Z => 0); (fader0_report 3, fun _ : Z => 60)]
                    analog_at_rest))).
Proof.
  apply (slider_values_range 1 0
           [(fader0_report 1, fun _ : Z => 0); (fader0_report 3, fun _ : Z => 60)]
           analog_at_rest).
  - repeat split; reflexivity.
  - lia.
Defined.

Lemma elapsed_ms_mono (tpm now t T : Z) :
  0 < tpm -> T <= t ->
  Controller.elapsed_ms tpm now t <= Controller.elapsed_ms tpm now T.
Proof.
  intros Htpm HT. unfold Controller.elapsed_ms.
  apply Z.quot_le_mono; lia.
Qed.

Lemma fader_event_times_spaced_from (tpm k : Z) :
  0 < tpm -> 0 <= k <= 3 ->
  forall (frames : list (list Z * (Z -> Z))) (st : Controller.AnalogControlState) (T : Z),
    analog_wf st ->
    T <= elem_at 0 (Controller.last_slider_change st) k ->
    Forall (fun fr => T <= snd fr k) frames ->
    StronglySorted Z.le (map (fun fr => snd fr k) frames) ->
    spaced tpm (T :: fader_event_times tpm k frames st).
Proof.
  intros Htpm Hk. induction frames as [|[buf clock] frames IH];
    intros st T Hwf HT Hge Hsorted.
  - exact I.
  - cbn [fader_event_times].
    apply Forall_cons in Hge as [Hnow Hge]. cbn [snd] in Hnow.
    cbn [map snd] in Hsorted. apply StronglySorted_inv in Hsorted as [Hsorted Hlater].
    destruct (updateFaderStates_channel tpm buf clock st k Hwf Hk) as (W1 & C1 & E1).
    cbv zeta in C1, E1.
    destruct (Controller.updateFaderStates tpm buf clock st) as [s1 o1].
    cbn [fst snd] in W1, C1, E1 |- *.
    rewrite E1. unfold channel in C1 at 2. unfold channel at 1.
    unfold channel_step in C1 |- *.
    set (p := elem_at 0 (Controller.previous_fader_values st) k) in *.
    set (d := elem_at false (Controller.is_fader_value_dirty st) k) in *.
    set (t := elem_at 0 (Controller.last_slider_change st) k) in *.
    set (v := fader_value buf k) in *.
    set (now := clock k) in *.
    assert (Hlast : elem_at 0 (Controller.last_slider_change s1) k = snd (channel s1 k))
      by reflexivity.
    cbv zeta in C1 |- *. cbn [snd].
    destruct (negb (v =? p) && negb d) eqn:Emark.
    + (* freshly marked: the elapsed time is zero, nothing is emitted *)
      rewrite elapsed_ms_same in C1 |- *. cbn [andb Z.gtb Z.compare] in C1 |- *.
      cbn [fst app].
      apply IH; try assumption.
      rewrite Hlast, C1. cbn [snd]. exact Hnow.
    + destruct (d && (Controller.elapsed_ms tpm now t >? 50)) eqn:Efire.
      * (* an event, more than 50 ms after [t], hence after [T] *)
        cbn [fst] in C1. cbn [app].
        apply andb_true_iff in Efire as [_ Hgt].
        apply Z.gtb_lt in Hgt.
        split.
        -- pose proof (elapsed_ms_mono tpm now t T Htpm HT). lia.
        -- apply IH; try assumption.
           ++ rewrite Hlast, C1. cbn [snd]. lia.
           ++ apply Forall_forall. intros fr Hin.
              rewrite Forall_forall in Hlater.
              apply (Hlater (snd fr k)).
              apply list_elem_of_In. apply (in_map (fun fr => snd fr k)).
              apply list_elem_of_In. exact Hin.
      * cbn [fst app] in C1 |- *.
        apply IH; try assumption.
        rewrite Hlast, C1. cbn [snd]. exact HT.
Qed.

(** X13.  Rate limit: with a clock that does not run backwards, the events
    of one fader are more than 50 whole milliseconds apart, whatever the
    fader does. *)
Theorem fader_event_times_spaced (tpm k : Z) (frames : list (list Z * (Z -> Z)))
    (st : Controller.AnalogControlState) :
  0 < tpm -> 0 <= k <= 3 -> analog_wf st ->
  StronglySorted Z.le (map (fun fr => snd fr k) frames) ->
  spaced tpm (fader_event_times tpm k frames st).
Proof.
  intros Htpm Hk Hwf Hsorted.
  destruct frames as [|[buf clock] frames]; [exact I|].
  pose (T := Z.min (elem_at 0 (Controller.last_slider_change st) k) (clock k)).
  assert (H : spaced tpm (T :: fader_event_times tpm k ((buf, clock) :: frames) st)).
  { apply fader_event_times_spaced_from; try assumption.
    - unfold T. lia.
    - pose proof Hsorted as Hs. cbn [map snd] in Hs.
      apply StronglySorted_inv in Hs as [_ Hlater].
      constructor; [cbn [snd]; unfold T; lia|].
      apply Forall_forall. intros fr Hin.
      rewrite Forall_forall in Hlater.
      assert (clock k <= snd fr k).
      { apply Hlater. apply list_elem_of_In. apply (in_map (fun fr => snd fr k)).
        apply list_elem_of_In. exact Hin. }
      unfold T. lia. }
  destruct (fader_event_times tpm k ((buf, clock) :: frames) st) as [|t0 ts];
    [exact I|].
  destruct H as [_ H]. exact H.
Qed.

Lemma fader_event_times_spaced_witness :
  spaced 1
    (fader_event_times 1 0
       [(fader0_report 1, fun _ : Z => 0); (fader0_report 2, fun _ : Z => 60);
        (fader0_report 3, fun _ : Z => 70); (fader0_report 4, fun _ : Z => 130)]
       analog_at_rest).
Proof.
  apply (fader_event_times_spaced 1 0
           [(fader0_report 1, fun _ : Z => 0); (fader0_report 2, fun _ : Z => 60);
            (fader0_report 3, fun _ : Z => 70); (fader0_report 4, fun _ : Z => 130)]
           analog_at_rest).
  - lia.
  - lia.
  - repeat split; reflexivity.
  - cbn [map snd]. repeat constructor; lia.
Defined.

(** ** LED setters: where they write and what they record *)

Lemma byte_at_insert_eq (buffer : list Z) (i v : Z) :
  0 <= i < Z.of_nat (length buffer) -> byte_at (<[Z.to_nat i := v]> buffer) i = v.
Proof.
  intros Hi. unfold byte_at. destruct (Z.ltb_spec i 0); [lia|].
  rewrite list_lookup_insert_eq by lia. reflexivity.
Qed.

(** X14.  [setButtonLED] writes the byte the header's offset constants
    assign to the button, for each of the eight buttons: with an 81-byte
    buffer and no recording, the call succeeds, that byte becomes the
    7-bit value of the clamped brightness, no other byte changes and no
    recorded state changes. *)
Theorem setButtonLED_header_byte (g : Led.globals) (button : Led.LEDButton)
    (brightness : spec_float) :
  length (Led.led_buffer g) = 81%nat ->
  exists r g',
    Led.setButtonLED g button brightness false = Some (r, g') /\
    byte_at (Led.led_buffer g') (header_button_byte button) =
      Led.convertTo7Bit 255 (Led.clamp_brightness brightness) /\
    (forall j : nat, Z.of_nat j <> header_button_byte button ->
                     Led.led_buffer g' !! j = Led.led_buffer g !! j) /\
    length (Led.led_buffer g') = 81%nat /\
    Led.special_states g' = Led.special_states g /\
    Led.control_states g' = Led.control_states g /\
    Led.stop_states g' = Led.stop_states g /\
    Led.matrix_states g' = Led.matrix_states g.
Proof.
  intros Hlen. unfold Led.setButtonLED. cbn [mbind option_bind].
  assert (Hpos : (if Led.LEDButton_to_int button <? 3
                  then Led.LED_BYTE_CONTROL_START + Led.LEDButton_to_int button
                  else Led.LED_BYTE_SPECIAL_START + (Led.LEDButton_to_int button - 3))
                 = header_button_byte button) by (destruct button; reflexivity).
  rewrite Hpos.
  assert (Hrange : 17 <= header_button_byte button <= 24)
    by (destruct button; vm_compute; split; discriminate).
  rewrite store_at_Some by lia. cbn [mbind option_bind].
  eexists _, _. split; [reflexivity|]. cbn [Led.led_buffer Led.special_states
    Led.control_states Led.stop_states Led.matrix_states].
  split; [apply byte_at_insert_eq; lia|].
  split; [intros j Hj; apply lookup_insert_Z_ne; lia|].
  split; [rewrite length_insert; exact Hlen|].
  repeat split.
Qed.

Lemma setButtonLED_header_byte_witness :
  exists r g',
    Led.setButtonLED (Led.initialized idle_device) Led.SHIFT F32.one false = Some (r, g') /\
    byte_at (Led.led_buffer g') (header_button_byte Led.SHIFT) =
      Led.convertTo7Bit 255 (Led.clamp_brightness F32.one).
Proof.
  destruct (setButtonLED_header_byte (Led.initialized idle_device) Led.SHIFT F32.one)
    as (r & g' & H1 & H2 & _); [reflexivity|].
  exists r, g'. split; assumption.
Defined.

(** X15.  Recording round trip for the buttons whose index fits the
    array (CAPTURE, QUANT, SYNC, BROWSE, SIZE): after [setButtonLED] with
    recording, [getButtonState] of that button gives the brightness
    clamped to [0,1], not the 7-bit value, and the recorded state of
    every other such button is unchanged. *)
Theorem setButtonLED_getButtonState (g : Led.globals) (button : Led.LEDButton)
    (brightness : spec_float) :
  length (Led.led_buffer g) = 81%nat -> length (Led.special_states g) = 5%nat ->
  Led.LEDButton_to_int button <= 4 ->
  exists r g',
    Led.setButtonLED g button brightness true = Some (r, g') /\
    Led.getButtonState g' button =
      Some {| Led.state_brightness := Led.clamp_brightness brightness |} /\
    (forall other, Led.LEDButton_to_int other <= 4 -> other <> button ->
                   Led.getButtonState g' other = Led.getButtonState g other).
Proof.
  intros Hlen Hsp Hidx. unfold Led.setButtonLED.
  assert (H0 : 0 <= Led.LEDButton_to_int button) by (destruct button; simpl; lia).
  rewrite (store_at_Some (Led.special_states g)) by lia. cbn [mbind option_bind].
  assert (Hrange : 17 <= (if Led.LEDButton_to_int button <? 3
                          then Led.LED_BYTE_CONTROL_START + Led.LEDButton_to_int button
                          else Led.LED_BYTE_SPECIAL_START + (Led.LEDButton_to_int button - 3))
                   <= 24) by (destruct button; vm_compute; split; discriminate).
  rewrite store_at_Some by lia. cbn [mbind option_bind].
  eexists _, _. split; [reflexivity|].
  unfold Led.getButtonState, load_at. cbn [Led.special_states].
  rewrite length_insert, Hsp.
  split.
  - destruct button; simpl in Hidx; try lia;
      cbn [Led.LEDButton_to_int Z.ltb Z.gtb Z.leb Z.compare Pos.compare Pos.compare_cont
           orb andb Z.of_nat Pos.of_succ_nat Pos.succ];
      apply list_lookup_insert_eq; rewrite Hsp; simpl; lia.
  - intros other Hother Hne.
    assert (Hdiff : Led.LEDButton_to_int other <> Led.LEDButton_to_int button)
      by (destruct other, button; simpl; congruence).
    assert (H0' : 0 <= Led.LEDButton_to_int other) by (destruct other; simpl; lia).
    destruct ((Led.LEDButton_to_int other <? 0) || (Led.LEDButton_to_int other >? 8));
      [reflexivity|].
    destruct ((0 <=? Led.LEDButton_to_int other)
              && (Led.LEDButton_to_int other <? Z.of_nat 5)); [|reflexivity].
    apply list_lookup_insert_ne. lia.
Qed.

Lemma setButtonLED_getButtonState_witness :
  exists r g',
    Led.setButtonLED (Led.initialized idle_device) Led.BROWSE F32.half true = Some (r, g') /\
    Led.getButtonState g' Led.BROWSE =
      Some {| Led.state_brightness := Led.clamp_brightness F32.half |}.
Proof.
  destruct (setButtonLED_getButtonState (Led.initialized idle_device) Led.BROWSE F32.half)
    as (r & g' & H1 & H2 & _); [reflexivity | reflexivity | simpl; lia |].
  exists r, g'. split; assumption.
Defined.

(** X16.  A stop button's two LEDs: for index 0 to 3, [setStopButtonLED]
    with recording writes the same 7-bit value into the bytes the header
    names for that button's right and left LED, and records the clamped
    brightness in [stop_states[index]], leaving the other three recorded
    states as they are. *)
Theorem setStopButtonLED_bytes_and_state (g : Led.globals) (index : Z)
    (brightness : spec_float) :
  length (Led.led_buffer g) = 81%nat -> length (Led.stop_states g) = 4%nat ->
  0 <= index <= 3 ->
  exists r g',
    Led.setStopButtonLED g index brightness true = Some (r, g') /\
    byte_at (Led.led_buffer g') (fst (header_stop_bytes index)) =
      Led.convertTo7Bit 255 (Led.clamp_brightness brightness) /\
    byte_at (Led.led_buffer g') (snd (header_stop_bytes index)) =
      Led.convertTo7Bit 255 (Led.clamp_brightness brightness) /\
    Led.stop_states g' !! Z.to_nat index =
      Some {| Led.state_brightness := Led.clamp_brightness brightness |} /\
    (forall j : nat, j <> Z.to_nat index ->
                     Led.stop_states g' !! j = Led.stop_states g !! j).
Proof.
  intros Hlen Hstop Hi. unfold Led.setStopButtonLED.
  rewrite (store_at_Some (Led.stop_states g)) by lia. cbn [mbind option_bind].
  unfold Led.LED_BYTE_STOP_START.
  rewrite store_at_Some by lia. cbn [mbind option_bind].
  rewrite store_at_Some by (rewrite length_insert; lia). cbn [mbind option_bind].
  eexists _, _. split; [reflexivity|]. cbn [Led.led_buffer Led.stop_states].
  assert (Hb : header_stop_bytes index = (73 + (7 - index * 2) - 1, 73 + (7 - index * 2))).
  { assert (Hc : index = 0 \/ index = 1 \/ index = 2 \/ index = 3) by lia.
    destruct Hc as [-> | [-> | [-> | ->]]]; reflexivity. }
  rewrite Hb. cbn [fst snd].
  split; [|split; [|split]].
  - unfold byte_at. destruct (Z.ltb_spec (73 + (7 - index * 2) - 1) 0); [lia|].
    rewrite list_lookup_insert_ne by lia.
    rewrite list_lookup_insert_eq by lia. reflexivity.
  - apply byte_at_insert_eq. rewrite length_insert. lia.
  - apply list_lookup_insert_eq. lia.
  - intros j Hj. apply list_lookup_insert_ne. lia.
Qed.

Lemma setStopButtonLED_bytes_and_state_witness :
  exists r g',
    Led.setStopButtonLED (Led.initialized idle_device) 3 F32.one true = Some (r, g') /\
    byte_at (Led.led_buffer g') (fst (header_stop_bytes 3)) =
      Led.convertTo7Bit 255 (Led.clamp_brightness F32.one).
Proof.
  destruct (setStopButtonLED_bytes_and_state (Led.initialized idle_device) 3 F32.one)
    as (r & g' & H1 & H2 & _); [reflexivity | reflexivity | lia |].
  exists r, g'. split; assumption.
Defined.

(** ** Brightness conversion *)

Lemma ltb_one_not_negative (b : spec_float) :
  F32.ltb F32.one b = true -> F32.ltb b F32.zero = false.
Proof.
  destruct b as [s|s| |s m e]; try (destruct s); try reflexivity; try discriminate.
Qed.

(** X17.  [convertTo7Bit] on a channel value in [0,255]: a brightness below
    zero gives 0, a brightness above one gives what brightness 1.0 gives;
    brightness 0.0 gives 0; brightness 1.0 gives the channel scaled by
    127/255 and rounded to nearest, which lies between 0 and 127, is 0
    for 0 and 127 for 255, and grows with the channel value. *)
Theorem convertTo7Bit_clamps (value_8bit other : Z) (brightness : spec_float) :
  0 <= value_8bit <= 255 -> value_8bit <= other <= 255 ->
  (F32.ltb brightness F32.zero = true -> Led.convertTo7Bit value_8bit brightness = 0) /\
  (F32.ltb F32.one brightness = true ->
     Led.convertTo7Bit value_8bit brightness = Led.convertTo7Bit value_8bit F32.one) /\
  Led.convertTo7Bit value_8bit F32.zero = 0 /\
  Led.convertTo7Bit value_8bit F32.one = Led.quantize7 value_8bit /\
  0 <= Led.convertTo7Bit value_8bit F32.one <= 127 /\
  Led.convertTo7Bit value_8bit F32.one <= Led.convertTo7Bit other F32.one /\
  Led.convertTo7Bit 0 F32.one = 0 /\ Led.convertTo7Bit 255 F32.one = 127.
Proof.
  intros Hv Ho.
  assert (Hzero : Led.convertTo7Bit value_8bit F32.zero = 0).
  { apply Z.eqb_eq.
    apply (all_below_spec 256 (fun x => Led.convertTo7Bit x F32.zero =? 0));
      [vm_compute; reflexivity | lia]. }
  assert (Hq : forall x, 0 <= x <= 255 -> 0 <= Led.quantize7 x <= 127).
  { intros x Hx. unfold Led.quantize7. split.
    - apply Z.div_pos; lia.
    - assert ((2 * 127 * x + 255) / (2 * 255) < 128)
        by (apply Z.div_lt_upper_bound; lia).
      lia. }
  split; [|split; [|split; [|split; [|split; [|split; [|split]]]]]].
  - intros Hneg. rewrite <- Hzero. unfold Led.convertTo7Bit. rewrite Hneg. reflexivity.
  - intros Hbig. unfold Led.convertTo7Bit.
    rewrite (ltb_one_not_negative _ Hbig), Hbig. reflexivity.
  - exact Hzero.
  - apply convertTo7Bit_full_brightness; exact Hv.
  - rewrite convertTo7Bit_full_brightness by exact Hv. apply Hq; exact Hv.
  - rewrite !convertTo7Bit_full_brightness by lia.
    unfold Led.quantize7. apply Z.div_le_mono; lia.
  - reflexivity.
  - reflexivity.
Qed.

Lemma convertTo7Bit_clamps_witness :
  Led.convertTo7Bit 200 F32.one = Led.quantize7 200 /\
  Led.convertTo7Bit 200 F32.one <= Led.convertTo7Bit 255 F32.one.
Proof.
  destruct (convertTo7Bit_clamps 200 255 F32.one) as (_ & _ & _ & H1 & _ & H2 & _);
    [lia | lia |].
  split; assumption.
Defined.

(** ** Matrix setter: composition *)

Lemma setMatrixButtonLED_buffer (g : Led.globals) (row col : Z) (c : LEDColor.t)
    (brightness : spec_float) (store_led_state : bool) :
  length (Led.led_buffer g) = 81%nat -> 0 <= row <= 3 -> 0 <= col <= 3 ->
  exists r g',
    Led.setMatrixButtonLED g row col c brightness store_led_state = Some (r, g') /\
    Led.led_buffer g' =
      <[Z.to_nat (25 + 3 * (4 * row + col) + 2) :=
          Led.green (Led.getColorWithBrightness c brightness)]>
        (<[Z.to_nat (25 + 3 * (4 * row + col) + 1) :=
             Led.red (Led.getColorWithBrightness c brightness)]>
           (<[Z.to_nat (25 + 3 * (4 * row + col)) :=
                Led.blue (Led.getColorWithBrightness c brightness)]> (Led.led_buffer g))) /\
    Led.current_device g' = Led.current_device g /\
    r = match Led.current_device g with
        | Some dev => hid_write dev (Led.led_buffer g') =? 81
        | None => false
        end.
Proof.
  intros Hlen Hr Hc. unfold Led.setMatrixButtonLED, Led.setMatrixButtonLED_BRG.
  unfold Led.LED_BYTE_MATRIX_START, Led.MATRIX_COLS, Led.MATRIX_LEDS_PER_BUTTON.
  replace (25 + (row * 4 + col) * 3) with (25 + 3 * (4 * row + col)) by lia.
  rewrite store_at_Some by lia. cbn [mbind option_bind].
  rewrite store_at_Some by (rewrite length_insert; lia). cbn [mbind option_bind].
  rewrite store_at_Some by (rewrite !length_insert; lia). cbn [mbind option_bind].
  eexists _, _. split; [reflexivity|].
  cbn [Led.with_buffer Led.led_buffer Led.current_device].
  split; [reflexivity|]. split; [reflexivity|].
  unfold Led.send_if_connected. cbn [Led.with_buffer Led.led_buffer Led.current_device].
  destruct (Led.current_device g) as [dev|]; [|reflexivity].
  unfold Led.sendLEDReport, Led.LED_REPORT_SIZE.
  destruct (Z.ltb_spec (hid_write dev
    (<[Z.to_nat (25 + 3 * (4 * row + col) + 2):=Led.green (Led.getColorWithBrightness c brightness)]>
       (<[Z.to_nat (25 + 3 * (4 * row + col) + 1):=Led.red (Led.getColorWithBrightness c brightness)]>
          (<[Z.to_nat (25 + 3 * (4 * row + col)):=Led.blue (Led.getColorWithBrightness c brightness)]>
             (Led.led_buffer g))))) 0) as [Hneg|Hpos].
  - symmetry. apply Z.eqb_neq. lia.
  - destruct (Z.eqb_spec (hid_write dev
    (<[Z.to_nat (25 + 3 * (4 * row + col) + 2):=Led.green (Led.getColorWithBrightness c brightness)]>
       (<[Z.to_nat (25 + 3 * (4 * row + col) + 1):=Led.red (Led.getColorWithBrightness c brightness)]>
          (<[Z.to_nat (25 + 3 * (4 * row + col)):=Led.blue (Led.getColorWithBrightness c brightness)]>
             (Led.led_buffer g))))) 81); reflexivity.
Qed.

(** X18.  The return value of the matrix setter is the outcome of the
    transmission, not of the update: with an 81-byte buffer and a cell in
    range the buffer is always updated; the call returns true exactly when
    a device is attached and [hid_write], given the updated buffer,
    reports 81 bytes sent, and false (buffer updated all the same) when
    no device is attached. *)
Theorem setMatrixButtonLED_result (g : Led.globals) (row col : Z) (c : LEDColor.t)
    (brightness : spec_float) (store_led_state : bool) :
  length (Led.led_buffer g) = 81%nat -> 0 <= row <= 3 -> 0 <= col <= 3 ->
  exists r g',
    Led.setMatrixButtonLED g row col c brightness store_led_state = Some (r, g') /\
    byte_at (Led.led_buffer g') (25 + 3 * (4 * row + col)) =
      Led.blue (Led.getColorWithBrightness c brightness) /\
    byte_at (Led.led_buffer g') (25 + 3 * (4 * row + col) + 1) =
      Led.red (Led.getColorWithBrightness c brightness) /\
    byte_at (Led.led_buffer g') (25 + 3 * (4 * row + col) + 2) =
      Led.green (Led.getColorWithBrightness c brightness) /\
    Led.current_device g' = Led.current_device g /\
    (r = true <->
     exists dev, Led.current_device g = Some dev /\ hid_write dev (Led.led_buffer g') = 81).
Proof.
  intros Hlen Hr Hc.
  destruct (setMatrixButtonLED_buffer g row col c brightness store_led_state Hlen Hr Hc)
    as (r & g' & Heq & Hbuf & Hdev & Hres).
  exists r, g'. split; [exact Heq|].
  rewrite Hbuf. unfold byte_at.
  repeat match goal with |- context [?x <? 0] => destruct (Z.ltb_spec x 0); [lia|] end.
  split; [|split; [|split; [|split]]].
  - rewrite list_lookup_insert_ne by lia. rewrite list_lookup_insert_ne by lia.
    rewrite list_lookup_insert_eq by lia. reflexivity.
  - rewrite list_lookup_insert_ne by lia.
    rewrite list_lookup_insert_eq by (rewrite length_insert; lia). reflexivity.
  - rewrite list_lookup_insert_eq by (rewrite !length_insert; lia). reflexivity.
  - exact Hdev.
  - rewrite Hres, <- Hbuf. destruct (Led.current_device g) as [dev|].
    + split.
      * intros Hw%Z.eqb_eq. exists dev. split; [reflexivity | exact Hw].
      * intros (dev' & [= <-] & Hw). apply Z.eqb_eq. exact Hw.
    + split; [discriminate|]. intros (dev' & [=] & _).
Qed.

Lemma setMatrixButtonLED_result_witness :
  exists r g',
    Led.setMatrixButtonLED (Led.initialized idle_device) 2 3 LEDColor.cyan F32.half false
      = Some (r, g') /\
    byte_at (Led.led_buffer g') (25 + 3 * (4 * 2 + 3)) =
      Led.blue (Led.getColorWithBrightness LEDColor.cyan F32.half).
Proof.
  destruct (setMatrixButtonLED_result (Led.initialized idle_device) 2 3 LEDColor.cyan
              F32.half false) as (r & g' & H1 & H2 & _); [reflexivity | lia | lia |].
  exists r, g'. split; assumption.
Defined.

(** X19.  Setting two different matrix cells gives the same buffer in
    either order, and setting one cell twice leaves what the second call
    alone would have written. *)
Theorem setMatrixButtonLED_compose (g : Led.globals) (row1 col1 row2 col2 : Z)
    (c1 c2 : LEDColor.t) (b1 b2 : spec_float) (s1 s2 : bool) :
  length (Led.led_buffer g) = 81%nat ->
  0 <= row1 <= 3 -> 0 <= col1 <= 3 -> 0 <= row2 <= 3 -> 0 <= col2 <= 3 ->
  exists r1 g1 r12 g12 r2 g2 r21 g21,
    Led.setMatrixButtonLED g row1 col1 c1 b1 s1 = Some (r1, g1) /\
    Led.setMatrixButtonLED g1 row2 col2 c2 b2 s2 = Some (r12, g12) /\
    Led.setMatrixButtonLED g row2 col2 c2 b2 s2 = Some (r2, g2) /\
    Led.setMatrixButtonLED g2 row1 col1 c1 b1 s1 = Some (r21, g21) /\
    ((row1, col1) <> (row2, col2) -> Led.led_buffer g12 = Led.led_buffer g21) /\
    ((row1, col1) = (row2, col2) -> Led.led_buffer g12 = Led.led_buffer g2).
Proof.
  intros Hlen Hr1 Hc1 Hr2 Hc2.
  destruct (setMatrixButtonLED_buffer g row1 col1 c1 b1 s1 Hlen Hr1 Hc1)
    as (r1 & g1 & E1 & B1 & _ & _).
  assert (L1 : length (Led.led_buffer g1) = 81%nat)
    by (rewrite B1, !length_insert; exact Hlen).
  destruct (setMatrixButtonLED_buffer g1 row2 col2 c2 b2 s2 L1 Hr2 Hc2)
    as (r12 & g12 & E12 & B12 & _ & _).
  destruct (setMatrixButtonLED_buffer g row2 col2 c2 b2 s2 Hlen Hr2 Hc2)
    as (r2 & g2 & E2 & B2 & _ & _).
  assert (L2 : length (Led.led_buffer g2) = 81%nat)
    by (rewrite B2, !length_insert; exact Hlen).
  destruct (setMatrixButtonLED_buffer g2 row1 col1 c1 b1 s1 L2 Hr1 Hc1)
    as (r21 & g21 & E21 & B21 & _ & _).
  exists r1, g1, r12, g12, r2, g2, r21, g21.
  repeat (split; [assumption|]).
  rewrite B12, B1, B21, B2. clear E1 E12 E2 E21 B1 B12 B2 B21 L1 L2.
  split.
  - intros Hne.
    assert (Hcell : 4 * row1 + col1 <> 4 * row2 + col2).
    { intros Heq. apply Hne. f_equal; lia. }
    apply list_eq. intros j.
    rewrite !list_lookup_insert, !length_insert, Hlen.
    repeat case_decide; try reflexivity; lia.
  - intros [= -> ->].
    apply list_eq. intros j.
    rewrite !list_lookup_insert, !length_insert, Hlen.
    repeat case_decide; try reflexivity; lia.
Qed.

Lemma setMatrixButtonLED_compose_witness :
  exists r1 g1 r12 g12 r2 g2 r21 g21,
    Led.setMatrixButtonLED (Led.initialized idle_device) 0 0 LEDColor.red F32.one false
      = Some (r1, g1) /\
    Led.setMatrixButtonLED g1 3 3 LEDColor.blue F32.half false = Some (r12, g12) /\
    Led.setMatrixButtonLED (Led.initialized idle_device) 3 3 LEDColor.blue F32.half false
      = Some (r2, g2) /\
    Led.setMatrixButtonLED g2 0 0 LEDColor.red F32.one false = Some (r21, g21) /\
    Led.led_buffer g12 = Led.led_buffer g21.
Proof.
  destruct (setMatrixButtonLED_compose (Led.initialized idle_device) 0 0 3 3
              LEDColor.red LEDColor.blue F32.one F32.half false false)
    as (r1 & g1 & r12 & g12 & r2 & g2 & r21 & g21 & H1 & H2 & H3 & H4 & Hne & _);
    [reflexivity | lia | lia | lia | lia |].
  exists r1, g1, r12, g12, r2, g2, r21, g21.
  repeat (split; [assumption|]).
  apply Hne. intros [=].
Defined.

(** ** Clearing and initialising *)

Lemma led_wf_matrix_inv (m : list (list Led.LEDStateMatrix)) :
  length m = 5%nat -> Forall (fun row => length row = 5%nat) m ->
  exists r0 r1 r2 r3 r4 : list Led.LEDStateMatrix,
    m = [r0; r1; r2; r3; r4] /\
    Forall (fun row => exists a0 a1 a2 a3 a4, row = [a0; a1; a2; a3; a4]) m.
Proof.
  intros Hlen Hrows.
  do 6 (destruct m as [|? m]; try discriminate Hlen). clear Hlen.
  do 5 eexists. split; [reflexivity|].
  eapply Forall_impl; [exact Hrows|].
  intros row Hrow. cbv beta in Hrow.
  do 6 (destruct row as [|? row]; try discriminate Hrow).
  do 5 eexists. reflexivity.
Qed.

Lemma clear_matrix_states_spec (m : list (list Led.LEDStateMatrix)) :
  length m = 5%nat -> Forall (fun row => length row = 5%nat) m ->
  length (Led.clear_matrix_states m) = 5%nat /\
  Forall (fun row => length row = 5%nat) (Led.clear_matrix_states m) /\
  forall row col, 1 <= row <= 4 -> 1 <= col <= 4 ->
    elem_at matrix_led_off (elem_at [] (Led.clear_matrix_states m) row) col = matrix_led_off.
Proof.
  intros Hlen Hrows.
  destruct (led_wf_matrix_inv m Hlen Hrows) as (r0 & r1 & r2 & r3 & r4 & -> & Hshape).
  repeat match goal with
         | H : Forall _ (_ :: _) |- _ => apply Forall_cons in H as [? H]
         end.
  repeat match goal with
         | H : exists _, _ |- _ => destruct H as [? H]
         end.
  subst.
  split; [reflexivity|]. split; [repeat constructor|].
  intros row col Hr Hc.
  assert (Hrow : row = 1 \/ row = 2 \/ row = 3 \/ row = 4) by lia.
  assert (Hcol : col = 1 \/ col = 2 \/ col = 3 \/ col = 4) by lia.
  destruct Hrow as [-> | [-> | [-> | ->]]]; destruct Hcol as [-> | [-> | [-> | ->]]];
    reflexivity.
Qed.

Lemma clear_states_spec (n : nat) (states : list Led.LEDState) :
  length states = n -> (n <= 5)%nat -> Led.clear_states n states = replicate n led_off.
Proof.
  intros Hlen Hn.
  do 6 (destruct n as [|n]; [
    repeat (destruct states as [|? states]; try discriminate Hlen); reflexivity |]).
  lia.
Qed.

(** X20.  [clearAllLEDs] resets everything but the report identifier:
    byte 0 of the buffer is kept and the other 80 are zero, every recorded
    single-LED state is off, and [getMatrixButtonState] answers (black,
    0.0) for every row and column whatsoever; the attached device is
    kept.  Clearing twice is clearing once. *)
Theorem clearAllLEDs_resets (g : Led.globals) :
  led_wf g ->
  led_wf (Led.clearAllLEDs g) /\
  Led.led_buffer (Led.clearAllLEDs g) = byte_at (Led.led_buffer g) 0 :: replicate 80 0 /\
  Led.special_states (Led.clearAllLEDs g) = replicate 5 led_off /\
  Led.control_states (Led.clearAllLEDs g) = replicate 3 led_off /\
  Led.stop_states (Led.clearAllLEDs g) = replicate 4 led_off /\
  (forall row col, Led.getMatrixButtonState (Led.clearAllLEDs g) row col = matrix_led_off) /\
  Led.current_device (Led.clearAllLEDs g) = Led.current_device g /\
  Led.led_buffer (Led.clearAllLEDs (Led.clearAllLEDs g)) = Led.led_buffer (Led.clearAllLEDs g).
Proof.
  intros (Hbuf & Hm & Hrows & Hsp & Hct & Hst).
  destruct (clear_matrix_states_spec _ Hm Hrows) as (Cm & Crows & Ccells).
  assert (Hb : Led.led_buffer (Led.clearAllLEDs g)
               = byte_at (Led.led_buffer g) 0 :: replicate 80 0).
  { unfold Led.clearAllLEDs. cbn [Led.led_buffer].
    destruct (Led.led_buffer g) as [|b0 rest]; [discriminate Hbuf|]. reflexivity. }
  assert (Hsp' : Led.special_states (Led.clearAllLEDs g) = replicate 5 led_off)
    by (apply clear_states_spec; [exact Hsp | lia]).
  assert (Hct' : Led.control_states (Led.clearAllLEDs g) = replicate 3 led_off)
    by (apply clear_states_spec; [exact Hct | lia]).
  assert (Hst' : Led.stop_states (Led.clearAllLEDs g) = replicate 4 led_off)
    by (apply clear_states_spec; [exact Hst | lia]).
  split; [|split; [exact Hb|split; [exact Hsp'|split; [exact Hct'|split; [exact Hst'|]]]]].
  - unfold led_wf. rewrite Hb, Hsp', Hct', Hst'.
    repeat split; try reflexivity; assumption.
  - split; [|split; [reflexivity|]].
    + intros row col. unfold Led.getMatrixButtonState.
      destruct (Led.isValidMatrixPosition row col) eqn:Hvalid; [|reflexivity].
      cbn [negb]. unfold Led.isValidMatrixPosition, Led.MATRIX_ROWS, Led.MATRIX_COLS in Hvalid.
      apply andb_true_iff in Hvalid as [Hvalid H4].
      apply andb_true_iff in Hvalid as [Hvalid H3].
      apply andb_true_iff in Hvalid as [H1 H2].
      apply Ccells; lia.
    + rewrite Hb. unfold Led.clearAllLEDs at 1. cbn [Led.led_buffer]. rewrite Hb.
      reflexivity.
Qed.

Lemma clearAllLEDs_resets_witness :
  Led.led_buffer (Led.clearAllLEDs (Led.initialized idle_device)) =
  byte_at (Led.led_buffer (Led.initialized idle_device)) 0 :: replicate 80 0.
Proof.
  apply (clearAllLEDs_resets (Led.initialized idle_device)).
  repeat split; try reflexivity. repeat constructor.
Defined.

(** X21.  [initializeLEDController]: without a device it fails and changes
    nothing.  With a device, from arrays of the declared sizes, it leaves
    the buffer as the report identifier 0x80 followed by 80 zero bytes,
    every recorded state off, [getMatrixButtonState] (black, 0.0)
    everywhere, the device attached, and returns whether the device took
    the 81 bytes; from the zero-initialised statics the result is the
    state [initialized]. *)
Theorem initializeLEDController_state (g : Led.globals) (dev : hid_device) :
  led_wf g ->
  Led.initializeLEDController g None = (false, g) /\
  let r := Led.initializeLEDController g (Some dev) in
  led_wf (snd r) /\
  Led.led_buffer (snd r) = Led.LED_REPORT_ID :: replicate 80 0 /\
  Led.special_states (snd r) = replicate 5 led_off /\
  Led.control_states (snd r) = replicate 3 led_off /\
  Led.stop_states (snd r) = replicate 4 led_off /\
  (forall row col, Led.getMatrixButtonState (snd r) row col = matrix_led_off) /\
  Led.current_device (snd r) = Some dev /\
  fst r = (hid_write dev (Led.LED_REPORT_ID :: replicate 80 0) =? 81) /\
  snd (Led.initializeLEDController Led.static_globals (Some dev)) = Led.initialized dev.
Proof.
  intros (Hbuf & Hm & Hrows & Hsp & Hct & Hst).
  split; [reflexivity|].
  destruct (clear_matrix_states_spec _ Hm Hrows) as (Cm & Crows & Ccells).
  cbv zeta. unfold Led.initializeLEDController. cbn [fst snd].
  cbn [Led.led_buffer Led.special_states Led.control_states Led.stop_states
       Led.current_device Led.matrix_states].
  rewrite !clear_states_spec by (try assumption; lia).
  change (<[0%nat:=Led.LED_REPORT_ID]> (replicate (Z.to_nat Led.LED_REPORT_SIZE) 0))
    with (Led.LED_REPORT_ID :: replicate 80 0).
  split; [repeat split; try reflexivity; assumption|].
  repeat (split; [reflexivity|]).
  split; [|split; [reflexivity|split; [|reflexivity]]].
  - intros row col. unfold Led.getMatrixButtonState. cbn [Led.matrix_states].
    destruct (Led.isValidMatrixPosition row col) eqn:Hvalid; [|reflexivity].
    cbn [negb]. unfold Led.isValidMatrixPosition, Led.MATRIX_ROWS, Led.MATRIX_COLS in Hvalid.
    apply andb_true_iff in Hvalid as [Hvalid H4].
    apply andb_true_iff in Hvalid as [Hvalid H3].
    apply andb_true_iff in Hvalid as [H1 H2].
    apply Ccells; lia.
  - unfold Led.sendLEDReport, Led.LED_REPORT_SIZE.
    destruct (Z.ltb_spec (hid_write dev (Led.LED_REPORT_ID :: replicate 80 0)) 0).
    + symmetry. apply Z.eqb_neq. lia.
    + destruct (hid_write dev (Led.LED_REPORT_ID :: replicate 80 0) =? 81); reflexivity.
Qed.

Lemma initializeLEDController_state_witness :
  Led.led_buffer (snd (Led.initializeLEDController Led.static_globals (Some idle_device))) =
  Led.LED_REPORT_ID :: replicate 80 0.
Proof.
  apply (initializeLEDController_state Led.static_globals idle_device).
  repeat split; try reflexivity. repeat constructor.
Defined.

(** ** A stop index out of range *)

(** X22.  [setStopButtonLED] does not check its index.  For an index from
    4 to 39, as in the call with index 4 of [testAllLEDs], and without
    recording, the call succeeds, leaves all eight stop-LED bytes (73 to
    80) as they are and writes the value into two bytes below them,
    [79 - 2 * index] and [80 - 2 * index]; for index 4 these are bytes 71
    and 72, the red and green byte of matrix cell (3,3).  With recording
    the same call stores outside [stop_states]. *)
Theorem setStopButtonLED_index_unchecked (g : Led.globals) (index : Z)
    (brightness : spec_float) :
  length (Led.led_buffer g) = 81%nat -> length (Led.stop_states g) = 4%nat ->
  4 <= index <= 39 ->
  (exists r g',
     Led.setStopButtonLED g index brightness false = Some (r, g') /\
     byte_at (Led.led_buffer g') (79 - 2 * index) =
       Led.convertTo7Bit 255 (Led.clamp_brightness brightness) /\
     byte_at (Led.led_buffer g') (80 - 2 * index) =
       Led.convertTo7Bit 255 (Led.clamp_brightness brightness) /\
     1 <= 79 - 2 * index /\ 80 - 2 * index <= 72 /\
     (forall j : nat, (73 <= j <= 80)%nat ->
                      Led.led_buffer g' !! j = Led.led_buffer g !! j)) /\
  Led.setStopButtonLED g index brightness true = None /\
  [79 - 2 * 4; 80 - 2 * 4] = [71; 72] /\ matrix_led_bytes 3 3 = [70; 71; 72].
Proof.
  intros Hlen Hstop Hi. split; [|split; [|split; reflexivity]].
  - unfold Led.setStopButtonLED. cbn [mbind option_bind].
    unfold Led.LED_BYTE_STOP_START.
    rewrite store_at_Some by lia. cbn [mbind option_bind].
    rewrite store_at_Some by (rewrite length_insert; lia). cbn [mbind option_bind].
    eexists _, _. split; [reflexivity|]. cbn [Led.led_buffer].
    replace (73 + (7 - index * 2) - 1) with (79 - 2 * index) by lia.
    replace (73 + (7 - index * 2)) with (80 - 2 * index) by lia.
    split; [|split; [|split; [lia|split; [lia|]]]].
    + unfold byte_at. destruct (Z.ltb_spec (79 - 2 * index) 0); [lia|].
      rewrite list_lookup_insert_ne by lia.
      rewrite list_lookup_insert_eq by lia. reflexivity.
    + apply byte_at_insert_eq. rewrite length_insert. lia.
    + intros j Hj. rewrite !list_lookup_insert_ne by lia. reflexivity.
  - unfold Led.setStopButtonLED.
    rewrite (store_at_None (Led.stop_states g)) by lia. reflexivity.
Qed.

Lemma setStopButtonLED_index_unchecked_witness :
  exists r g',
    Led.setStopButtonLED (Led.initialized idle_device) 4 F32.one false = Some (r, g') /\
    byte_at (Led.led_buffer g') (79 - 2 * 4) =
      Led.convertTo7Bit 255 (Led.clamp_brightness F32.one).
Proof.
  destruct (setStopButtonLED_index_unchecked (Led.initialized idle_device) 4 F32.one)
    as ((r & g' & H1 & H2 & _) & _); [reflexivity | reflexivity | lia |].
  exists r, g'. split; assumption.
Defined.

(** ** MIDI notes and the LED feedback *)

Lemma option_bind_Some {A} (x : option A) : x ≫= (fun a => Some a) = x.
Proof. destruct x; reflexivity. Qed.

(** X23.  Note numbers and LED feedback agree on the matrix: the note
    of cell (row, col), for rows and columns 0 to 3, lies in 36..51 and
    differs from cell to cell; when the Note On message that
    [sendMatrixButtonPress] builds for a cell comes back through
    [mycallback], the LED set is that of the same cell (red at 0.2), and
    the Note Off message sets the same cell (blue at 0.8).  The two
    brightness values are the [double] literals converted to [float]. *)
Theorem mycallback_echoes_matrix_note (g : Led.globals) (row col row' col' : Z) :
  0 <= row <= 3 -> 0 <= col <= 3 -> 0 <= row' <= 3 -> 0 <= col' <= 3 ->
  36 <= Midi.matrixPositionToMidiNote row col <= 51 /\
  (Midi.matrixPositionToMidiNote row col = Midi.matrixPositionToMidiNote row' col' ->
   row = row' /\ col = col') /\
  Midi.mycallback g (Midi.sendMatrixButtonPress row col) =
    snd <$> Led.setMatrixButtonLED g row col LEDColor.red Midi.brightness_0_2 false /\
  Midi.mycallback g (Midi.sendMatrixButtonRelease row col) =
    snd <$> Led.setMatrixButtonLED g row col LEDColor.blue Midi.brightness_0_8 false /\
  Midi.brightness_0_2 = Midi.double_to_float (Midi.double_of_ratio 2 10) /\
  Midi.brightness_0_8 = Midi.double_to_float (Midi.double_of_ratio 8 10).
Proof.
  intros Hr Hc Hr' Hc'.
  split; [unfold Midi.matrixPositionToMidiNote, Midi.MIDI_NOTE_MATRIX_BASE; lia|].
  split; [unfold Midi.matrixPositionToMidiNote, Midi.MIDI_NOTE_MATRIX_BASE; lia|].
  assert (Hrow : row = 0 \/ row = 1 \/ row = 2 \/ row = 3) by lia.
  assert (Hcol : col = 0 \/ col = 1 \/ col = 2 \/ col = 3) by lia.
  split; [|split; [|split; reflexivity]].
  - destruct Hrow as [-> | [-> | [-> | ->]]]; destruct Hcol as [-> | [-> | [-> | ->]]];
      unfold Midi.mycallback; cbn -[Led.setMatrixButtonLED];
      apply option_bind_Some.
  - destruct Hrow as [-> | [-> | [-> | ->]]]; destruct Hcol as [-> | [-> | [-> | ->]]];
      unfold Midi.mycallback; cbn -[Led.setMatrixButtonLED]; reflexivity.
Qed.

Lemma mycallback_echoes_matrix_note_witness :
  Midi.mycallback (Led.initialized idle_device) (Midi.sendMatrixButtonPress 2 1) =
  snd <$> Led.setMatrixButtonLED (Led.initialized idle_device) 2 1 LEDColor.red
            Midi.brightness_0_2 false.
Proof.
  apply (mycallback_echoes_matrix_note (Led.initialized idle_device) 2 1 0 0); lia.
Defined.

Lemma store_at_negative {A} (a : list A) (i : Z) (v : A) :
  i < 0 -> store_at a i v = None.
Proof.
  intros Hi. unfold store_at. destruct (Z.leb_spec 0 i); [lia | reflexivity].
Qed.

(** X24.  Outside the matrix notes, [mycallback] passes [note - 16] to
    [setStopButtonLED] unchecked and with recording.  For a Note On or
    Note Off whose note is not in 36..51, the call has a defined outcome
    exactly when the note is 16, 17, 18 or 19; every other note stores
    outside [stop_states].  In particular the notes 52 to 55 that
    [sendButtonPress] sends for the stop buttons cannot be echoed
    back. *)
Theorem mycallback_stop_note_range (g : Led.globals) (status note velocity : Z) :
  led_wf g -> status = 144 \/ status = 128 ->
  0 <= note <= 255 -> ~ (36 <= note <= 51) ->
  (is_Some (Midi.mycallback g [status; note; velocity]) <-> 16 <= note <= 19) /\
  (forall i, 0 <= i <= 3 -> Midi.mycallback g (Midi.sendButtonPress i) = None).
Proof.
  intros (Hbuf & _ & _ & _ & _ & Hstop) Hstatus Hnote Hout.
  assert (Hundef : forall b n, ~ (0 <= n <= 3) -> Led.setStopButtonLED g n b true = None).
  { intros b n Hn. unfold Led.setStopButtonLED.
    destruct (Z.lt_ge_cases n 0).
    - rewrite (store_at_negative (Led.stop_states g)) by lia. reflexivity.
    - rewrite (store_at_None (Led.stop_states g)) by lia. reflexivity. }
  assert (Hdef : forall b n, 0 <= n <= 3 -> is_Some (Led.setStopButtonLED g n b true)).
  { intros b n Hn.
    destruct (setStopButtonLED_frame g n b true Hbuf Hstop Hn) as (r & g' & -> & _).
    eexists. reflexivity. }
  assert (Hunfold : forall st n v,
             ~ (36 <= n <= 51) ->
             Midi.mycallback g [st; n; v] =
             (if st =? 144 then snd <$> Led.setStopButtonLED g (n - 16) F32.one true
              else Some g)
             ≫= (fun g1 => if st =? 128
                           then snd <$> Led.setStopButtonLED g1 (n - 16) F32.zero true
                           else Some g1)).
  { intros st n v Hn. unfold Midi.mycallback.
    change (Z.of_nat (length [st; n; v]) >? 2) with true. cbv iota.
    change (byte_at [st; n; v] 1) with n.
    change (byte_at [st; n; v] 0) with st.
    assert (Hcond : (n >=? 36) && (n <? 36 + 16) = false).
    { destruct (Z.geb_spec n 36); [|reflexivity].
      destruct (Z.ltb_spec n (36 + 16)); [lia | reflexivity]. }
    rewrite Hcond. reflexivity. }
  assert (Hnone : forall st n v,
             st = 144 \/ st = 128 -> ~ (36 <= n <= 51) -> ~ (16 <= n <= 19) ->
             Midi.mycallback g [st; n; v] = None).
  { intros st n v Hst Hn1 Hn2. rewrite Hunfold by exact Hn1.
    destruct Hst as [-> | ->]; cbn [Z.eqb Pos.eqb mbind option_bind];
      rewrite Hundef by lia; reflexivity. }
  split.
  - destruct (Z.le_gt_cases 16 note) as [H16|H16];
      [destruct (Z.le_gt_cases note 19) as [H19|H19]|].
    + split; [intros _; lia|]. intros _. rewrite Hunfold by exact Hout.
      destruct Hstatus as [-> | ->]; cbn [Z.eqb Pos.eqb mbind option_bind].
      * destruct (Hdef F32.one (note - 16) ltac:(lia)) as [[r g'] ->].
        eexists. reflexivity.
      * destruct (Hdef F32.zero (note - 16) ltac:(lia)) as [[r g'] ->].
        eexists. reflexivity.
    + split; [|lia]. rewrite Hnone by (try assumption; lia).
      intros [x Hx]. discriminate Hx.
    + split; [|lia]. rewrite Hnone by (try assumption; lia).
      intros [x Hx]. discriminate Hx.
  - intros i Hi.
    assert (Hcases : i = 0 \/ i = 1 \/ i = 2 \/ i = 3) by lia.
    destruct Hcases as [-> | [-> | [-> | ->]]].
    + change (Midi.sendButtonPress 0) with [144; 52; 127]. apply Hnone; [left; reflexivity|lia|lia].
    + change (Midi.sendButtonPress 1) with [144; 53; 127]. apply Hnone; [left; reflexivity|lia|lia].
    + change (Midi.sendButtonPress 2) with [144; 54; 127]. apply Hnone; [left; reflexivity|lia|lia].
    + change (Midi.sendButtonPress 3) with [144; 55; 127]. apply Hnone; [left; reflexivity|lia|lia].
Qed.

Lemma mycallback_stop_note_range_witness :
  is_Some (Midi.mycallback (Led.initialized idle_device) [144; 17; 127]) <-> 16 <= 17 <= 19.
Proof.
  apply (mycallback_stop_note_range (Led.initialized idle_device) 144 17 127).
  - repeat split; try reflexivity. repeat constructor.
  - left. reflexivity.
  - lia.
  - lia.
Defined.

(** ** Power-on animation *)

(** X25.  The animation ends dark: whatever the 81-byte buffer held, after
    the 64 matrix calls of [startupSequence] all 48 matrix bytes (25 to
    72) are zero, every other byte of the buffer is as before, and no
    recorded state has changed. *)
Theorem run_animation_dark (g : Led.globals) :
  length (Led.led_buffer g) = 81%nat ->
  exists g',
    Startup.run_animation g = Some g' /\
    Led.led_buffer g' =
      take 25 (Led.led_buffer g) ++ replicate 48 0 ++ drop 73 (Led.led_buffer g) /\
    Led.matrix_states g' = Led.matrix_states g /\
    Led.special_states g' = Led.special_states g /\
    Led.control_states g' = Led.control_states g /\
    Led.stop_states g' = Led.stop_states g /\
    Led.current_device g' = Led.current_device g.
Proof.
  intros Hlen. destruct g as [buf dev ms ss cs sts]. cbn [Led.led_buffer] in Hlen.
  do 82 (destruct buf as [|? buf]; try discriminate Hlen). clear Hlen.
  eexists. split; [vm_compute; reflexivity|].
  repeat split.
Qed.

Lemma run_animation_dark_witness :
  exists g',
    Startup.run_animation (Led.initialized idle_device) = Some g' /\
    Led.led_buffer g' =
      take 25 (Led.led_buffer (Led.initialized idle_device)) ++ replicate 48 0
      ++ drop 73 (Led.led_buffer (Led.initialized idle_device)).
Proof.
  destruct (run_animation_dark (Led.initialized idle_device)) as (g' & H1 & H2 & _);
    [reflexivity|].
  exists g'. split; assumption.
Defined.

Lemma run_animation_defined (g : Led.globals) :
  length (Led.led_buffer g) = 81%nat ->
  exists g',
    Startup.run_animation g = Some g' /\
    length (Led.led_buffer g') = 81%nat /\
    Led.special_states g' = Led.special_states g.
Proof.
  intros Hlen. destruct g as [buf dev ms ss cs sts]. cbn [Led.led_buffer] in Hlen.
  do 82 (destruct buf as [|? buf]; try discriminate Hlen). clear Hlen.
  eexists. split; [vm_compute; reflexivity|].
  split; reflexivity.
Qed.

Lemma setButtonLED_defined (g : Led.globals) (button : Led.LEDButton)
    (brightness : spec_float) :
  length (Led.led_buffer g) = 81%nat -> length (Led.special_states g) = 5%nat ->
  Led.LEDButton_to_int button <= 4 ->
  exists r g',
    Led.setButtonLED g button brightness true = Some (r, g') /\
    length (Led.led_buffer g') = 81%nat /\ length (Led.special_states g') = 5%nat.
Proof.
  intros Hlen Hsp Hidx. unfold Led.setButtonLED.
  assert (H0 : 0 <= Led.LEDButton_to_int button) by (destruct button; simpl; lia).
  rewrite (store_at_Some (Led.special_states g)) by lia. cbn [mbind option_bind].
  assert (Hrange : 17 <= (if Led.LEDButton_to_int button <? 3
                          then Led.LED_BYTE_CONTROL_START + Led.LEDButton_to_int button
                          else Led.LED_BYTE_SPECIAL_START + (Led.LEDButton_to_int button - 3))
                   <= 24) by (destruct button; vm_compute; split; discriminate).
  rewrite store_at_Some by lia. cbn [mbind option_bind].
  eexists _, _. split; [reflexivity|].
  cbn [Led.led_buffer Led.special_states]. rewrite !length_insert. split; assumption.
Qed.

(** X26.  [startupSequence] does nothing without a device.  With a
    device, and arrays of the declared sizes, it has no defined outcome:
    after the animation and the calls for BROWSE and SIZE, its third
    button call, [setButtonLED(LEDButton::TYPE, 0.0f, true)], stores at
    index 5 of the five-element [special_states]. *)
Theorem startupSequence_out_of_bounds (g : Led.globals) (dev : hid_device) :
  led_wf g ->
  Startup.startupSequence g None = Some g /\
  is_Some (Startup.run_animation g) /\
  Startup.startupSequence g (Some dev) = None.
Proof.
  intros (Hbuf & _ & _ & Hsp & _ & _).
  split; [reflexivity|].
  destruct (run_animation_defined g Hbuf) as (g1 & Hrun & L1 & Hs1).
  split; [rewrite Hrun; eexists; reflexivity|].
  unfold Startup.startupSequence. rewrite Hrun. cbn [mbind option_bind].
  assert (S1 : length (Led.special_states g1) = 5%nat) by (rewrite Hs1; exact Hsp).
  unfold Startup.run_final_buttons, Startup.final_buttons. cbn [fold_left fst snd].
  cbn [mbind option_bind].
  destruct (setButtonLED_defined g1 Led.BROWSE F32.half L1 S1 ltac:(simpl; lia))
    as (r2 & g2 & -> & L2 & S2).
  cbn [fmap option_fmap option_map snd mbind option_bind].
  destruct (setButtonLED_defined g2 Led.SIZE F32.zero L2 S2 ltac:(simpl; lia))
    as (r3 & g3 & -> & L3 & S3).
  cbn [fmap option_fmap option_map snd mbind option_bind].
  rewrite (setButtonLED_recording_index g3 Led.TYPE F32.zero S3 ltac:(simpl; lia)).
  reflexivity.
Qed.

Lemma startupSequence_out_of_bounds_witness :
  Startup.startupSequence (Led.initialized idle_device) (Some idle_device) = None.
Proof.
  apply (startupSequence_out_of_bounds (Led.initialized idle_device) idle_device).
  repeat split; try reflexivity. repeat constructor.
Defined.

(** ** MidiHandler: what is sent *)

Lemma midi_knob_iteration_spec (midi_out : bool) (buf : list Z)
    (st : MidiLoops.AnalogControlState) (out : list (list Z)) (j : Z) :
  MidiLoops.knob_iteration midi_out buf (st, out) j =
  ({| MidiLoops.previous_knob_values :=
        <[Z.to_nat j := knob_value buf j]> (MidiLoops.previous_knob_values st);
      MidiLoops.previous_fader_values := MidiLoops.previous_fader_values st |},
   out ++ (if knob_value buf j =? elem_at 0 (MidiLoops.previous_knob_values st) j
           then []
           else MidiLoops.sendMidiMessage midi_out (Midi.sendKnobChange j (knob_value buf j)))).
Proof.
  unfold MidiLoops.knob_iteration. fold (knob_value buf j).
  destruct (knob_value buf j =? elem_at 0 (MidiLoops.previous_knob_values st) j);
    cbn [negb]; rewrite ?app_nil_r; reflexivity.
Qed.

Lemma midi_fader_iteration_spec (midi_out : bool) (buf : list Z)
    (st : MidiLoops.AnalogControlState) (out : list (list Z)) (j : Z) :
  MidiLoops.fader_iteration midi_out buf (st, out) j =
  ({| MidiLoops.previous_knob_values := MidiLoops.previous_knob_values st;
      MidiLoops.previous_fader_values :=
        <[Z.to_nat j := fader_value buf j]> (MidiLoops.previous_fader_values st) |},
   out ++ (if fader_value buf j =? elem_at 0 (MidiLoops.previous_fader_values st) j
           then []
           else MidiLoops.sendMidiMessage midi_out (Midi.sendFaderChange j (fader_value buf j)))).
Proof.
  unfold MidiLoops.fader_iteration. fold (fader_value buf j).
  destruct (fader_value buf j =? elem_at 0 (MidiLoops.previous_fader_values st) j);
    cbn [negb]; rewrite ?app_nil_r; reflexivity.
Qed.

Lemma midi_cc_message (base k v : Z) :
  0 <= k <= 3 -> 0 <= v <= 127 -> 0 <= base <= 5 ->
  [to_uchar (Midi.MIDI_CC + Midi.MIDI_CHANNEL); to_uchar (base + k);
   to_uchar (Z.min (Z.max v 0) 127)] = [0xB0; base + k; v].
Proof.
  intros Hk Hv Hb. unfold to_uchar, Midi.MIDI_CC, Midi.MIDI_CHANNEL.
  rewrite Z.max_l, Z.min_l by lia.
  rewrite (Z.mod_small (base + k)), (Z.mod_small v) by lia. reflexivity.
Qed.

(** X27.  What [MidiHandler] sends for the analog controls in one frame,
    with the port open: for each knob, then each fader, whose truncated
    value differs from the stored one, one Control Change message
    [0xB0, controller, value] with controller 1 to 4 for knobs and 5 to 8
    for faders and the value itself, between 0 and 127 (not doubled and
    not delayed, unlike [ControllerHandler]); the stored values become the
    values of the frame. *)
Theorem midi_analog_messages (buf : list Z) (st : MidiLoops.AnalogControlState) :
  length (MidiLoops.previous_knob_values st) = 4%nat ->
  length (MidiLoops.previous_fader_values st) = 4%nat ->
  snd (MidiLoops.updateKnobStates true buf st) =
    flat_map (fun k => if knob_value buf k =? elem_at 0 (MidiLoops.previous_knob_values st) k
                       then [] else [[0xB0; 1 + k; knob_value buf k]]) (range 4) /\
  snd (MidiLoops.updateFaderStates true buf st) =
    flat_map (fun k => if fader_value buf k =? elem_at 0 (MidiLoops.previous_fader_values st) k
                       then [] else [[0xB0; 5 + k; fader_value buf k]]) (range 4) /\
  MidiLoops.previous_knob_values (fst (MidiLoops.updateKnobStates true buf st)) =
    map (knob_value buf) (range 4) /\
  MidiLoops.previous_fader_values (fst (MidiLoops.updateFaderStates true buf st)) =
    map (fader_value buf) (range 4) /\
  (forall k, 0 <= knob_value buf k <= 127 /\ 0 <= fader_value buf k <= 127).
Proof.
  intros Hk Hf. destruct st as [pk pf].
  cbn [MidiLoops.previous_knob_values MidiLoops.previous_fader_values] in *.
  do 5 (destruct pk as [|? pk]; try discriminate Hk). clear Hk.
  do 5 (destruct pf as [|? pf]; try discriminate Hf). clear Hf.
  assert (Hmk : forall k, 0 <= k <= 3 ->
            MidiLoops.sendMidiMessage true (Midi.sendKnobChange k (knob_value buf k))
            = [[0xB0; 1 + k; knob_value buf k]]).
  { intros k Hk. unfold MidiLoops.sendMidiMessage, Midi.sendKnobChange.
    unfold Midi.MIDI_CC_KNOB_BASE.
    rewrite midi_cc_message by (try apply knob_value_eq; lia). reflexivity. }
  assert (Hmf : forall k, 0 <= k <= 3 ->
            MidiLoops.sendMidiMessage true (Midi.sendFaderChange k (fader_value buf k))
            = [[0xB0; 5 + k; fader_value buf k]]).
  { intros k Hk. unfold MidiLoops.sendMidiMessage, Midi.sendFaderChange.
    unfold Midi.MIDI_CC_FADER_BASE.
    rewrite midi_cc_message by (try apply fader_value_eq; lia). reflexivity. }
  unfold MidiLoops.updateKnobStates, MidiLoops.updateFaderStates.
  change (range 4) with [0; 1; 2; 3]. cbn [fold_left].
  repeat (rewrite midi_knob_iteration_spec;
          cbn [MidiLoops.previous_knob_values MidiLoops.previous_fader_values]).
  repeat (rewrite midi_fader_iteration_spec;
          cbn [MidiLoops.previous_knob_values MidiLoops.previous_fader_values]).
  rewrite !Hmk, !Hmf by lia.
  set (kv := knob_value buf). set (fv := fader_value buf).
  cbn [fst snd flat_map app].
  split; [|split; [|split; [|split]]].
  - clearbody kv fv. rewrite !app_nil_r, <- !app_assoc. reflexivity.
  - clearbody kv fv. rewrite !app_nil_r, <- !app_assoc. reflexivity.
  - reflexivity.
  - reflexivity.
  - intros k. split; [apply knob_value_eq | apply fader_value_eq].
Qed.

Lemma midi_analog_messages_witness :
  snd (MidiLoops.updateKnobStates true (report_with 7 1) MidiLoops.AnalogControlState_init) =
  flat_map (fun k => if knob_value (report_with 7 1) k
                        =? elem_at 0 (MidiLoops.previous_knob_values
                                        MidiLoops.AnalogControlState_init) k
                     then [] else [[0xB0; 1 + k; knob_value (report_with 7 1) k]]) (range 4).
Proof.
  apply (midi_analog_messages (report_with 7 1) MidiLoops.AnalogControlState_init);
    reflexivity.
Defined.

(** X28.  [MidiHandler::updateButtons] sends one Note On, velocity 127,
    per frame for the shift button while it is down, with note 52, and
    one for each stop button that is down, with notes 52 to 55; with the
    port closed it sends nothing.  Shift and the first stop button share
    note 52: a frame with only shift down and a frame with only the first
    stop button down send the same message. *)
Theorem midi_button_messages (buf : list Z) :
  MidiLoops.updateButtons true buf =
    (if InputReader.isSpecialButtonPressed buf 0 then [[0x90; 52; 127]] else [])
    ++ flat_map (fun i => if InputReader.isStopButtonPressed buf i
                          then [[0x90; 52 + i; 127]] else []) (range 4) /\
  MidiLoops.updateButtons false buf = [] /\
  MidiLoops.updateButtons true (report_with 3 0x80) =
    MidiLoops.updateButtons true (report_with 4 0x80).
Proof.
  split; [|split; [|reflexivity]].
  - unfold MidiLoops.updateButtons.
    change (EnumReader.isSpecialButtonPressed buf EnumReader.SHIFT)
      with (InputReader.isSpecialButtonPressed buf 0).
    change (range 4) with [0; 1; 2; 3]. cbn [fold_left flat_map].
    change (MidiLoops.sendMidiMessage true (Midi.sendButtonPress 0)) with [[0x90; 52; 127]].
    change (MidiLoops.sendMidiMessage true (Midi.sendButtonPress 1)) with [[0x90; 53; 127]].
    change (MidiLoops.sendMidiMessage true (Midi.sendButtonPress 2)) with [[0x90; 54; 127]].
    change (MidiLoops.sendMidiMessage true (Midi.sendButtonPress 3)) with [[0x90; 55; 127]].
    destruct (InputReader.isSpecialButtonPressed buf 0);
      destruct (InputReader.isStopButtonPressed buf 0);
      destruct (InputReader.isStopButtonPressed buf 1);
      destruct (InputReader.isStopButtonPressed buf 2);
      destruct (InputReader.isStopButtonPressed buf 3); reflexivity.
  - unfold MidiLoops.updateButtons.
    change (range 4) with [0; 1; 2; 3]. cbn [fold_left].
    unfold MidiLoops.sendMidiMessage.
    destruct (EnumReader.isSpecialButtonPressed buf EnumReader.SHIFT);
      destruct (InputReader.isStopButtonPressed buf 0);
      destruct (InputReader.isStopButtonPressed buf 1);
      destruct (InputReader.isStopButtonPressed buf 2);
      destruct (InputReader.isStopButtonPressed buf 3); reflexivity.
Qed.
